(** * update-firestorm: a shallow embedding of helpers/update-firestorm.py

    The script takes a dotted version string, downloads the matching
    Firestorm installer, hashes it with SHA-256 and rewrites three fields
    of the Scoop manifest [bucket/firestorm-beta.json].

    The embedding follows the script function by function.  Stateful code
    is written in a small state-and-exception monad over a file system
    (a finite map from paths to nodes), an output trace and the local
    variable [installer_path] of [main].  The network, the import system
    and the subprocesses are read-only parts of the environment.

    Of the library code the script calls, the embedding keeps what the
    script's outcome depends on: the status and the chunks of the HTTP
    response, the digest, the exceptions of [open], [mkdir] and [unlink],
    and for the [json] module the exceptions of the text codec and the
    chunks in which [json.dump] writes.  [args] is the command line after
    [argparse] has accepted it.  Failures of the machine under the
    interpreter (memory, disk, recursion depth) are not modelled. *)

From Stdlib Require Import ZArith List Ascii String Strings.Byte Bool Lia.
From stdpp Require Import base option list gmap strings pretty.

Set Default Proof Using "Type".
Set Warnings "-register-all".
Local Open Scope Z_scope.

(* ===================================================================== *)
(** * Part I: definitions *)
(* ===================================================================== *)

(** ** Strings

    A Python [str] is modelled by [string]; non-ASCII text is held in its
    UTF-8 encoding, under which the ASCII characters that the script
    searches for (".", "-", "/", "{", "}") never occur inside the
    encoding of another character. *)

Module Str.

(** [s.replace(old, new)] for one-character [old] and [new], the only
    form the script uses. *)
Fixpoint replace (old new : ascii) (s : string) : string :=
  match s with
  | EmptyString => EmptyString
  | String c rest =>
      String (if Ascii.eqb c old then new else c) (replace old new rest)
  end.

(** Membership of a character in a string. *)
Fixpoint contains (c : ascii) (s : string) : bool :=
  match s with
  | EmptyString => false
  | String d rest => Ascii.eqb d c || contains c rest
  end.

(** [template.format(arg)] for a template whose only replacement field
    is one ["{}"]: the text before the field, the argument as it is,
    and the text after the field. *)
Fixpoint format (template arg : string) : string :=
  match template with
  | EmptyString => EmptyString
  | String c rest =>
      match rest with
      | String d rest' =>
          if Ascii.eqb c "{" && Ascii.eqb d "}" then arg +:+ rest'
          else String c (format rest arg)
      | EmptyString => String c EmptyString
      end
  end.

(** [Path(s).name]: what follows the last "/" of [s]. *)
Fixpoint name_from (acc s : string) : string :=
  match s with
  | EmptyString => acc
  | String c rest =>
      if Ascii.eqb c "/" then name_from EmptyString rest
      else name_from (acc +:+ String c EmptyString) rest
  end.

Definition basename (s : string) : string := name_from EmptyString s.

(** The ASCII part of [str.upper]. *)
Definition upper_char (c : ascii) : ascii :=
  let n := nat_of_ascii c in
  if (Nat.leb 97 n && Nat.leb n 122)%bool then ascii_of_nat (n - 32) else c.

Fixpoint upper (s : string) : string :=
  match s with
  | EmptyString => EmptyString
  | String c rest => String (upper_char c) (upper rest)
  end.

(** Characters of an uppercase hexadecimal numeral. *)
Definition is_upper_hex (c : ascii) : bool :=
  let n := nat_of_ascii c in
  ((Nat.leb 48 n && Nat.leb n 57) || (Nat.leb 65 n && Nat.leb n 70))%bool.

Fixpoint all_chars (p : ascii -> bool) (s : string) : bool :=
  match s with
  | EmptyString => true
  | String c rest => p c && all_chars p rest
  end.

End Str.

(** Line 11. *)
Definition URL_TEMPLATE : string :=
  "https://downloads.firestormviewer.org/preview/windows/Phoenix-Firestorm-Betax64_AVX2-{}_Setup.exe".

Definition url_prefix : string :=
  "https://downloads.firestormviewer.org/preview/windows/Phoenix-Firestorm-Betax64_AVX2-".

Definition url_suffix : string := "_Setup.exe".

(** Line 134: [hyphen_version = dotted_version.replace(".", "-")]. *)
Definition hyphenate (dotted_version : string) : string :=
  Str.replace "." "-" dotted_version.

(** The inverse substitution the specification speaks of. *)
Definition dehyphenate (hyphen_version : string) : string :=
  Str.replace "-" "." hyphen_version.

(** ** UTF-8

    The manifest is opened with [encoding='utf-8'].  That codec is
    strict: it takes the shortest form of every code point, no surrogate
    (U+D800 to U+DFFF) and nothing above U+10FFFF.  A [str] can hold a
    lone surrogate, and [json.load] makes one from an escape such as
    "\ud800"; in the model such a character is held as the three bytes
    ED A0..BF 80..BF that the generalised encoding gives it, which the
    strict codec refuses in both directions. *)

Module Utf8.

Definition between (lo hi : nat) (b : byte) : bool :=
  (Nat.leb lo (Byte.to_nat b) && Nat.leb (Byte.to_nat b) hi)%bool.

(** A byte that continues a sequence: 80 to BF. *)
Definition continuation (b : byte) : bool := between 128 191 b.

(** The second byte of a sequence of three: E0 is followed by A0..BF
    (shortest form) and ED by 80..9F (no surrogate). *)
Definition second_of_three (lead b : byte) : bool :=
  if between 224 224 lead then between 160 191 b
  else if between 237 237 lead then between 128 159 b
  else continuation b.

(** The second byte of a sequence of four: F0 is followed by 90..BF
    (shortest form) and F4 by 80..8F (at most U+10FFFF). *)
Definition second_of_four (lead b : byte) : bool :=
  if between 240 240 lead then between 144 191 b
  else if between 244 244 lead then between 128 143 b
  else continuation b.

(** What [bytes.decode('utf-8')] accepts. *)
Fixpoint valid (data : list byte) : bool :=
  match data with
  | [] => true
  | b0 :: l1 =>
      if between 0 127 b0 then valid l1
      else
        match l1 with
        | [] => false
        | b1 :: l2 =>
            if between 194 223 b0 then continuation b1 && valid l2
            else
              match l2 with
              | [] => false
              | b2 :: l3 =>
                  if between 224 239 b0 then
                    second_of_three b0 b1 && continuation b2 && valid l3
                  else
                    match l3 with
                    | [] => false
                    | b3 :: l4 =>
                        between 240 244 b0 && second_of_four b0 b1
                        && continuation b2 && continuation b3 && valid l4
                    end
              end
        end
  end.

(** What [str.encode('utf-8')] accepts: the text holds no lone
    surrogate. *)
Definition encodable (text : string) : bool :=
  valid (list_byte_of_string text).

End Utf8.

(** The lone surrogate U+D800, as a [str] holds it. *)
Definition lone_surrogate : string :=
  String "237" (String "160" (String "128" EmptyString)).

(** ** SHA-256

    [hashlib.sha256] is library code.  It is modelled twice: [sha256] is
    the digest of a whole message as the standard defines it, and
    [hasher] is the incremental object the script feeds chunk by chunk.
    Words are integers below 2^32 with the wrap-around written out. *)

Module SHA256.

Definition add32 (x y : Z) : Z := (x + y) mod 2 ^ 32.

Definition rotr (n x : Z) : Z :=
  Z.lor (Z.shiftr x n) (Z.shiftl x (32 - n)) mod 2 ^ 32.

Definition shr (n x : Z) : Z := Z.shiftr x n.

Definition not32 (x : Z) : Z := Z.lxor x 0xffffffff.

Definition Ch (x y z : Z) : Z := Z.lxor (Z.land x y) (Z.land (not32 x) z).

Definition Maj (x y z : Z) : Z :=
  Z.lxor (Z.lxor (Z.land x y) (Z.land x z)) (Z.land y z).

Definition Sigma0 (x : Z) : Z := Z.lxor (Z.lxor (rotr 2 x) (rotr 13 x)) (rotr 22 x).
Definition Sigma1 (x : Z) : Z := Z.lxor (Z.lxor (rotr 6 x) (rotr 11 x)) (rotr 25 x).
Definition sigma0 (x : Z) : Z := Z.lxor (Z.lxor (rotr 7 x) (rotr 18 x)) (shr 3 x).
Definition sigma1 (x : Z) : Z := Z.lxor (Z.lxor (rotr 17 x) (rotr 19 x)) (shr 10 x).

(** The largest [r] below [2 ^ bits] with [r ^ k <= n], found bit by bit
    from the top. *)
Fixpoint iroot (k : Z) (bits : nat) (n r : Z) : Z :=
  match bits with
  | O => r
  | S bits' =>
      let r' := r + 2 ^ Z.of_nat bits' in
      iroot k bits' n (if r' ^ k <=? n then r' else r)
  end.

(** The first 32 bits of the fractional part of the [k]-th root of [p]. *)
Definition root_fraction (k p : Z) : Z :=
  iroot k 40 (p * 2 ^ (32 * k)) 0 mod 2 ^ 32.

Definition primes : list Z :=
  [ 2; 3; 5; 7; 11; 13; 17; 19; 23; 29; 31; 37; 41; 43; 47; 53; 59; 61; 67;
    71; 73; 79; 83; 89; 97; 101; 103; 107; 109; 113; 127; 131; 137; 139;
    149; 151; 157; 163; 167; 173; 179; 181; 191; 193; 197; 199; 211; 223;
    227; 229; 233; 239; 241; 251; 257; 263; 269; 271; 277; 281; 283; 293;
    307; 311 ].

(** The round constants: from the cube roots of the first 64 primes. *)
Definition K : list Z :=
  Eval vm_compute in map (root_fraction 3) primes.

(** The eight 32-bit words of a hash value. *)
Record regs := Regs { ra : Z; rb : Z; rc : Z; rd : Z; re : Z; rf : Z; rg : Z; rh : Z }.

(** The initial hash value: from the square roots of the first 8 primes. *)
Definition H0 : regs :=
  Eval vm_compute in
    Regs (root_fraction 2 2) (root_fraction 2 3) (root_fraction 2 5)
         (root_fraction 2 7) (root_fraction 2 11) (root_fraction 2 13)
         (root_fraction 2 17) (root_fraction 2 19).

Definition Z_of_byte (b : byte) : Z := Z.of_N (Byte.to_N b).

Definition byte_of_Z (z : Z) : byte :=
  match Byte.of_N (Z.to_N (z mod 256)) with
  | Some b => b
  | None => x00
  end.

(** Big-endian 32-bit words of a byte string; a tail shorter than four
    bytes is dropped (blocks are 64 bytes long). *)
Fixpoint words_of_bytes (l : list byte) : list Z :=
  match l with
  | b0 :: b1 :: b2 :: b3 :: rest =>
      (Z.shiftl (Z_of_byte b0) 24 + Z.shiftl (Z_of_byte b1) 16
       + Z.shiftl (Z_of_byte b2) 8 + Z_of_byte b3) :: words_of_bytes rest
  | _ => []
  end.

Definition bytes_of_word (w : Z) : list byte :=
  [ byte_of_Z (Z.shiftr w 24); byte_of_Z (Z.shiftr w 16);
    byte_of_Z (Z.shiftr w 8); byte_of_Z w ].

(** Message schedule: [n] more words after the ones in [w]. *)
Fixpoint expand (n : nat) (w : list Z) : list Z :=
  match n with
  | O => w
  | S n' =>
      let t := length w in
      let wt i := nth (t - i)%nat w 0 in
      expand n' (w ++ [add32 (add32 (sigma1 (wt 2%nat)) (wt 7%nat))
                             (add32 (sigma0 (wt 15%nat)) (wt 16%nat))])
  end.

Definition round (r : regs) (kw : Z * Z) : regs :=
  let t1 := add32 (add32 (add32 (rh r) (Sigma1 (re r)))
                         (add32 (Ch (re r) (rf r) (rg r)) (fst kw))) (snd kw) in
  let t2 := add32 (Sigma0 (ra r)) (Maj (ra r) (rb r) (rc r)) in
  Regs (add32 t1 t2) (ra r) (rb r) (rc r) (add32 (rd r) t1) (re r) (rf r) (rg r).

Definition add_regs (x y : regs) : regs :=
  Regs (add32 (ra x) (ra y)) (add32 (rb x) (rb y)) (add32 (rc x) (rc y))
       (add32 (rd x) (rd y)) (add32 (re x) (re y)) (add32 (rf x) (rf y))
       (add32 (rg x) (rg y)) (add32 (rh x) (rh y)).

(** The compression function on one 64-byte block. *)
Definition compress (h : regs) (block : list byte) : regs :=
  let w := expand 48 (words_of_bytes block) in
  add_regs h (fold_left round (combine K w) h).

(** The padding of a message of [len] bytes: a one bit, zero bits up to
    56 modulo 64 bytes, and the length in bits as a 64-bit big-endian
    number. *)
Definition padding (len : Z) : list byte :=
  let bits := (8 * len) mod 2 ^ 64 in
  x80 :: repeat x00 (Z.to_nat ((55 - len) mod 64))
    ++ bytes_of_word (Z.shiftr bits 32) ++ bytes_of_word bits.

Fixpoint blocks_n (n : nat) (l : list byte) : list (list byte) :=
  match n with
  | O => []
  | S n' => firstn 64 l :: blocks_n n' (skipn 64 l)
  end.

(** The complete 64-byte blocks of a byte string. *)
Definition blocks (l : list byte) : list (list byte) :=
  blocks_n (length l / 64) l.

Definition bytes_of_regs (r : regs) : list byte :=
  bytes_of_word (ra r) ++ bytes_of_word (rb r) ++ bytes_of_word (rc r)
  ++ bytes_of_word (rd r) ++ bytes_of_word (re r) ++ bytes_of_word (rf r)
  ++ bytes_of_word (rg r) ++ bytes_of_word (rh r).

(** The reference digest (FIPS 180-4, section 6.2): pad the whole
    message, cut it into blocks, compress them in order. *)
Definition sha256 (msg : list byte) : list byte :=
  bytes_of_regs
    (fold_left compress (blocks (msg ++ padding (Z.of_nat (length msg)))) H0).

(** *** The [hashlib.sha256] object

    The object keeps the hash value of the complete blocks seen so
    far, the bytes of the block that is still open, and the number of
    bytes fed to it. *)
Record hasher := Hasher { h_regs : regs; h_buf : list byte; h_len : Z }.

(** [hashlib.sha256()] *)
Definition new : hasher := Hasher H0 [] 0.

Definition absorb (s : hasher) (b : byte) : hasher :=
  let buf := h_buf s ++ [b] in
  if (length buf =? 64)%nat
  then Hasher (compress (h_regs s) buf) [] (h_len s + 1)
  else Hasher (h_regs s) buf (h_len s + 1).

(** [h.update(chunk)] *)
Definition update (s : hasher) (chunk : list byte) : hasher :=
  fold_left absorb chunk s.

(** [h.digest()] *)
Definition digest (s : hasher) : list byte :=
  bytes_of_regs (h_regs (update s (padding (h_len s)))).

Definition hex_digit (n : Z) : ascii :=
  match String.get (Z.to_nat n) "0123456789abcdef" with
  | Some c => c
  | None => "0"%char
  end.

Fixpoint hex (l : list byte) : string :=
  match l with
  | [] => EmptyString
  | b :: rest =>
      String (hex_digit (Z_of_byte b / 16))
        (String (hex_digit (Z_of_byte b mod 16)) (hex rest))
  end.

(** [h.hexdigest()]: lowercase hexadecimal. *)
Definition hexdigest (s : hasher) : string := hex (digest s).

End SHA256.

(** ** JSON values

    What [json.load] returns: [None], [bool], [int], [float] (kept as its
    [repr]), [str], [list] and [dict].  A [dict] keeps its keys in
    insertion order, so it is an association list; [json.load] never
    builds one with a repeated key. *)

Inductive json :=
| JNull
| JBool (b : bool)
| JInt (n : Z)
| JFloat (repr : string)
| JStr (s : string)
| JList (items : list json)
| JDict (fields : list (string * json)).

Module Dict.

Fixpoint get (k : string) (d : list (string * json)) : option json :=
  match d with
  | [] => None
  | (k', v) :: rest => if String.eqb k' k then Some v else get k rest
  end.

(** [d[k] = v]: an existing key keeps its place, a new key goes last. *)
Fixpoint set (k : string) (v : json) (d : list (string * json))
  : list (string * json) :=
  match d with
  | [] => [(k, v)]
  | (k', v') :: rest =>
      if String.eqb k' k then (k', v) :: rest else (k', v') :: set k v rest
  end.

Definition keys (d : list (string * json)) : list string := map fst d.

End Dict.

(** The value at a path of keys, [None] when a key is missing or a value
    on the way is not a [dict]. *)
Fixpoint json_at (p : list string) (v : json) : option json :=
  match p with
  | [] => Some v
  | k :: p' =>
      match v with
      | JDict d =>
          match Dict.get k d with
          | Some v' => json_at p' v'
          | None => None
          end
      | _ => None
      end
  end.

(** [json.dump(v, f, indent=2, ensure_ascii=False)]: the text written. *)
Module Dump.

Definition dquote : ascii := "034"%char.

Definition hex4 (n : nat) : string :=
  String "0" (String "0"
    (String (SHA256.hex_digit (Z.of_nat n / 16))
      (String (SHA256.hex_digit (Z.of_nat n mod 16)) EmptyString))).

Definition escape_char (c : ascii) : string :=
  let n := nat_of_ascii c in
  if Ascii.eqb c dquote then String "\" (String dquote EmptyString)
  else if Ascii.eqb c "\" then "\\"
  else if Nat.eqb n 8 then "\b"
  else if Nat.eqb n 12 then "\f"
  else if Nat.eqb n 10 then "\n"
  else if Nat.eqb n 13 then "\r"
  else if Nat.eqb n 9 then "\t"
  else if Nat.ltb n 32 then "\u" +:+ hex4 n
  else String c EmptyString.

Fixpoint escape (s : string) : string :=
  match s with
  | EmptyString => EmptyString
  | String c rest => escape_char c +:+ escape rest
  end.

Definition quoted (s : string) : string :=
  String dquote (escape s +:+ String dquote EmptyString).

Fixpoint spaces (n : nat) : string :=
  match n with
  | O => EmptyString
  | S n' => String " " (spaces n')
  end.

Definition newline_indent (level : nat) : string :=
  String "010" (spaces (2 * level)).

Fixpoint dumps (level : nat) (v : json) : string :=
  match v with
  | JNull => "null"
  | JBool true => "true"
  | JBool false => "false"
  | JInt n => pretty n
  | JFloat r => r
  | JStr s => quoted s
  | JList [] => "[]"
  | JList (x :: xs) =>
      "[" +:+ newline_indent (S level) +:+ dumps (S level) x
      +:+ (fix items (l : list json) : string :=
             match l with
             | [] => EmptyString
             | y :: l' =>
                 "," +:+ newline_indent (S level) +:+ dumps (S level) y
                 +:+ items l'
             end) xs
      +:+ newline_indent level +:+ "]"
  | JDict [] => "{}"
  | JDict ((k, x) :: xs) =>
      "{" +:+ newline_indent (S level) +:+ quoted k +:+ ": "
      +:+ dumps (S level) x
      +:+ (fix members (l : list (string * json)) : string :=
             match l with
             | [] => EmptyString
             | (k', y) :: l' =>
                 "," +:+ newline_indent (S level) +:+ quoted k' +:+ ": "
                 +:+ dumps (S level) y +:+ members l'
             end) xs
      +:+ newline_indent level +:+ "}"
  end.

(** The text of a value that is neither a list nor a dict. *)
Definition scalar (v : json) : option string :=
  match v with
  | JNull => Some "null"
  | JBool true => Some "true"
  | JBool false => Some "false"
  | JInt n => Some (pretty n)
  | JFloat r => Some r
  | JStr s => Some (quoted s)
  | JList _ | JDict _ => None
  end.

(** An item of a list: a scalar is yielded together with the bracket or
    the separator before it, a list or a dict after it. *)
Definition item_chunks (before : string) (v : json) (inner : list string)
  : list string :=
  match scalar v with
  | Some text => [before +:+ text]
  | None => before :: inner
  end.

(** [json.dump] does not build that text: it takes the pieces that
    [JSONEncoder(indent=2, ensure_ascii=False).iterencode(v)] yields and
    hands each of them to [f.write].  These are the pieces, in order, as
    the generators of [json.encoder] yield them. *)
Fixpoint chunks (level : nat) (v : json) : list string :=
  match v with
  | JNull => ["null"]
  | JBool true => ["true"]
  | JBool false => ["false"]
  | JInt n => [pretty n]
  | JFloat r => [r]
  | JStr s => [quoted s]
  | JList [] => ["[]"]
  | JList (x :: xs) =>
      item_chunks ("[" +:+ newline_indent (S level)) x (chunks (S level) x)
      ++ (fix items (l : list json) : list string :=
            match l with
            | [] => []
            | y :: l' =>
                item_chunks ("," +:+ newline_indent (S level)) y
                  (chunks (S level) y)
                ++ items l'
            end) xs
      ++ [newline_indent level; "]"]
  | JDict [] => ["{}"]
  | JDict ((k, x) :: xs) =>
      ["{"; newline_indent (S level); quoted k; ": "]
      ++ chunks (S level) x
      ++ (fix members (l : list (string * json)) : list string :=
            match l with
            | [] => []
            | (k', y) :: l' =>
                ["," +:+ newline_indent (S level); quoted k'; ": "]
                ++ chunks (S level) y ++ members l'
            end) xs
      ++ [newline_indent level; "}"]
  end.

(** The pieces put together. *)
Fixpoint join (pieces : list string) : string :=
  match pieces with
  | [] => EmptyString
  | piece :: rest => piece +:+ join rest
  end.

End Dump.

Definition json_dumps (v : json) : list byte :=
  list_byte_of_string (Dump.dumps 0 v).

(** ** The world of the script *)

(** An absolute path, as the list of its components below the root. *)
Abbreviation path := (list string).

(** [p.parent]; the root is its own parent. *)
Definition parent (p : path) : path := removelast p.

(** [p.name] *)
Definition name (p : path) : string := List.last p EmptyString.

(** What a regular file holds.  The parser of the [json] module is
    abstracted: a file that holds a JSON text is represented by the value
    [json.load] reads from it, and its bytes are taken to be those of the
    text [json.dump] writes for that value (with "\n" as the line
    separator of the platform); [Bytes] is any other content, which
    [json.load] rejects. *)
Inductive content :=
| Bytes (data : list byte)
| JsonText (doc : json).

Inductive node :=
| Dir
| File (c : content).

Definition bytes_of (c : content) : list byte :=
  match c with
  | Bytes data => data
  | JsonText doc => json_dumps doc
  end.

(** The exceptions the script can meet. *)
Inductive exn :=
| SystemExit (code : Z)
| KeyError (key : string)
| TypeError
| JSONDecodeError
| UnicodeDecodeError
| UnicodeEncodeError
| FileNotFoundError (p : path)
| FileExistsError (p : path)
| IsADirectoryError (p : path)
| CalledProcessError
| StreamError (detail : string)
| OutOfFuel.  (* no Python exception: a loop of the model used up its fuel *)

(** What [print] writes, one constructor per message of the script. *)
Inductive message :=
| MsgCreatingVenv
| MsgInstallingRequests
| MsgVenvSetupFailed
| MsgRerunning
| MsgRequestsNotFound
| MsgDownloading (url : string)
| MsgVersionNotFound (url : string)
| MsgHttpError (status : Z) (url : string)
| MsgNetworkError (detail : string)
| MsgCalculating
| MsgUpdating
| MsgCleaning
| MsgRemoved (file_name : string)
| MsgManifestNotFound (p : path)
| MsgDone (dotted_version : string)
| MsgSha256 (checksum : string)
| MsgNextSteps (dotted_version : string).

Inductive command :=
| CmdCreateVenv
| CmdTryImportRequests
| CmdPipInstallRequests
| CmdRerunScript.

(** The observable actions of a run, oldest first. *)
Inductive event :=
| Print (m : message)
| HttpGet (url : string)
| Subprocess (c : command).

(** What [requests.get(url, stream=True)] meets: a response with its
    status, the chunks [iter_content] yields and, when the connection
    breaks while the body is read, the error raised after them; or a
    transport failure (no connection, timeout, name resolution), a
    [RequestException] that is not an [HTTPError]. *)
Inductive http_result :=
| Response (status : Z) (chunks : list (list byte)) (broken : option string)
| TransportError (detail : string).

(** The answers of the subprocesses the bootstrap starts.  [None] stands
    for an executable that is not there ([FileNotFoundError]).  What lies
    inside the virtual environment is not part of the file system of the
    model; it shows in these answers only. *)
Record subprocesses := {
  venv_created : bool;                 (* python -m venv returns 0 *)
  venv_left_behind : bool;             (* when it fails, the directory stays *)
  venv_import_requests : option bool;  (* python.exe -c "import requests" returns 0 *)
  pip_install_requests : option bool   (* pip.exe install requests returns 0 *)
}.

(** The parts of the world a run reads and does not change. *)
Record env := {
  script_dir : path;              (* Path(__file__).resolve().parent *)
  requests_importable : bool;     (* whether "import requests" succeeds *)
  http : string -> http_result;
  procs : subprocesses
}.

(** The parsed command line. *)
Record args := { version : string; keep_temp : bool }.

Record state := {
  fs : gmap path node;
  out : list event;
  installer_path : option path    (* the local of [main]; None while unassigned *)
}.

Inductive result (A : Type) :=
| Ok (a : A)
| Raise (e : exn).
Arguments Ok {A} a.
Arguments Raise {A} e.

(** ** The monad: state passing with exceptions *)

Definition M (A : Type) : Type := state -> result A * state.

Definition ret {A} (a : A) : M A := fun s => (Ok a, s).

Definition bind {A B} (m : M A) (k : A -> M B) : M B :=
  fun s =>
    match m s with
    | (Ok a, s') => k a s'
    | (Raise e, s') => (Raise e, s')
    end.

Definition raise {A} (e : exn) : M A := fun s => (Raise e, s).

Notation "'let*' x := m 'in' k" := (bind m (fun x => k))
  (at level 10, x name, m at level 100, k at level 200, only parsing).
Notation "m >> k" := (bind m (fun _ => k))
  (at level 90, right associativity, only parsing).

(** [try: body finally: handler]: the handler runs however the body
    ends; an exception of the body is raised again after it unless the
    handler raises one itself. *)
Definition try_finally {A} (body : M A) (handler : M unit) : M A :=
  fun s =>
    match body s with
    | (r, s1) =>
        match handler s1 with
        | (Ok _, s2) => (r, s2)
        | (Raise e, s2) => (Raise e, s2)
        end
    end.

Definition emit (e : event) : M unit :=
  fun s => (Ok tt, {| fs := fs s; out := out s ++ [e];
                      installer_path := installer_path s |}).

Definition print (m : message) : M unit := emit (Print m).

(** [sys.exit(code)] *)
Definition sys_exit {A} (code : Z) : M A := raise (SystemExit code).

Definition get_fs : M (gmap path node) := fun s => (Ok (fs s), s).

Definition put_fs (f : gmap path node) : M unit :=
  fun s => (Ok tt, {| fs := f; out := out s;
                      installer_path := installer_path s |}).

Definition assign_installer_path (p : path) : M unit :=
  fun s => (Ok tt, {| fs := fs s; out := out s; installer_path := Some p |}).

(** ['installer_path' in locals()], with the value. *)
Definition local_installer_path : M (option path) :=
  fun s => (Ok (installer_path s), s).

(** ** The file system *)

(** The node at a path; the root is a directory. *)
Definition node_at (f : gmap path node) (p : path) : option node :=
  match p with
  | [] => Some Dir
  | _ => f !! p
  end.

(** [p.exists()] *)
Definition path_exists (p : path) : M bool :=
  let* f := get_fs in
  ret (match node_at f p with Some _ => true | None => false end).

(** [p.mkdir(exist_ok=True)] *)
Definition mkdir_exist_ok (p : path) : M unit :=
  let* f := get_fs in
  match node_at f p with
  | Some Dir => ret tt
  | Some (File _) => raise (FileExistsError p)
  | None =>
      match node_at f (parent p) with
      | Some Dir => put_fs (<[p := Dir]> f)
      | _ => raise (FileNotFoundError p)
      end
  end.

(** [open(p, "w")] and [open(p, "wb")]: the file is created or emptied. *)
Definition open_write (p : path) : M unit :=
  let* f := get_fs in
  match node_at f p with
  | Some Dir => raise (IsADirectoryError p)
  | Some (File _) => put_fs (<[p := File (Bytes [])]> f)
  | None =>
      match node_at f (parent p) with
      | Some Dir => put_fs (<[p := File (Bytes [])]> f)
      | _ => raise (FileNotFoundError p)
      end
  end.

(** [f.write(chunk)] on the file opened at [p] for binary writing. *)
Definition write_bytes (p : path) (chunk : list byte) : M unit :=
  let* f := get_fs in
  match f !! p with
  | Some (File c) => put_fs (<[p := File (Bytes (bytes_of c ++ chunk))]> f)
  | _ => put_fs (<[p := File (Bytes chunk)]> f)
  end.

(** [open(p, "r")] and [open(p, "rb")]: the content to read. *)
Definition open_read (p : path) : M content :=
  let* f := get_fs in
  match node_at f p with
  | Some (File c) => ret c
  | Some Dir => raise (IsADirectoryError p)
  | None => raise (FileNotFoundError p)
  end.

(** [p.unlink()] *)
Definition unlink (p : path) : M unit :=
  let* f := get_fs in
  match node_at f p with
  | Some (File _) => put_fs (delete p f)
  | Some Dir => raise (IsADirectoryError p)
  | None => raise (FileNotFoundError p)
  end.

(** ** The script, function by function *)

(** Lines 14-37. *)
Definition setup_venv (E : env) : M path :=
  let venv_path := script_dir E ++ ["venv"] in
  (let* there := path_exists venv_path in
   if negb there then
     print MsgCreatingVenv >>
     emit (Subprocess CmdCreateVenv) >>
     (if venv_created (procs E)
      then let* f := get_fs in put_fs (<[venv_path := Dir]> f)
      else
        (if venv_left_behind (procs E)
         then let* f := get_fs in put_fs (<[venv_path := Dir]> f)
         else ret tt) >>
        raise CalledProcessError)
   else ret tt) >>
  let python_path := venv_path ++ ["Scripts"; "python.exe"] in
  emit (Subprocess CmdTryImportRequests) >>
  match venv_import_requests (procs E) with
  | None => print MsgVenvSetupFailed >> sys_exit 1
  | Some true => ret python_path
  | Some false =>
      print MsgInstallingRequests >>
      emit (Subprocess CmdPipInstallRequests) >>
      match pip_install_requests (procs E) with
      | None => print MsgVenvSetupFailed >> sys_exit 1
      | Some true => ret python_path
      | Some false => raise CalledProcessError
      end
  end.

(** The exit status of a process whose main program ended with [r]. *)
Definition exit_code {A} (r : result A) : Z :=
  match r with
  | Ok _ => 0
  | Raise (SystemExit code) => code
  | Raise _ => 1
  end.

(** Lines 40-48.  [child] is the script run by the interpreter of the
    virtual environment, where [requests] can be imported; it shares the
    file system and the terminal with its parent. *)
Definition run_with_venv (E : env) (child : M unit) : M unit :=
  let* venv_python := setup_venv E in
  print MsgRerunning >>
  emit (Subprocess CmdRerunScript) >>
  fun s =>
    match child s with
    | (r, s') => (Raise (SystemExit (exit_code r)), s')
    end.

(** [response.raise_for_status()] raises for these. *)
Definition is_http_error (status : Z) : bool :=
  (400 <=? status) && (status <? 600).

(** Lines 72-75: the chunks that are not empty go to the file. *)
Fixpoint write_chunks (filename : path) (chunks : list (list byte)) : M unit :=
  match chunks with
  | [] => ret tt
  | chunk :: rest =>
      (match chunk with
       | [] => ret tt
       | _ => write_bytes filename chunk
       end) >>
      write_chunks filename rest
  end.

(** Lines 51-77. *)
Definition download_installer (E : env) (hyphen_version : string) (dest : path)
  : M path :=
  let url := Str.format URL_TEMPLATE hyphen_version in
  let filename := dest ++ [Str.basename url] in
  print (MsgDownloading url) >>
  let* response :=
    (emit (HttpGet url) >>
     match http E url with
     | Response status chunks broken =>
         if is_http_error status then
           if status =? 404 then
             print (MsgVersionNotFound url) >> sys_exit 1
           else
             print (MsgHttpError status url) >> sys_exit 1
         else ret (chunks, broken)
     | TransportError detail =>
         print (MsgNetworkError detail) >> sys_exit 1
     end) in
  open_write filename >>
  write_chunks filename (fst response) >>
  match snd response with
  | Some detail => raise (StreamError detail)
  | None => ret filename
  end.

(** Line 85: [f.read(size)] until it returns [b""], every chunk fed to
    the hash object. *)
Fixpoint read_loop (fuel size : nat) (unread : list byte) (h : SHA256.hasher)
  : option SHA256.hasher :=
  match fuel with
  | O => None
  | S fuel' =>
      match firstn size unread with
      | [] => Some h
      | chunk => read_loop fuel' size (skipn size unread) (SHA256.update h chunk)
      end
  end.

Definition CHUNK_SIZE : nat := Z.to_nat 8192.

(** Lines 80-87. *)
Definition calculate_sha256 (filepath : path) : M string :=
  print MsgCalculating >>
  let hash_sha256 := SHA256.new in
  let* c := open_read filepath in
  let data := bytes_of c in
  match read_loop (S (length data)) CHUNK_SIZE data hash_sha256 with
  | Some h => ret (Str.upper (SHA256.hexdigest h))
  | None => raise OutOfFuel
  end.

(** [container[k]] *)
Definition getitem (container : json) (k : string) : result json :=
  match container with
  | JDict d =>
      match Dict.get k d with
      | Some v => Ok v
      | None => Raise (KeyError k)
      end
  | _ => Raise TypeError
  end.

(** [container[k] = v] *)
Definition setitem (container : json) (k : string) (v : json) : result json :=
  match container with
  | JDict d => Ok (JDict (Dict.set k v d))
  | _ => Raise TypeError
  end.

Definition and_then {A B} (r : result A) (k : A -> result B) : result B :=
  match r with
  | Ok a => k a
  | Raise e => Raise e
  end.

(** [manifest[k1][k2][k3] = v].  The inner dicts are shared with the
    document, so the store shows through [manifest]. *)
Definition setitem3 (manifest : json) (k1 k2 k3 : string) (v : json)
  : result json :=
  and_then (getitem manifest k1) (fun a =>
  and_then (getitem a k2) (fun b =>
  and_then (setitem b k3 v) (fun b' =>
  and_then (setitem a k2 b') (fun a' =>
  setitem manifest k1 a')))).

(** Lines 98-102. *)
Definition set_fields (manifest : json)
    (dotted_version hyphen_version checksum : string) : result json :=
  and_then (setitem manifest "version" (JStr dotted_version)) (fun m1 =>
  and_then (setitem3 m1 "architecture" "64bit" "url"
              (JStr (Str.format URL_TEMPLATE hyphen_version))) (fun m2 =>
  setitem3 m2 "architecture" "64bit" "hash" (JStr ("sha256:" +:+ checksum)))).

Definition lift {A} (r : result A) : M A := fun s => (r, s).

(** [json.load(f)] on a file opened with [encoding='utf-8']: [f.read()]
    decodes the bytes, then the text is parsed. *)
Definition json_load (c : content) : M json :=
  match c with
  | JsonText doc => ret doc
  | Bytes data =>
      if Utf8.valid data then raise JSONDecodeError
      else raise UnicodeDecodeError
  end.

(** [f.write(chunk)] on the file opened at [p] for writing text with
    [encoding='utf-8']: the chunk is encoded when it is written. *)
Definition write_text (p : path) (chunk : string) : M unit :=
  if Utf8.encodable chunk then write_bytes p (list_byte_of_string chunk)
  else raise UnicodeEncodeError.

(** [for chunk in iterable: fp.write(chunk)], the loop of [json.dump]. *)
Fixpoint write_each (p : path) (chunks : list string) : M unit :=
  match chunks with
  | [] => ret tt
  | chunk :: rest => write_text p chunk >> write_each p rest
  end.

(** [json.dump(doc, f, indent=2, ensure_ascii=False)] on the file opened
    at [p].  The chunks go to the file one by one; a chunk that cannot be
    encoded ends the dump with the chunks before it in the file.  When
    every chunk is written the file holds the text of [doc], which is
    what [JsonText doc] stands for. *)
Definition json_dump (doc : json) (p : path) : M unit :=
  write_each p (Dump.chunks 0 doc) >>
  let* f := get_fs in put_fs (<[p := File (JsonText doc)]> f).

(** Lines 90-106. *)
Definition update_manifest (manifest_path : path)
    (dotted_version hyphen_version checksum : string) : M unit :=
  print MsgUpdating >>
  let* c := open_read manifest_path in
  let* manifest := json_load c in
  let* manifest := lift (set_fields manifest dotted_version hyphen_version checksum) in
  open_write manifest_path >>
  json_dump manifest manifest_path.

Fixpoint remove_each (temp_files : list path) : M unit :=
  match temp_files with
  | [] => ret tt
  | file_path :: rest =>
      (let* there := path_exists file_path in
       if there then unlink file_path >> print (MsgRemoved (name file_path))
       else ret tt) >>
      remove_each rest
  end.

(** Lines 109-115. *)
Definition cleanup_temp_files (temp_files : list path) : M unit :=
  print MsgCleaning >> remove_each temp_files.

Definition manifest_path_of (E : env) : path :=
  parent (script_dir E) ++ ["bucket"; "firestorm-beta.json"].

Definition temp_dir_of (E : env) : path := script_dir E ++ ["temp"].

(** Lines 146-159, the body of the [try]. *)
Definition fetch_hash_update (E : env) (a : args) : M unit :=
  let dotted_version := version a in
  let hyphen_version := hyphenate dotted_version in
  let* p := download_installer E hyphen_version (temp_dir_of E) in
  assign_installer_path p >>
  let* checksum := calculate_sha256 p in
  update_manifest (manifest_path_of E) dotted_version hyphen_version checksum >>
  print (MsgDone dotted_version) >>
  print (MsgSha256 checksum) >>
  print (MsgNextSteps dotted_version).

(** Lines 162-164, the body of the [finally]. *)
Definition cleanup_unless_kept (a : args) : M unit :=
  if negb (keep_temp a) then
    let* p := local_installer_path in
    cleanup_temp_files (match p with Some f => [f] | None => [] end)
  else ret tt.

(** Lines 127-164: [main] once [requests] is imported. *)
Definition main_with_requests (E : env) (a : args) : M unit :=
  mkdir_exist_ok (temp_dir_of E) >>
  let* there := path_exists (manifest_path_of E) in
  if negb there then
    print (MsgManifestNotFound (manifest_path_of E)) >> sys_exit 1
  else
    try_finally (fetch_hash_update E a) (cleanup_unless_kept a).

(** Lines 118-164. *)
Definition main (E : env) (a : args) : M unit :=
  if requests_importable E then main_with_requests E a
  else
    print MsgRequestsNotFound >>
    run_with_venv E (main_with_requests E a).

(** A run of the script on a file system: the exit status and the final
    state. *)
Definition start (files : gmap path node) : state :=
  {| fs := files; out := []; installer_path := None |}.

Definition run (E : env) (a : args) (files : gmap path node) : Z * state :=
  match main E a (start files) with
  | (r, s) => (exit_code r, s)
  end.

(** ** Vocabulary of the properties *)

(** The three fields the update writes. *)
Definition targeted : list (list string) :=
  [ ["version"]; ["architecture"; "64bit"; "url"];
    ["architecture"; "64bit"; "hash"] ].

(** Two key paths overlap when one leads through the other. *)
Definition overlaps (q t : list string) : Prop :=
  q `prefix_of` t ∨ t `prefix_of` q.

(** A field is untouched when it is none of the targeted ones, holds none
    of them and lies in none of them. *)
Definition untouched (q : list string) : Prop :=
  Forall (λ t, ¬ overlaps q t) targeted.

(** A field that is not a targeted one nor part of one. *)
Definition not_overwritten (q : list string) : Prop :=
  Forall (λ t, ¬ t `prefix_of` q) targeted.

(** The keys, in order, of the dict at a path. *)
Definition keys_at (q : list string) (m : json) : option (list string) :=
  match json_at q m with
  | Some (JDict d) => Some (Dict.keys d)
  | _ => None
  end.

(** The precondition of the update: an object that holds an
    [architecture.64bit] object. *)
Definition has_architecture_64bit (m : json) : Prop :=
  ∃ d a b, m = JDict d
    ∧ Dict.get "architecture" d = Some (JDict a)
    ∧ Dict.get "64bit" a = Some (JDict b).

(** The manifest document of the data model: the three fields are there. *)
Definition manifest_document (m : json) : Prop :=
  has_architecture_64bit m
  ∧ is_Some (json_at ["version"] m)
  ∧ is_Some (json_at ["architecture"; "64bit"; "url"] m)
  ∧ is_Some (json_at ["architecture"; "64bit"; "hash"] m).

(** The document after a successful update, in closed form: [d] is the
    document, [a] its [architecture] and [b] the [64bit] object in it. *)
Definition updated (dotted_version hyphen_version checksum : string)
    (d a b : list (string * json)) : json :=
  JDict
    (Dict.set "architecture"
       (JDict
          (Dict.set "64bit"
             (JDict
                (Dict.set "hash" (JStr ("sha256:" +:+ checksum))
                   (Dict.set "url"
                      (JStr (Str.format URL_TEMPLATE hyphen_version)) b)))
             a))
       (Dict.set "version" (JStr dotted_version) d)).

(** Every chunk of the text of a document can be encoded: the dump of
    the document gets through. *)
Definition dumpable (doc : json) : bool :=
  forallb Utf8.encodable (Dump.chunks 0 doc).

(** The chunks that are written before the first one that cannot be
    encoded. *)
Fixpoint written (chunks : list string) : list string :=
  match chunks with
  | [] => []
  | chunk :: rest =>
      if Utf8.encodable chunk then chunk :: written rest else []
  end.

(** What a dump of the document leaves in a file that was empty. *)
Definition written_bytes (doc : json) : list byte :=
  concat (list_byte_of_string <$> written (Dump.chunks 0 doc)).

(** The manifest after a run, against the files before it: the file is
    what it was, or it holds what a dump that raised has written. *)
Definition manifest_kept_or_cut (E : env) (before after : gmap path node)
  : Prop :=
  after !! manifest_path_of E = before !! manifest_path_of E
  ∨ ∃ doc,
      dumpable doc = false
      ∧ after !! manifest_path_of E = Some (File (Bytes (written_bytes doc))).

(** A state after more output. *)
Definition say (s : state) (events : list event) : state :=
  {| fs := fs s; out := out s ++ events; installer_path := installer_path s |}.

(** The request of the download step fails: the transport fails, or the
    status is one [raise_for_status] raises for. *)
Definition request_fails (E : env) (url : string) : bool :=
  match http E url with
  | Response status _ _ => is_http_error status
  | TransportError _ => true
  end.

(** The URL the script builds for a dotted version. *)
Definition url_of (dotted_version : string) : string :=
  Str.format URL_TEMPLATE (hyphenate dotted_version).

(** The file the download step writes for a dotted version. *)
Definition installer_path_of (E : env) (dotted_version : string) : path :=
  temp_dir_of E ++ [Str.basename (url_of dotted_version)].

(** The events of the bootstrap (lines 14-48 and 123). *)
Definition bootstrap_event (e : event) : bool :=
  match e with
  | Print MsgRequestsNotFound | Print MsgCreatingVenv
  | Print MsgInstallingRequests | Print MsgVenvSetupFailed
  | Print MsgRerunning | Subprocess _ => true
  | _ => false
  end.

(** The three messages of a failed request (lines 63, 66 and 69). *)
Definition download_error (m : message) : bool :=
  match m with
  | MsgVersionNotFound _ | MsgHttpError _ _ | MsgNetworkError _ => true
  | _ => false
  end.

(** ** A sample world

    The end-to-end scenario of the specification: the repository with its
    manifest at version 7.2.0.1 and one unrelated field. *)

Definition sample_doc : json :=
  JDict
    [ ("version", JStr "7.2.0.1");
      ("architecture",
        JDict [ ("64bit",
                  JDict [ ("url", JStr "..."); ("hash", JStr "sha256:AAA") ]) ]);
      ("other", JStr "keep") ].

(** The same manifest with a lone surrogate in the unrelated field, as
    [json.load] reads it from the escape "\ud800". *)
Definition sample_64bit : list (string * json) :=
  [ ("url", JStr "..."); ("hash", JStr "sha256:AAA") ].

Definition sample_architecture : list (string * json) :=
  [ ("64bit", JDict sample_64bit) ].

Definition surrogate_fields : list (string * json) :=
  [ ("version", JStr "7.2.0.1");
    ("architecture", JDict sample_architecture);
    ("other", JStr lone_surrogate) ].

Definition surrogate_doc : json := JDict surrogate_fields.

Definition sample_script_dir : path := ["repo"; "helpers"].

Definition sample_manifest_path : path :=
  ["repo"; "bucket"; "firestorm-beta.json"].

Definition sample_files : gmap path node :=
  <[ ["repo"] := Dir ]>
    (<[ ["repo"; "helpers"] := Dir ]>
       (<[ ["repo"; "bucket"] := Dir ]>
          (<[ sample_manifest_path := File (JsonText sample_doc) ]> ∅))).

Definition sample_procs : subprocesses :=
  {| venv_created := true;
     venv_left_behind := false;
     venv_import_requests := Some false;
     pip_install_requests := Some true |}.

(** A world in which every URL is answered by [answer]. *)
Definition sample_env (answer : http_result) : env :=
  {| script_dir := sample_script_dir;
     requests_importable := true;
     http := λ _, answer;
     procs := sample_procs |}.

Definition sample_args : args := {| version := "7.2.0.2"; keep_temp := false |}.

Definition sample_installer : list byte := list_byte_of_string "abc".

Definition sample_installer_path : path :=
  ["repo"; "helpers"; "temp";
   "Phoenix-Firestorm-Betax64_AVX2-7-2-0-2_Setup.exe"].

(** The sample repository with the lone surrogate in its manifest. *)
Definition surrogate_files : gmap path node :=
  <[ sample_manifest_path := File (JsonText surrogate_doc) ]> sample_files.

(** The sample repository after a download. *)
Definition sample_files_downloaded : gmap path node :=
  <[ sample_installer_path := File (Bytes sample_installer) ]>
    (<[ ["repo"; "helpers"; "temp"] := Dir ]> sample_files).

(** The sample repository with its temp directory. *)
Definition sample_files_ready : gmap path node :=
  <[ ["repo"; "helpers"; "temp"] := Dir ]> sample_files.

(** A server that answers with the sample installer. *)
Definition sample_server : env := sample_env (Response 200 [sample_installer] None).

(** The sample repository without its manifest, and with a regular file
    where the temp directory should be. *)
Definition sample_files_blocked : gmap path node :=
  <[ ["repo"; "helpers"; "temp"] := File (Bytes []) ]>
    (<[ ["repo"] := Dir ]> (<[ ["repo"; "helpers"] := Dir ]> ∅)).

(** The sample repository without its manifest. *)
Definition sample_files_bare : gmap path node :=
  <[ ["repo"] := Dir ]> (<[ ["repo"; "helpers"] := Dir ]> ∅).

(** A manifest that has its [architecture.64bit] object and none of the
    three fields yet. *)
Definition sample_doc_without_fields : json :=
  JDict [ ("architecture", JDict [("64bit", JDict [])]);
          ("homepage", JStr "h") ].

(** The temp directory is there or can be made (line 139 does not raise). *)
Definition temp_dir_ready (E : env) (files : gmap path node) : Prop :=
  node_at files (temp_dir_of E) = Some Dir
  ∨ (node_at files (temp_dir_of E) = None
     ∧ node_at files (script_dir E) = Some Dir).

(** The files once the temp directory is made. *)
Definition with_temp_dir (E : env) (files : gmap path node) : gmap path node :=
  match node_at files (temp_dir_of E) with
  | None => <[temp_dir_of E := Dir]> files
  | Some _ => files
  end.

(** The checksum of a downloaded body. *)
Definition checksum_of (chunks : list (list byte)) : string :=
  Str.upper (SHA256.hex (SHA256.sha256 (concat chunks))).

(** The URLs requested in a trace, in order. *)
Definition requests_of (events : list event) : list string :=
  omap (λ e, match e with HttpGet u => Some u | _ => None end) events.

(** Whether the [venv] directory is there (line 18). *)
Definition venv_there (E : env) (files : gmap path node) : bool :=
  match node_at files (script_dir E ++ ["venv"]) with
  | Some _ => true
  | None => false
  end.

(** The bootstrap gets to the re-run: the virtual environment is there
    or is created, and [requests] is in it or is installed. *)
Definition venv_usable (E : env) (files : gmap path node) : bool :=
  (venv_there E files || venv_created (procs E))
  && match venv_import_requests (procs E) with
     | Some true => true
     | Some false =>
         match pip_install_requests (procs E) with
         | Some true => true
         | _ => false
         end
     | None => false
     end.

(** An executable of the virtual environment that the bootstrap starts
    is missing. *)
Definition venv_executable_missing (E : env) (files : gmap path node) : bool :=
  (venv_there E files || venv_created (procs E))
  && match venv_import_requests (procs E) with
     | None => true
     | Some true => false
     | Some false =>
         match pip_install_requests (procs E) with
         | None => true
         | Some _ => false
         end
     end.

(** What a bootstrap that gets to the re-run prints and starts. *)
Definition bootstrap_trace (E : env) (files : gmap path node) : list event :=
  [Print MsgRequestsNotFound]
  ++ (if venv_there E files then []
      else [Print MsgCreatingVenv; Subprocess CmdCreateVenv])
  ++ [Subprocess CmdTryImportRequests]
  ++ match venv_import_requests (procs E) with
     | Some true => []
     | _ => [Print MsgInstallingRequests; Subprocess CmdPipInstallRequests]
     end
  ++ [Print MsgRerunning; Subprocess CmdRerunScript].

(** The files once the virtual environment is there. *)
Definition with_venv (E : env) (files : gmap path node) : gmap path node :=
  if venv_there E files then files
  else <[script_dir E ++ ["venv"] := Dir]> files.

(** A world whose [requests] cannot be imported and whose virtual
    environment lacks its [pip.exe]. *)
Definition sample_env_without_pip : env :=
  {| script_dir := sample_script_dir;
     requests_importable := false;
     http := λ _, TransportError "unreachable";
     procs := {| venv_created := true;
                 venv_left_behind := false;
                 venv_import_requests := Some false;
                 pip_install_requests := None |} |}.

(** A world whose [requests] cannot be imported and in which the virtual
    environment cannot be made: the attempt fails and leaves its
    directory behind. *)
Definition sample_env_venv_fails : env :=
  {| script_dir := sample_script_dir;
     requests_importable := false;
     http := λ _, TransportError "unreachable";
     procs := {| venv_created := false;
                 venv_left_behind := true;
                 venv_import_requests := None;
                 pip_install_requests := None |} |}.

(** A world whose [requests] cannot be imported but can be installed,
    and whose server answers 404. *)
Definition sample_env_bootstrap : env :=
  {| script_dir := sample_script_dir;
     requests_importable := false;
     http := λ _, Response 404 [] None;
     procs := sample_procs |}.

(** Two files and the paths of a cleanup that lists one of them twice
    and a path that is not there. *)
Definition sample_temp_files : gmap path node :=
  <[ ["t"; "a.exe"] := File (Bytes []) ]>
    (<[ ["t"; "b.exe"] := File (Bytes []) ]> (<[ ["t"] := Dir ]> ∅)).

Definition sample_temp_list : list path :=
  [ ["t"; "a.exe"]; ["t"; "gone.exe"]; ["t"; "a.exe"] ].

(** ** Proof steps *)

(** Run the monad: unfold its operations and project the state. *)
Ltac unfold_monad :=
  cbv beta iota zeta delta
    [bind ret raise sys_exit lift print emit get_fs put_fs
     assign_installer_path local_installer_path try_finally];
  cbn [fs out installer_path fst snd].

(** A concrete key path overlaps no targeted one. *)
Ltac solve_paths :=
  repeat constructor; intros [[k [=]]|[k [=]]].

(* ===================================================================== *)
(** * Part II: properties *)
(* ===================================================================== *)

(** ** Strings, the URL template and the hyphenated version *)

Section StringFacts.

Lemma replace_length old new s :
  String.length (Str.replace old new s) = String.length s.
Proof. induction s as [|c s IH]; simpl; [done | by rewrite IH]. Qed.

Lemma replace_get old new s (i : nat) :
  String.get i (Str.replace old new s)
  = (λ c, if Ascii.eqb c old then new else c) <$> String.get i s.
Proof.
  revert i; induction s as [|c s IH]; intros [|i]; simpl; auto.
Qed.

(** After the substitution the old character is gone, unless it is
    also the new one. *)
Lemma replace_removes old new s :
  old ≠ new → Str.contains old (Str.replace old new s) = false.
Proof.
  intros Hne. induction s as [|c s IH]; simpl; [done |].
  rewrite IH, orb_false_r.
  destruct (Ascii.eqb_spec c old) as [->|Hc].
  - apply Ascii.eqb_neq. congruence.
  - by apply Ascii.eqb_neq.
Qed.

(** Substituting back recovers the string exactly when the new
    character did not occur in it. *)
Lemma replace_back old new s :
  old ≠ new →
  Str.replace new old (Str.replace old new s) = s
  ↔ Str.contains new s = false.
Proof.
  intros Hne. induction s as [|c s IH]; simpl; [done |].
  destruct (Ascii.eqb_spec c old) as [->|Hc].
  - rewrite Ascii.eqb_refl.
    assert (Ascii.eqb old new = false) as -> by by apply Ascii.eqb_neq.
    simpl. rewrite <- IH. split; [congruence | by intros ->].
  - destruct (Ascii.eqb_spec c new) as [->|Hc'].
    + simpl. split; [|done]. intros [=]. congruence.
    + simpl. rewrite <- IH. split; [congruence | by intros ->].
Qed.

Lemma append_cons c (x y : string) : String c x +:+ y = String c (x +:+ y).
Proof. reflexivity. Qed.

Lemma contains_append c (x y : string) :
  Str.contains c (x +:+ y) = Str.contains c x || Str.contains c y.
Proof.
  induction x as [|d x IH]; [done |].
  rewrite append_cons. simpl. by rewrite IH, orb_assoc.
Qed.

Lemma append_assoc (x y z : string) : (x +:+ y) +:+ z = x +:+ (y +:+ z).
Proof.
  induction x as [|d x IH]; [done |]. rewrite !append_cons. by f_equal.
Qed.

Lemma append_empty_r (x : string) : x +:+ EmptyString = x.
Proof.
  induction x as [|d x IH]; [done |]. rewrite append_cons. by f_equal.
Qed.

Lemma list_byte_of_string_app (x y : string) :
  list_byte_of_string (x +:+ y)
  = list_byte_of_string x ++ list_byte_of_string y.
Proof.
  unfold list_byte_of_string.
  induction x as [|d x IH]; [done |]. rewrite append_cons.
  cbn [list_ascii_of_string map app]. by rewrite IH.
Qed.

Lemma format_URL_TEMPLATE v :
  Str.format URL_TEMPLATE v = url_prefix +:+ v +:+ url_suffix.
Proof. reflexivity. Qed.

End StringFacts.

(** The end-to-end scenario of the specification: 7.2.0.2 is fetched as
    7-2-0-2. *)
Example hyphenate_7_2_0_2 : hyphenate "7.2.0.2" = "7-2-0-2".
Proof. reflexivity. Qed.

Example dehyphenate_loses_hyphens :
  dehyphenate (hyphenate "7.2-beta") = "7.2.beta".
Proof. reflexivity. Qed.

(** C8. The hyphenated version is the dotted one with every "." turned
    into "-": same length, position by position the same character except
    that "." became "-", and no "." left.  Turning every "-" back into
    "." recovers the dotted string exactly when it held no "-". *)
Theorem hyphenate_replaces_every_dot (dotted_version : string) :
  String.length (hyphenate dotted_version) = String.length dotted_version
  ∧ (∀ i : nat,
        String.get i (hyphenate dotted_version)
        = (λ c, if Ascii.eqb c "." then "-"%char else c)
            <$> String.get i dotted_version)
  ∧ Str.contains "." (hyphenate dotted_version) = false
  ∧ (dehyphenate (hyphenate dotted_version) = dotted_version
     ↔ Str.contains "-" dotted_version = false).
Proof.
  unfold hyphenate, dehyphenate. split_and!.
  - apply replace_length.
  - intros i. apply replace_get.
  - by apply replace_removes.
  - by apply replace_back.
Qed.

(** ** What the UTF-8 codec takes *)

(** Plain text, and one character of each length: U+00E9, U+20AC and
    U+1F527, the wrench of the script's first message. *)
Example utf8_takes_text :
  Utf8.encodable "7.2.0.78879" = true
  ∧ Utf8.valid [xc3; xa9] = true
  ∧ Utf8.valid [xe2; x82; xac] = true
  ∧ Utf8.valid [xf0; x9f; x94; xa7] = true
  ∧ Utf8.valid [xed; x9f; xbf] = true
  ∧ Utf8.valid [xee; x80; x80] = true
  ∧ Utf8.valid [xf4; x8f; xbf; xbf] = true.
Proof. by vm_compute. Qed.

(** No surrogate, no form longer than the shortest, nothing above
    U+10FFFF, no byte that stands alone, no sequence cut short. *)
Example utf8_refuses :
  Utf8.encodable lone_surrogate = false
  ∧ Utf8.valid [xed; xbf; xbf] = false
  ∧ Utf8.valid [xc0; x80] = false
  ∧ Utf8.valid [xc1; xbf] = false
  ∧ Utf8.valid [xe0; x9f; xbf] = false
  ∧ Utf8.valid [xf0; x8f; xbf; xbf] = false
  ∧ Utf8.valid [xf4; x90; x80; x80] = false
  ∧ Utf8.valid [xf5; x80; x80; x80] = false
  ∧ Utf8.valid [x80] = false
  ∧ Utf8.valid [xff] = false
  ∧ Utf8.valid [xe2; x82] = false
  ∧ Utf8.valid [x41; xc3] = false.
Proof. by vm_compute. Qed.

(** ** Dicts and key paths *)

Section DictFacts.

Implicit Types (k : string) (v : json) (d : list (string * json)).

Lemma get_set_eq k v d : Dict.get k (Dict.set k v d) = Some v.
Proof.
  induction d as [|[k' v'] d IH]; simpl.
  - by rewrite String.eqb_refl.
  - destruct (String.eqb k' k) eqn:E; simpl; by rewrite E.
Qed.

Lemma get_set_ne k k' v d :
  k ≠ k' → Dict.get k' (Dict.set k v d) = Dict.get k' d.
Proof.
  intros Hne. induction d as [|[k0 v0] d IH]; simpl.
  - by apply String.eqb_neq in Hne as ->.
  - destruct (String.eqb_spec k0 k) as [->|Hk]; simpl.
    + by apply String.eqb_neq in Hne as ->.
    + by rewrite IH.
Qed.

(** A store to a key that is there changes neither the keys nor their
    order. *)
Lemma keys_set_present k v d :
  is_Some (Dict.get k d) → Dict.keys (Dict.set k v d) = Dict.keys d.
Proof.
  unfold Dict.keys. induction d as [|[k' v'] d IH]; simpl.
  - by intros [? [=]].
  - destruct (String.eqb k' k); simpl; [done |].
    intros H. by rewrite IH.
Qed.

(** A store to a new key appends it. *)
Lemma keys_set_absent k v d :
  Dict.get k d = None → Dict.keys (Dict.set k v d) = Dict.keys d ++ [k].
Proof.
  unfold Dict.keys. induction d as [|[k' v'] d IH]; simpl; [done |].
  destruct (String.eqb k' k); simpl; [done |].
  intros H. by rewrite IH.
Qed.

Lemma set_set k v1 v2 d :
  Dict.set k v2 (Dict.set k v1 d) = Dict.set k v2 d.
Proof.
  induction d as [|[k' v'] d IH]; simpl.
  - by rewrite String.eqb_refl.
  - destruct (String.eqb k' k) eqn:E; simpl; rewrite E; [done |].
    by rewrite IH.
Qed.

Lemma get_Some_in_keys k v d : Dict.get k d = Some v → k ∈ Dict.keys d.
Proof.
  unfold Dict.keys. induction d as [|[k' v'] d IH]; simpl; [done |].
  destruct (String.eqb_spec k' k) as [->|Hk].
  - intros _. apply list_elem_of_here.
  - intros H. apply list_elem_of_further. auto.
Qed.

(** Keys stay unique, as in a Python dict. *)
Lemma keys_set_NoDup k v d :
  NoDup (Dict.keys d) → NoDup (Dict.keys (Dict.set k v d)).
Proof.
  intros Hd. destruct (Dict.get k d) as [v0|] eqn:E.
  - by rewrite keys_set_present.
  - rewrite keys_set_absent by done.
    apply NoDup_app. split_and!; [done | | apply NoDup_singleton].
    intros x Hx ->%list_elem_of_singleton.
    clear Hd. revert E Hx. unfold Dict.keys.
    induction d as [|[k' v'] d IH]; simpl.
    + by intros _ ?%elem_of_nil.
    + destruct (String.eqb_spec k' k) as [->|Hk]; [done |].
      intros E [?|?]%elem_of_cons; [congruence | auto].
Qed.

Lemma json_at_set_eq k v d q :
  json_at (k :: q) (JDict (Dict.set k v d)) = json_at q v.
Proof. simpl. by rewrite get_set_eq. Qed.

Lemma json_at_set_ne k k' v d q :
  k ≠ k' →
  json_at (k' :: q) (JDict (Dict.set k v d)) = json_at (k' :: q) (JDict d).
Proof. intros Hne. simpl. by rewrite get_set_ne. Qed.

End DictFacts.

(** ** The text of a document and the chunks of its dump *)

Section JsonInduction.

Variable P : json → Prop.
Hypothesis Hnull : P JNull.
Hypothesis Hbool : ∀ b, P (JBool b).
Hypothesis Hint : ∀ n, P (JInt n).
Hypothesis Hfloat : ∀ r, P (JFloat r).
Hypothesis Hstr : ∀ s, P (JStr s).
Hypothesis Hlist : ∀ items, Forall P items → P (JList items).
Hypothesis Hdict : ∀ fields, Forall (λ kv, P kv.2) fields → P (JDict fields).

(** Induction on a document, through its lists and dicts. *)
Lemma json_nested_ind : ∀ v, P v.
Proof using All.
  fix IH 1. intros [| b | n | r | s | items | fields].
  - apply Hnull.
  - apply Hbool.
  - apply Hint.
  - apply Hfloat.
  - apply Hstr.
  - apply Hlist. induction items as [|x items IHitems]; constructor.
    + apply IH.
    + exact IHitems.
  - apply Hdict. induction fields as [|[k x] fields IHfields]; constructor.
    + apply IH.
    + exact IHfields.
Qed.

End JsonInduction.

Lemma join_app (x y : list string) :
  Dump.join (x ++ y) = Dump.join x +:+ Dump.join y.
Proof.
  induction x as [|c x IH]; [done |]. cbn [app Dump.join].
  by rewrite IH, append_assoc.
Qed.

(** A scalar is one chunk, the same at every level. *)
Lemma scalar_chunks v text level :
  Dump.scalar v = Some text →
  Dump.chunks level v = [text] ∧ Dump.dumps level v = text.
Proof. destruct v as [|[|]| | | | |]; by intros [= <-]. Qed.

Lemma item_chunks_text before v inner text :
  Dump.join inner = text →
  (∀ t, Dump.scalar v = Some t → t = text) →
  Dump.join (Dump.item_chunks before v inner) = before +:+ text.
Proof.
  intros Hinner Hscalar. unfold Dump.item_chunks.
  destruct (Dump.scalar v) as [t|] eqn:Hv.
  - rewrite (Hscalar t eq_refl). cbn [Dump.join]. by rewrite append_empty_r.
  - cbn [Dump.join]. by rewrite Hinner.
Qed.

(** The chunks [json.dump] writes add up to the text of the document. *)
Lemma chunks_text v : ∀ level,
  Dump.join (Dump.chunks level v) = Dump.dumps level v.
Proof.
  induction v as [| b | n | r | s | items IH | fields IH]
    using json_nested_ind; intros level;
    try (cbn; by rewrite ?append_empty_r).
  - destruct b; cbn; done.
  - destruct items as [|x xs]; [done |].
    apply Forall_cons in IH as [Hx Hxs].
    cbn [Dump.chunks Dump.dumps]. rewrite !join_app.
    rewrite (item_chunks_text _ x _ (Dump.dumps (S level) x));
      [| apply Hx | intros t Ht; by destruct (scalar_chunks x t (S level) Ht)].
    rewrite !append_assoc. do 2 f_equal.
    cbn [Dump.join]. rewrite append_empty_r. do 2 f_equal.
    induction xs as [|y xs IHxs]; [done |].
    apply Forall_cons in Hxs as [Hy Hxs].
    rewrite join_app.
    rewrite (item_chunks_text _ y _ (Dump.dumps (S level) y));
      [| apply Hy | intros t Ht; by destruct (scalar_chunks y t (S level) Ht)].
    rewrite IHxs by done. by rewrite !append_assoc.
  - destruct fields as [|[k x] xs]; [done |].
    apply Forall_cons in IH as [Hx Hxs]. cbn [snd] in Hx.
    cbn [Dump.chunks Dump.dumps]. rewrite !join_app.
    cbn [Dump.join]. rewrite !append_empty_r, Hx.
    rewrite !append_assoc. do 5 f_equal.
    induction xs as [|[k' y] xs IHxs]; [done |].
    apply Forall_cons in Hxs as [Hy Hxs]. cbn [snd] in Hy.
    rewrite !join_app. cbn [Dump.join]. rewrite !append_empty_r, Hy.
    rewrite !append_assoc. by rewrite IHxs.
Qed.

(** The chunks that are written are the first chunks, and all of them
    when every chunk can be encoded. *)
Lemma written_prefix (chunks : list string) : written chunks `prefix_of` chunks.
Proof.
  induction chunks as [|c chunks IH]; [done |]. cbn [written].
  destruct (Utf8.encodable c); [by apply prefix_cons | apply prefix_nil].
Qed.

Lemma written_all (chunks : list string) :
  forallb Utf8.encodable chunks = true → written chunks = chunks.
Proof.
  induction chunks as [|c chunks IH]; [done |]. cbn [forallb written].
  intros [-> H]%andb_true_iff. by rewrite IH.
Qed.

Lemma written_stops (chunks : list string) :
  forallb Utf8.encodable chunks = false →
  ∃ chunk rest,
    chunks = written chunks ++ chunk :: rest ∧ Utf8.encodable chunk = false.
Proof.
  induction chunks as [|c chunks IH]; [done |]. cbn [forallb written].
  destruct (Utf8.encodable c) eqn:Hc; cbn [andb].
  - intros (chunk & rest & Heq & Hchunk)%IH. exists chunk, rest.
    split; [| done]. cbn [app]. by f_equal.
  - intros _. by exists c, chunks.
Qed.

Lemma concat_bytes_join (chunks : list string) :
  concat (list_byte_of_string <$> chunks)
  = list_byte_of_string (Dump.join chunks).
Proof.
  induction chunks as [|c chunks IH]; [done |].
  cbn [fmap list_fmap concat Dump.join].
  by rewrite list_byte_of_string_app, IH.
Qed.

(** What a dump that gets through has written is the text of the
    document; what a dump that fails has written is the beginning of it. *)
Lemma written_bytes_text doc :
  dumpable doc = true → written_bytes doc = json_dumps doc.
Proof.
  unfold dumpable, written_bytes, json_dumps. intros H.
  by rewrite written_all, concat_bytes_join, chunks_text.
Qed.

Lemma written_bytes_prefix doc : written_bytes doc `prefix_of` json_dumps doc.
Proof.
  unfold written_bytes, json_dumps. rewrite <- chunks_text.
  destruct (written_prefix (Dump.chunks 0 doc)) as [rest Hrest].
  rewrite Hrest at 2. rewrite join_app, list_byte_of_string_app.
  rewrite <- concat_bytes_join. by eexists.
Qed.

Lemma length_bytes_join_app (x y : list string) :
  length (list_byte_of_string (Dump.join (x ++ y)))
  = (length (list_byte_of_string (Dump.join x))
     + length (list_byte_of_string (Dump.join y)))%nat.
Proof. by rewrite join_app, list_byte_of_string_app, length_app. Qed.

(** A dump that fails leaves less than the text. *)
Lemma written_bytes_shorter doc :
  dumpable doc = false →
  (length (written_bytes doc) < length (json_dumps doc))%nat.
Proof.
  unfold dumpable, written_bytes, json_dumps. intros H.
  destruct (written_stops _ H) as (chunk & rest & Heq & Hchunk).
  rewrite <- chunks_text, concat_bytes_join. rewrite Heq at 2.
  rewrite length_bytes_join_app. cbn [Dump.join].
  rewrite list_byte_of_string_app, length_app.
  destruct chunk as [|c chunk]; [done |].
  unfold list_byte_of_string. cbn [list_ascii_of_string map length]. lia.
Qed.

(** ** The three stores of lines 98-102 *)

Section SetFields.

Variables dotted_version hyphen_version checksum : string.
Variables d a b : list (string * json).
Hypothesis Harch : Dict.get "architecture" d = Some (JDict a).
Hypothesis H64 : Dict.get "64bit" a = Some (JDict b).

Local Abbreviation m' := (updated dotted_version hyphen_version checksum d a b).

Lemma set_fields_ok :
  set_fields (JDict d) dotted_version hyphen_version checksum = Ok m'.
Proof using Harch H64.
  unfold set_fields, setitem3, updated. simpl.
  rewrite get_set_ne, Harch by done. simpl. rewrite H64. simpl.
  rewrite !get_set_eq. simpl. rewrite !get_set_eq. simpl.
  by rewrite !set_set.
Qed.

Lemma updated_version : json_at ["version"] m' = Some (JStr dotted_version).
Proof.
  unfold updated. rewrite json_at_set_ne by done.
  by rewrite json_at_set_eq.
Qed.

Lemma updated_url :
  json_at ["architecture"; "64bit"; "url"] m'
  = Some (JStr (Str.format URL_TEMPLATE hyphen_version)).
Proof.
  unfold updated. rewrite !json_at_set_eq.
  rewrite json_at_set_ne by done. by rewrite json_at_set_eq.
Qed.

Lemma updated_hash :
  json_at ["architecture"; "64bit"; "hash"] m'
  = Some (JStr ("sha256:" +:+ checksum)).
Proof. unfold updated. by rewrite !json_at_set_eq. Qed.

(** The shape of a path that overlaps none of the targeted ones. *)
Lemma untouched_inv q :
  untouched q →
  ∃ k q1, q = k :: q1 ∧ k ≠ "version"
    ∧ (k = "architecture" →
       ∃ k2 q2, q1 = k2 :: q2
         ∧ (k2 = "64bit" →
            ∃ k3 q3, q2 = k3 :: q3 ∧ k3 ≠ "url" ∧ k3 ≠ "hash")).
Proof.
  unfold untouched, targeted, overlaps. intros H.
  apply Forall_cons in H as [Hv H]. apply Forall_cons in H as [Hu H].
  apply Forall_cons in H as [Hh _].
  destruct q as [|k q1]; [destruct Hv; left; apply prefix_nil |].
  exists k, q1. split_and!; [done | |].
  { intros ->. apply Hv. right. by exists q1. }
  intros ->. destruct q1 as [|k2 q2].
  { destruct Hu. left. by exists ["64bit"; "url"]. }
  exists k2, q2. split; [done |]. intros ->. destruct q2 as [|k3 q3].
  { destruct Hu. left. by exists ["url"]. }
  exists k3, q3. split_and!; [done | |]; intros ->.
  - apply Hu. right. by exists q3.
  - apply Hh. right. by exists q3.
Qed.

(** Frame: a field that overlaps no targeted one reads the same before
    and after. *)
Lemma updated_frame q :
  untouched q → json_at q m' = json_at q (JDict d).
Proof using Harch H64.
  intros (k & q1 & -> & Hk & Hq1)%untouched_inv. unfold updated.
  destruct (decide (k = "architecture")) as [->|Hka].
  - destruct (Hq1 eq_refl) as (k2 & q2 & -> & Hq2).
    rewrite json_at_set_eq. simpl json_at at 2. rewrite Harch.
    destruct (decide (k2 = "64bit")) as [->|Hk2].
    + destruct (Hq2 eq_refl) as (k3 & q3 & -> & Hu & Hh).
      rewrite json_at_set_eq. simpl json_at at 2. rewrite H64.
      by rewrite !json_at_set_ne by done.
    + by rewrite json_at_set_ne by done.
  - by rewrite !json_at_set_ne by done.
Qed.

(** Structure: where the three fields were already there, every dict
    that is not inside a targeted field keeps its keys and their order. *)
Lemma updated_keys q :
  manifest_document (JDict d) →
  not_overwritten q → keys_at q m' = keys_at q (JDict d).
Proof using Harch H64.
  intros (_ & Hv & Hu & Hh). simpl in Hv, Hu, Hh.
  rewrite Harch in Hu, Hh. simpl in Hu, Hh. rewrite H64 in Hu, Hh.
  assert (is_Some (Dict.get "version" d)) as Hv'.
  { destruct (Dict.get "version" d); [eauto | by destruct Hv]. }
  assert (is_Some (Dict.get "url" b)) as Hu'.
  { destruct (Dict.get "url" b); [eauto | by destruct Hu]. }
  assert (is_Some (Dict.get "hash" b)) as Hh'.
  { destruct (Dict.get "hash" b); [eauto | by destruct Hh]. }
  clear Hv Hu Hh.
  unfold not_overwritten, targeted. intros H.
  apply Forall_cons in H as [Nv H]. apply Forall_cons in H as [Nu H].
  apply Forall_cons in H as [Nh _].
  unfold keys_at, updated.
  destruct q as [|k q1].
  { simpl. rewrite !keys_set_present; [done.. | ].
    rewrite get_set_ne by done. by rewrite Harch. }
  destruct (decide (k = "architecture")) as [->|Hka]; cycle 1.
  { rewrite json_at_set_ne by done.
    destruct (decide (k = "version")) as [->|Hkv];
      [destruct Nv; by exists q1 | by rewrite json_at_set_ne by done]. }
  rewrite json_at_set_eq. simpl json_at at 2. rewrite Harch.
  destruct q1 as [|k2 q2].
  { simpl. rewrite keys_set_present; [done | by rewrite H64]. }
  destruct (decide (k2 = "64bit")) as [->|Hk2];
    [| by rewrite json_at_set_ne by done].
  rewrite json_at_set_eq. simpl json_at at 2. rewrite H64.
  destruct q2 as [|k3 q3].
  { simpl. rewrite !keys_set_present; [done.. |].
    by rewrite get_set_ne by done. }
  destruct (decide (k3 = "hash")) as [->|Hk3]; [destruct Nh; by exists q3 |].
  rewrite json_at_set_ne by done.
  destruct (decide (k3 = "url")) as [->|Hk3']; [destruct Nu; by exists q3 |].
  by rewrite json_at_set_ne by done.
Qed.

End SetFields.

(** ** The manifest update on the file system *)

Lemma node_at_lookup (f : gmap path node) p n :
  node_at f p = Some (File n) → f !! p = Some (File n).
Proof. by destruct p. Qed.

Lemma node_at_nonroot (f : gmap path node) p :
  p ≠ [] → node_at f p = f !! p.
Proof. by destruct p. Qed.

(** The loop of the dump on an open file: the chunks are appended to the
    file up to the first one that cannot be encoded. *)
Lemma write_each_spec (chunks : list string) : ∀ s p data,
  fs s !! p = Some (File (Bytes data)) →
  write_each p chunks s
  = ((if forallb Utf8.encodable chunks then Ok tt
      else Raise UnicodeEncodeError),
     {| fs := <[p := File (Bytes (data ++ concat (list_byte_of_string
                                                   <$> written chunks)))]>
                (fs s);
        out := out s; installer_path := installer_path s |}).
Proof.
  induction chunks as [|chunk chunks IH]; intros s p data Hp.
  - cbn. unfold ret. rewrite app_nil_r, insert_id by done. by destruct s.
  - cbn [write_each forallb written]. unfold write_text. unfold_monad.
    destruct (Utf8.encodable chunk) eqn:Hc; cbn [andb].
    + unfold write_bytes. unfold_monad. rewrite Hp. unfold_monad.
      cbn [bytes_of]. erewrite IH by apply lookup_insert_eq.
      cbn [fs out installer_path fmap list_fmap concat].
      by rewrite insert_insert_eq, <- app_assoc.
    + unfold_monad. cbn [fmap list_fmap concat].
      rewrite app_nil_r, insert_id by done. by destruct s.
Qed.

(** The dump into a file that was just opened for writing. *)
Lemma json_dump_spec doc p s :
  fs s !! p = Some (File (Bytes [])) →
  json_dump doc p s
  = if dumpable doc then
      (Ok tt, {| fs := <[p := File (JsonText doc)]> (fs s);
                 out := out s; installer_path := installer_path s |})
    else
      (Raise UnicodeEncodeError,
       {| fs := <[p := File (Bytes (written_bytes doc))]> (fs s);
          out := out s; installer_path := installer_path s |}).
Proof.
  intros Hp. unfold json_dump, dumpable, written_bytes. unfold_monad.
  rewrite (write_each_spec _ s p [] Hp). cbn [app].
  destruct (forallb Utf8.encodable (Dump.chunks 0 doc)); unfold_monad;
    [| done].
  by rewrite insert_insert_eq.
Qed.

(** The update of a document with an [architecture.64bit] object whose
    new text can be encoded: one message, and the closed form of the
    document at the same path. *)
Lemma update_manifest_returns s manifest_path dv hv ck d a b :
  node_at (fs s) manifest_path = Some (File (JsonText (JDict d))) →
  Dict.get "architecture" d = Some (JDict a) →
  Dict.get "64bit" a = Some (JDict b) →
  dumpable (updated dv hv ck d a b) = true →
  update_manifest manifest_path dv hv ck s
  = (Ok tt,
     {| fs := <[manifest_path := File (JsonText (updated dv hv ck d a b))]> (fs s);
        out := out s ++ [Print MsgUpdating];
        installer_path := installer_path s |}).
Proof.
  intros Hp Ha Hb Hdump. unfold update_manifest, open_read, open_write,
    json_load. unfold_monad. rewrite Hp. unfold_monad.
  rewrite (set_fields_ok dv hv ck d a b Ha Hb). unfold_monad.
  rewrite Hp. unfold_monad.
  rewrite json_dump_spec by apply lookup_insert_eq.
  rewrite Hdump. cbn [fs out installer_path]. by rewrite insert_insert_eq.
Qed.

(** The same update when a chunk of the new text cannot be encoded: the
    file was emptied, and the dump leaves the chunks before that one. *)
Lemma update_manifest_dump_fails s manifest_path dv hv ck d a b :
  node_at (fs s) manifest_path = Some (File (JsonText (JDict d))) →
  Dict.get "architecture" d = Some (JDict a) →
  Dict.get "64bit" a = Some (JDict b) →
  dumpable (updated dv hv ck d a b) = false →
  update_manifest manifest_path dv hv ck s
  = (Raise UnicodeEncodeError,
     {| fs := <[manifest_path
                := File (Bytes (written_bytes (updated dv hv ck d a b)))]>
                (fs s);
        out := out s ++ [Print MsgUpdating];
        installer_path := installer_path s |}).
Proof.
  intros Hp Ha Hb Hdump. unfold update_manifest, open_read, open_write,
    json_load. unfold_monad. rewrite Hp. unfold_monad.
  rewrite (set_fields_ok dv hv ck d a b Ha Hb). unfold_monad.
  rewrite Hp. unfold_monad.
  rewrite json_dump_spec by apply lookup_insert_eq.
  rewrite Hdump. cbn [fs out installer_path]. by rewrite insert_insert_eq.
Qed.

(** An update that returns was given a document with an
    [architecture.64bit] object, and leaves the closed form. *)
Lemma update_manifest_returned s manifest_path dv hv ck m :
  node_at (fs s) manifest_path = Some (File (JsonText m)) →
  fst (update_manifest manifest_path dv hv ck s) = Ok tt →
  ∃ d a b,
    m = JDict d
    ∧ Dict.get "architecture" d = Some (JDict a)
    ∧ Dict.get "64bit" a = Some (JDict b)
    ∧ dumpable (updated dv hv ck d a b) = true
    ∧ snd (update_manifest manifest_path dv hv ck s)
      = {| fs := <[manifest_path
                   := File (JsonText (updated dv hv ck d a b))]> (fs s);
           out := out s ++ [Print MsgUpdating];
           installer_path := installer_path s |}.
Proof.
  intros Hp Hok.
  assert (∀ e, set_fields m dv hv ck = Raise e →
               fst (update_manifest manifest_path dv hv ck s) = Raise e)
    as Hraise.
  { intros e He. unfold update_manifest, open_read, json_load.
    unfold_monad. rewrite Hp. unfold_monad. by rewrite He. }
  unfold set_fields, setitem3 in Hraise.
  destruct m as [| | | | | |d];
    try (by rewrite (Hraise _ eq_refl) in Hok).
  cbn [setitem getitem and_then] in Hraise.
  rewrite get_set_ne in Hraise by done.
  destruct (Dict.get "architecture" d) as [[| | | | | |a]|] eqn:Ha;
    try (by rewrite (Hraise _ eq_refl) in Hok).
  cbn [setitem getitem and_then] in Hraise.
  destruct (Dict.get "64bit" a) as [[| | | | | |b]|] eqn:Hb;
    try (by rewrite (Hraise _ eq_refl) in Hok).
  clear Hraise. exists d, a, b.
  destruct (dumpable (updated dv hv ck d a b)) eqn:Hdump.
  - by rewrite (update_manifest_returns _ _ _ _ _ d a b Hp Ha Hb Hdump).
  - by rewrite (update_manifest_dump_fails _ _ _ _ _ d a b Hp Ha Hb Hdump)
      in Hok.
Qed.

(** C1, as the code has it.  Frame of a manifest update that returns.
    In the document it leaves at the path every field that overlaps none
    of [version], [architecture.64bit.url] and [architecture.64bit.hash]
    has the value it had; where the three fields were already there,
    every dict outside them keeps its keys in their order; no other file
    changes.  (The update does not return when a string of the new
    document cannot be encoded as UTF-8.) *)
Theorem update_manifest_keeps_other_fields
    s manifest_path dotted_version hyphen_version checksum m :
  node_at (fs s) manifest_path = Some (File (JsonText m)) →
  let after := update_manifest manifest_path dotted_version hyphen_version
                 checksum s in
  fst after = Ok tt →
  ∃ m',
    fs (snd after) !! manifest_path = Some (File (JsonText m'))
    ∧ (∀ q, untouched q → json_at q m' = json_at q m)
    ∧ (manifest_document m →
       ∀ q, not_overwritten q → keys_at q m' = keys_at q m)
    ∧ (∀ p, p ≠ manifest_path → fs (snd after) !! p = fs s !! p).
Proof.
  intros Hp after Hok. subst after.
  destruct (update_manifest_returned _ _ _ _ _ _ Hp Hok)
    as (d & a & b & -> & Ha & Hb & _ & ->).
  cbn [fs].
  exists (updated dotted_version hyphen_version checksum d a b).
  split_and!.
  - apply lookup_insert_eq.
  - intros q Hq. by apply updated_frame.
  - intros Hm q Hq. by apply updated_keys.
  - intros p Hne. by rewrite lookup_insert_ne.
Qed.

(** C2, as the code has it.  The three fields after a manifest update
    that returns.  The manifest file was there and held an
    [architecture.64bit] object, and the update leaves at the same path
    the serialisation of a document whose [version] is the dotted string,
    whose [architecture.64bit.url] is the URL template with the
    hyphenated string in the place of its field, and whose
    [architecture.64bit.hash] is "sha256:" followed by the checksum. *)
Theorem update_manifest_sets_fields
    s manifest_path dotted_version hyphen_version checksum m :
  node_at (fs s) manifest_path = Some (File (JsonText m)) →
  let after := update_manifest manifest_path dotted_version hyphen_version
                 checksum s in
  fst after = Ok tt →
  has_architecture_64bit m
  ∧ ∃ m',
      fs (snd after) = <[manifest_path := File (JsonText m')]> (fs s)
      ∧ bytes_of (JsonText m') = written_bytes m'
      ∧ json_at ["version"] m' = Some (JStr dotted_version)
      ∧ json_at ["architecture"; "64bit"; "url"] m'
        = Some (JStr (url_prefix +:+ hyphen_version +:+ url_suffix))
      ∧ Str.format URL_TEMPLATE hyphen_version
        = url_prefix +:+ hyphen_version +:+ url_suffix
      ∧ json_at ["architecture"; "64bit"; "hash"] m'
        = Some (JStr ("sha256:" +:+ checksum)).
Proof.
  intros Hp after Hok. subst after.
  destruct (update_manifest_returned _ _ _ _ _ _ Hp Hok)
    as (d & a & b & -> & Ha & Hb & Hdump & ->).
  cbn [fs]. split; [by exists d, a, b |].
  exists (updated dotted_version hyphen_version checksum d a b).
  split_and!; try done.
  - cbn [bytes_of]. by rewrite written_bytes_text.
  - apply updated_version.
  - by rewrite updated_url, format_URL_TEMPLATE.
  - apply updated_hash.
Qed.

Lemma sample_has_architecture_64bit : has_architecture_64bit sample_doc.
Proof. do 3 eexists. split_and!; reflexivity. Defined.

Lemma update_manifest_keeps_other_fields_witness :
  node_at (fs (start sample_files)) sample_manifest_path
  = Some (File (JsonText sample_doc))
  ∧ fst (update_manifest sample_manifest_path "7.2.0.2" "7-2-0-2" "AB"
           (start sample_files)) = Ok tt
  ∧ ∃ m',
      fs (snd (update_manifest sample_manifest_path "7.2.0.2" "7-2-0-2" "AB"
                 (start sample_files))) !! sample_manifest_path
      = Some (File (JsonText m'))
      ∧ json_at ["other"] m' = Some (JStr "keep").
Proof.
  assert (node_at (fs (start sample_files)) sample_manifest_path
          = Some (File (JsonText sample_doc))) as Hp by reflexivity.
  assert (fst (update_manifest sample_manifest_path "7.2.0.2" "7-2-0-2" "AB"
                 (start sample_files)) = Ok tt) as Hok
    by (vm_compute; reflexivity).
  destruct (update_manifest_keeps_other_fields (start sample_files)
              sample_manifest_path "7.2.0.2" "7-2-0-2" "AB" sample_doc Hp Hok)
    as (m' & Hfile & Hframe & _).
  split_and!; [exact Hp | exact Hok |].
  exists m'. split; [exact Hfile |].
  rewrite (Hframe ["other"]); [reflexivity | solve_paths].
Defined.

Lemma update_manifest_sets_fields_witness :
  node_at (fs (start sample_files)) sample_manifest_path
  = Some (File (JsonText sample_doc))
  ∧ fst (update_manifest sample_manifest_path "7.2.0.2" "7-2-0-2" "AB"
           (start sample_files)) = Ok tt
  ∧ ∃ m',
      fs (snd (update_manifest sample_manifest_path "7.2.0.2" "7-2-0-2" "AB"
                 (start sample_files)))
      = <[sample_manifest_path := File (JsonText m')]> sample_files
      ∧ json_at ["version"] m' = Some (JStr "7.2.0.2")
      ∧ json_at ["architecture"; "64bit"; "url"] m'
        = Some (JStr "https://downloads.firestormviewer.org/preview/windows/Phoenix-Firestorm-Betax64_AVX2-7-2-0-2_Setup.exe")
      ∧ json_at ["architecture"; "64bit"; "hash"] m' = Some (JStr "sha256:AB").
Proof.
  assert (node_at (fs (start sample_files)) sample_manifest_path
          = Some (File (JsonText sample_doc))) as Hp by reflexivity.
  assert (fst (update_manifest sample_manifest_path "7.2.0.2" "7-2-0-2" "AB"
                 (start sample_files)) = Ok tt) as Hok
    by (vm_compute; reflexivity).
  destruct (update_manifest_sets_fields (start sample_files)
              sample_manifest_path "7.2.0.2" "7-2-0-2" "AB" sample_doc Hp Hok)
    as (_ & m' & Hfs & _ & Hv & Hu & _ & Hh).
  split_and!; [exact Hp | exact Hok |].
  exists m'. split_and!; [exact Hfs | exact Hv | exact Hu | exact Hh].
Defined.

(** C1, as the claim has it, fails.  The manifest of the sample with a
    lone surrogate in its unrelated field is a document [json.load]
    reads and that holds an [architecture.64bit] object.  The update
    empties the file, writes the text up to the string it cannot encode
    and raises: the file holds no document any more, the unrelated field
    is gone with the rest. *)
Lemma update_manifest_keeps_other_fields_counterexample :
  let after :=
    update_manifest sample_manifest_path "7.2.0.2" "7-2-0-2" "AB"
      (start surrogate_files) in
  node_at (fs (start surrogate_files)) sample_manifest_path
  = Some (File (JsonText surrogate_doc))
  ∧ json_at ["other"] surrogate_doc = Some (JStr lone_surrogate)
  ∧ untouched ["other"]
  ∧ fst after = Raise UnicodeEncodeError
  ∧ ¬ ∃ m', fs (snd after) !! sample_manifest_path = Some (File (JsonText m'))
            ∧ json_at ["other"] m' = json_at ["other"] surrogate_doc.
Proof.
  cbv zeta. split_and!; [reflexivity | reflexivity | solve_paths | |].
  - vm_compute. reflexivity.
  - intros (m' & Hfile & _). vm_compute in Hfile. discriminate.
Qed.

(** C2, as the claim has it, fails on the same manifest: the file is
    there and holds an [architecture.64bit] object, and the update
    raises with the beginning of the new text in the file and no
    document. *)
Lemma update_manifest_sets_fields_counterexample :
  let after :=
    update_manifest sample_manifest_path "7.2.0.2" "7-2-0-2" "AB"
      (start surrogate_files) in
  node_at (fs (start surrogate_files)) sample_manifest_path
  = Some (File (JsonText surrogate_doc))
  ∧ has_architecture_64bit surrogate_doc
  ∧ fst after = Raise UnicodeEncodeError
  ∧ fs (snd after) !! sample_manifest_path
    = Some (File (Bytes (written_bytes
         (updated "7.2.0.2" "7-2-0-2" "AB" surrogate_fields
            sample_architecture sample_64bit))))
  ∧ ¬ ∃ m', fs (snd after) !! sample_manifest_path = Some (File (JsonText m')).
Proof.
  cbv zeta. split_and!; [reflexivity | | | |].
  - do 3 eexists. split_and!; reflexivity.
  - vm_compute. reflexivity.
  - vm_compute. reflexivity.
  - intros (m' & Hfile). vm_compute in Hfile. discriminate.
Qed.

(** What that update leaves in the file: the text up to the value of the
    unrelated field. *)
Example surrogate_manifest_truncated :
  string_of_list_byte
    (written_bytes
       (updated "7.2.0.2" "7-2-0-2" "AB" surrogate_fields
          sample_architecture sample_64bit))
  = Dump.join
      [ "{"; String "010" "  "; Dump.quoted "version"; ": ";
        Dump.quoted "7.2.0.2"; String "," (String "010" "  ");
        Dump.quoted "architecture"; ": "; "{"; String "010" "    ";
        Dump.quoted "64bit"; ": "; "{"; String "010" "      ";
        Dump.quoted "url"; ": ";
        Dump.quoted "https://downloads.firestormviewer.org/preview/windows/Phoenix-Firestorm-Betax64_AVX2-7-2-0-2_Setup.exe";
        String "," (String "010" "      "); Dump.quoted "hash"; ": ";
        Dump.quoted "sha256:AB"; String "010" "    "; "}";
        String "010" "  "; "}"; String "," (String "010" "  ");
        Dump.quoted "other"; ": " ].
Proof. vm_compute. reflexivity. Qed.

(** ** The incremental hash object against the reference digest *)

Section Hashing.

Import SHA256.

Lemma update_app h (l1 l2 : list byte) :
  update h (l1 ++ l2) = update (update h l1) l2.
Proof. unfold update. apply fold_left_app. Qed.

(** Bytes that do not complete the open block are only buffered. *)
Lemma update_fill regs (buf l : list byte) len :
  (length buf + length l < 64)%nat →
  update (Hasher regs buf len) l
  = Hasher regs (buf ++ l) (len + Z.of_nat (length l)).
Proof.
  revert buf len. induction l as [|b l IH]; intros buf len Hlen.
  - simpl. by rewrite app_nil_r, Z.add_0_r.
  - simpl in Hlen. cbn [update fold_left]. unfold absorb at 2.
    cbn [h_buf h_regs h_len].
    assert ((length (buf ++ [b]) =? 64)%nat = false) as ->.
    { apply Nat.eqb_neq. rewrite length_app. simpl. lia. }
    fold (update (Hasher regs (buf ++ [b]) (len + 1)) l).
    rewrite IH by (rewrite length_app; simpl; lia).
    rewrite <- app_assoc. simpl. f_equal. lia.
Qed.

(** The byte that completes a block triggers one compression. *)
Lemma update_block regs (blk : list byte) len :
  length blk = 64%nat →
  update (Hasher regs [] len) blk = Hasher (compress regs blk) [] (len + 64).
Proof.
  intros Hlen. destruct blk as [|b l _] using rev_ind; [done |].
  rewrite length_app in Hlen. simpl in Hlen.
  rewrite update_app, update_fill by (simpl; lia).
  cbn [update fold_left app]. unfold absorb. cbn [h_buf h_regs h_len].
  assert ((length (l ++ [b]) =? 64)%nat = true) as ->.
  { apply Nat.eqb_eq. rewrite length_app. simpl. lia. }
  f_equal. lia.
Qed.

Lemma update_blocks n : ∀ regs (l : list byte) len,
  length l = (64 * n)%nat →
  update (Hasher regs [] len) l
  = Hasher (fold_left compress (blocks_n n l) regs) []
      (len + Z.of_nat (length l)).
Proof.
  induction n as [|n IH]; intros regs l len Hlen.
  - destruct l; [| simpl in Hlen; lia]. simpl. by rewrite Z.add_0_r.
  - transitivity (update (Hasher regs [] len) (take 64 l ++ drop 64 l));
      [by rewrite take_drop |].
    assert (length (take 64 l) = 64%nat) as Ht by (rewrite length_take; lia).
    assert (length (drop 64 l) = (64 * n)%nat) as Hd
      by (rewrite length_drop; lia).
    rewrite update_app, update_block, IH by done.
    cbn [blocks_n fold_left]. f_equal. rewrite Hd, Hlen. lia.
Qed.

Lemma bytes_of_word_length w : length (bytes_of_word w) = 4%nat.
Proof. reflexivity. Qed.

(** A padded message is a whole number of blocks. *)
Lemma padded_length (msg : list byte) :
  ∃ n, length (msg ++ padding (Z.of_nat (length msg))) = (64 * n)%nat.
Proof.
  unfold padding. rewrite length_app. cbn [length].
  rewrite !length_app, repeat_length, !bytes_of_word_length.
  set (L := Z.of_nat (length msg)).
  pose proof (Z.mod_pos_bound (55 - L) 64 ltac:(lia)) as Hr.
  pose proof (Z_div_mod_eq_full (55 - L) 64) as Hq.
  exists (Z.to_nat (1 - (55 - L) / 64)). lia.
Qed.

Lemma update_length h (l : list byte) :
  h_len (update h l) = h_len h + Z.of_nat (length l).
Proof.
  revert h. induction l as [|b l IH]; intros h; simpl; [lia |].
  fold (update (absorb h b) l). rewrite IH. unfold absorb.
  destruct (_ =? _)%nat; simpl; lia.
Qed.

(** Feeding a message to a fresh object, in one piece, and asking for the
    digest gives the reference digest. *)
Lemma digest_update_new (msg : list byte) :
  digest (update new msg) = sha256 msg.
Proof.
  unfold digest, sha256. rewrite update_length, <- update_app.
  cbn [new h_len]. rewrite Z.add_0_l.
  destruct (padded_length msg) as [n Hn].
  unfold new. rewrite (update_blocks n) by done.
  cbn [h_regs]. unfold blocks. rewrite Hn.
  by rewrite Nat.mul_comm, Nat.div_mul.
Qed.

(** However the message is cut into chunks, the object ends the same. *)
Lemma update_chunks h (chunks : list (list byte)) :
  fold_left update chunks h = update h (concat chunks).
Proof.
  revert h. induction chunks as [|c chunks IH]; intros h; simpl; [done |].
  by rewrite IH, update_app.
Qed.

Lemma digest_length (h : hasher) : length (digest h) = 32%nat.
Proof. reflexivity. Qed.

Lemma hex_length (l : list byte) :
  String.length (hex l) = (2 * length l)%nat.
Proof. induction l as [|b l IH]; simpl; [done |]. rewrite IH. lia. Qed.

Lemma upper_length s : String.length (Str.upper s) = String.length s.
Proof. induction s as [|c s IH]; simpl; [done | by rewrite IH]. Qed.

Lemma upper_hex_byte (b : byte) :
  Str.is_upper_hex (Str.upper_char (hex_digit (Z_of_byte b / 16)))
  && Str.is_upper_hex (Str.upper_char (hex_digit (Z_of_byte b mod 16)))
  = true.
Proof. destruct b; vm_compute; reflexivity. Qed.

Lemma upper_hex_chars (l : list byte) :
  Str.all_chars Str.is_upper_hex (Str.upper (hex l)) = true.
Proof.
  induction l as [|b l IH]; [done |].
  cbn [hex Str.upper Str.all_chars].
  pose proof (upper_hex_byte b) as [-> ->]%andb_true_iff. by rewrite IH.
Qed.

(** The read loop: with a positive chunk size and more fuel than bytes it
    ends, and the object has then been fed the whole content. *)
Lemma read_loop_total fuel : ∀ size (unread : list byte) h,
  (0 < size)%nat → (length unread < fuel)%nat →
  read_loop fuel size unread h = Some (update h unread).
Proof.
  induction fuel as [|fuel IH]; intros size unread h Hsize Hfuel; [lia |].
  cbn [read_loop]. destruct (take size unread) as [|b chunk] eqn:E.
  - destruct unread as [|b unread]; [done |].
    destruct size; [lia | discriminate].
  - rewrite IH; [| done |].
    + by rewrite <- update_app, <- E, take_drop.
    + rewrite length_drop. destruct unread; [by destruct size |].
      simpl in Hfuel |- *. lia.
Qed.

End Hashing.

(** ** The checksum of a file *)

(** The constants, as the standard prints them. *)
Example first_and_last_constants :
  head SHA256.K = Some 0x428a2f98 ∧ last SHA256.K = Some 0xc67178f2
  ∧ SHA256.ra SHA256.H0 = 0x6a09e667 ∧ SHA256.rh SHA256.H0 = 0x5be0cd19.
Proof. by vm_compute. Qed.

(** The reference digest on the test vectors of the standard. *)
Example sha256_abc :
  SHA256.hex (SHA256.sha256 (list_byte_of_string "abc"))
  = "ba7816bf8f01cfea414140de5dae2223b00361a396177a9cb410ff61f20015ad".
Proof. vm_compute. reflexivity. Qed.

Example sha256_empty :
  SHA256.hex (SHA256.sha256 [])
  = "e3b0c44298fc1c149afbf4c8996fb92427ae41e4649b934ca495991b7852b855".
Proof. vm_compute. reflexivity. Qed.

Example sha256_two_blocks :
  SHA256.hex (SHA256.sha256 (list_byte_of_string
    "abcdbcdecdefdefgefghfghighijhijkijkljklmklmnlmnomnopnopq"))
  = "248d6a61d20638b8e5c026930c3e6039a33ce45964ff2167f6ecedd419db06c1".
Proof. vm_compute. reflexivity. Qed.

(** The read loop with chunks of five bytes on a message of 56. *)
Example read_loop_small_chunks :
  SHA256.hexdigest <$>
    read_loop 57 5 (list_byte_of_string
      "abcdbcdecdefdefgefghfghighijhijkijkljklmklmnlmnomnopnopq") SHA256.new
  = Some "248d6a61d20638b8e5c026930c3e6039a33ce45964ff2167f6ecedd419db06c1".
Proof. vm_compute. reflexivity. Qed.

Lemma CHUNK_SIZE_positive : (0 < CHUNK_SIZE)%nat.
Proof. unfold CHUNK_SIZE. lia. Qed.

Lemma calculate_sha256_returns s filepath c :
  node_at (fs s) filepath = Some (File c) →
  calculate_sha256 filepath s
  = (Ok (Str.upper (SHA256.hex (SHA256.sha256 (bytes_of c)))),
     {| fs := fs s; out := out s ++ [Print MsgCalculating];
        installer_path := installer_path s |}).
Proof.
  intros Hp. unfold calculate_sha256, open_read. unfold_monad.
  cbn [fs out installer_path]. rewrite Hp.
  rewrite read_loop_total by (apply CHUNK_SIZE_positive || lia).
  unfold SHA256.hexdigest. by rewrite digest_update_new.
Qed.

(** C3. The checksum of a readable file is the SHA-256 digest of its
    bytes, as the standard defines it on the whole message, written as
    64 uppercase hexadecimal characters; the file system is not changed,
    and any two files with the same bytes get the same checksum. *)
Theorem calculate_sha256_is_reference_digest s filepath c :
  node_at (fs s) filepath = Some (File c) →
  let checksum := Str.upper (SHA256.hex (SHA256.sha256 (bytes_of c))) in
  fst (calculate_sha256 filepath s) = Ok checksum
  ∧ fs (snd (calculate_sha256 filepath s)) = fs s
  ∧ String.length checksum = 64%nat
  ∧ Str.all_chars Str.is_upper_hex checksum = true
  ∧ (∀ s2 p2 c2,
        node_at (fs s2) p2 = Some (File c2) →
        bytes_of c2 = bytes_of c →
        fst (calculate_sha256 p2 s2) = fst (calculate_sha256 filepath s)).
Proof.
  intros Hp checksum. rewrite (calculate_sha256_returns _ _ _ Hp).
  cbn [fst snd fs]. split_and!; [done | done | | |].
  - unfold checksum. by rewrite upper_length, hex_length.
  - apply upper_hex_chars.
  - intros s2 p2 c2 Hp2 Hbytes.
    rewrite (calculate_sha256_returns _ _ _ Hp2). cbn [fst].
    by rewrite Hbytes.
Qed.

Lemma calculate_sha256_is_reference_digest_witness :
  node_at (fs (start sample_files_downloaded)) sample_installer_path
  = Some (File (Bytes sample_installer))
  ∧ fst (calculate_sha256 sample_installer_path
           (start sample_files_downloaded))
    = Ok "BA7816BF8F01CFEA414140DE5DAE2223B00361A396177A9CB410FF61F20015AD".
Proof.
  assert (node_at (fs (start sample_files_downloaded)) sample_installer_path
          = Some (File (Bytes sample_installer))) as Hp by reflexivity.
  split; [done |].
  destruct (calculate_sha256_is_reference_digest _ _ _ Hp) as (-> & _).
  vm_compute. reflexivity.
Defined.

(** ** The download step *)

Section Download.

Variables (E : env) (hyphen_version : string) (dest : path).

Local Abbreviation url := (Str.format URL_TEMPLATE hyphen_version).
Local Abbreviation filename := (dest ++ [Str.basename url]).

Lemma say_say s (e1 e2 : list event) : say (say s e1) e2 = say s (e1 ++ e2).
Proof. unfold say. simpl. by rewrite app_assoc. Qed.

(** The three ways the request fails. *)
Lemma download_transport_error s detail :
  http E url = TransportError detail →
  download_installer E hyphen_version dest s
  = (Raise (SystemExit 1),
     say s [Print (MsgDownloading url); HttpGet url;
            Print (MsgNetworkError detail)]).
Proof.
  intros H. unfold download_installer. unfold_monad.
  rewrite H. unfold_monad. unfold say. by rewrite <- !app_assoc.
Qed.

Lemma download_not_found s chunks broken :
  http E url = Response 404 chunks broken →
  download_installer E hyphen_version dest s
  = (Raise (SystemExit 1),
     say s [Print (MsgDownloading url); HttpGet url;
            Print (MsgVersionNotFound url)]).
Proof.
  intros H. unfold download_installer. unfold_monad.
  rewrite H. change (is_http_error 404) with true.
  change (404 =? 404) with true. unfold_monad.
  unfold say. by rewrite <- !app_assoc.
Qed.

Lemma download_http_error s status chunks broken :
  http E url = Response status chunks broken →
  is_http_error status = true → status ≠ 404 →
  download_installer E hyphen_version dest s
  = (Raise (SystemExit 1),
     say s [Print (MsgDownloading url); HttpGet url;
            Print (MsgHttpError status url)]).
Proof.
  intros H Herr Hne. unfold download_installer. unfold_monad.
  rewrite H, Herr. apply Z.eqb_neq in Hne as ->. unfold_monad.
  unfold say. by rewrite <- !app_assoc.
Qed.

(** In each of them the step exits with status 1 after one request, and
    the file system is as it was. *)
Lemma download_request_fails s :
  request_fails E url = true →
  ∃ m, download_error m = true
     ∧ download_installer E hyphen_version dest s
       = (Raise (SystemExit 1),
          say s [Print (MsgDownloading url); HttpGet url; Print m]).
Proof.
  unfold request_fails.
  destruct (http E url) as [status chunks broken|detail] eqn:H.
  - intros Herr. destruct (decide (status = 404)) as [->|Hne].
    + eexists. split; [| by eapply download_not_found]. done.
    + eexists. split; [| by eapply download_http_error]. done.
  - intros _. eexists. split; [| by eapply download_transport_error]. done.
Qed.

(** Writing the chunks appends their bytes to the open file. *)
Lemma write_chunks_appends (chunks : list (list byte)) : ∀ s p data,
  fs s !! p = Some (File (Bytes data)) →
  write_chunks p chunks s
  = (Ok tt,
     {| fs := <[p := File (Bytes (data ++ concat chunks))]> (fs s);
        out := out s; installer_path := installer_path s |}).
Proof.
  induction chunks as [|chunk chunks IH]; intros s p data Hp.
  - simpl. unfold ret. rewrite app_nil_r, insert_id by done. by destruct s.
  - cbn [write_chunks concat]. destruct chunk as [|b chunk].
    + unfold_monad. by rewrite (IH _ _ data).
    + unfold write_bytes. unfold_monad. rewrite Hp. unfold_monad.
      cbn [bytes_of]. erewrite IH by apply lookup_insert_eq.
      unfold_monad. by rewrite insert_insert_eq, <- app_assoc.
Qed.

(** When the status check passes and the file can be opened, the body is
    in the file, whether or not the stream broke after it. *)
Lemma download_body s status chunks broken :
  http E url = Response status chunks broken →
  is_http_error status = false →
  (∃ c, node_at (fs s) filename = Some (File c))
  ∨ (node_at (fs s) filename = None ∧ node_at (fs s) dest = Some Dir) →
  download_installer E hyphen_version dest s
  = (match broken with
     | Some detail => Raise (StreamError detail)
     | None => Ok filename
     end,
     {| fs := <[filename := File (Bytes (concat chunks))]> (fs s);
        out := out s ++ [Print (MsgDownloading url); HttpGet url];
        installer_path := installer_path s |}).
Proof.
  intros H Herr Hfile. unfold download_installer. unfold_monad.
  rewrite H, Herr. unfold_monad.
  assert (open_write filename
            {| fs := fs s; out := (out s ++ [Print (MsgDownloading url)])
                          ++ [HttpGet url];
               installer_path := installer_path s |}
          = (Ok tt,
             {| fs := <[filename := File (Bytes [])]> (fs s);
                out := out s ++ [Print (MsgDownloading url); HttpGet url];
                installer_path := installer_path s |})) as ->.
  { unfold open_write. unfold_monad. rewrite <- app_assoc.
    destruct Hfile as [[c ->]|[-> Hd]]; [done |].
    unfold parent. by rewrite removelast_last, Hd. }
  erewrite write_chunks_appends by apply lookup_insert_eq.
  unfold_monad. cbn [app]. rewrite insert_insert_eq.
  by destruct broken.
Qed.

End Download.

Section DownloadCases.

Variables (E : env) (hyphen_version : string) (dest : path).

Local Abbreviation url := (Str.format URL_TEMPLATE hyphen_version).
Local Abbreviation filename := (dest ++ [Str.basename url]).

(** When the status check passes but the file cannot be opened, nothing
    is written. *)
Lemma download_cannot_open s status chunks broken :
  http E url = Response status chunks broken →
  is_http_error status = false →
  node_at (fs s) filename = Some Dir
  ∨ (node_at (fs s) filename = None ∧ node_at (fs s) dest ≠ Some Dir) →
  ∃ e, download_installer E hyphen_version dest s
       = (Raise e, say s [Print (MsgDownloading url); HttpGet url])
     ∧ ∀ code, e ≠ SystemExit code.
Proof.
  intros H Herr Hfile. unfold download_installer. unfold_monad.
  rewrite H, Herr. unfold open_write. unfold_monad.
  unfold say. rewrite <- app_assoc. cbn [app].
  destruct Hfile as [->|[-> Hd]];
    [eexists; split; [reflexivity | intros code; discriminate] |].
  unfold parent. rewrite removelast_last.
  destruct (node_at (fs s) dest) as [[|c]|]; [done | |];
    (eexists; split; [reflexivity | intros code; discriminate]).
Qed.

(** Every outcome of the download step. *)
Lemma download_installer_cases s :
  let after := download_installer E hyphen_version dest s in
  (request_fails E url = true
   ∧ ∃ m, download_error m = true
        ∧ after = (Raise (SystemExit 1),
                   say s [Print (MsgDownloading url); HttpGet url; Print m]))
  ∨ (request_fails E url = false
     ∧ ∃ e, after = (Raise e, say s [Print (MsgDownloading url); HttpGet url])
          ∧ ∀ code, e ≠ SystemExit code)
  ∨ (∃ status chunks broken,
       http E url = Response status chunks broken
       ∧ is_http_error status = false
       ∧ after
         = (match broken with
            | Some detail => Raise (StreamError detail)
            | None => Ok filename
            end,
            {| fs := <[filename := File (Bytes (concat chunks))]> (fs s);
               out := out s ++ [Print (MsgDownloading url); HttpGet url];
               installer_path := installer_path s |})).
Proof.
  intros after. subst after.
  destruct (request_fails E url) eqn:Hreq.
  { left. split; [done |]. by apply download_request_fails. }
  right. unfold request_fails in Hreq.
  destruct (http E url) as [status chunks broken|detail] eqn:H; [| done].
  destruct (node_at (fs s) filename) as [[|c]|] eqn:Hf.
  - left. split; [done |]. eapply download_cannot_open; eauto.
  - right. exists status, chunks, broken. split_and!; [done.. |].
    eapply download_body; eauto.
  - destruct (node_at (fs s) dest) as [[|c]|] eqn:Hd.
    + right. exists status, chunks, broken. split_and!; [done.. |].
      eapply download_body; eauto.
    + left. split; [done |]. eapply download_cannot_open; eauto.
      right. by rewrite Hd.
    + left. split; [done |]. eapply download_cannot_open; eauto.
      right. by rewrite Hd.
Qed.

End DownloadCases.

(** ** Paths of the script *)

Lemma temp_dir_not_manifest E : temp_dir_of E ≠ manifest_path_of E.
Proof.
  unfold temp_dir_of, manifest_path_of.
  change (parent (script_dir E) ++ ["bucket"; "firestorm-beta.json"])
    with (parent (script_dir E) ++ ["bucket"] ++ ["firestorm-beta.json"]).
  rewrite app_assoc. by intros [_ [=]]%app_inj_tail.
Qed.

Lemma installer_not_manifest E x : temp_dir_of E ++ [x] ≠ manifest_path_of E.
Proof.
  unfold temp_dir_of, manifest_path_of.
  change (parent (script_dir E) ++ ["bucket"; "firestorm-beta.json"])
    with (parent (script_dir E) ++ ["bucket"] ++ ["firestorm-beta.json"]).
  rewrite app_assoc. intros [H _]%app_inj_tail.
  by apply app_inj_tail in H as [_ [=]].
Qed.

Lemma venv_not_manifest E : script_dir E ++ ["venv"] ≠ manifest_path_of E.
Proof.
  unfold manifest_path_of.
  change (parent (script_dir E) ++ ["bucket"; "firestorm-beta.json"])
    with (parent (script_dir E) ++ ["bucket"] ++ ["firestorm-beta.json"]).
  rewrite app_assoc. by intros [_ [=]]%app_inj_tail.
Qed.

Lemma manifest_path_nonroot E : manifest_path_of E ≠ [].
Proof. unfold manifest_path_of. by destruct (parent (script_dir E)). Qed.

Lemma snoc_nonroot (p : path) x : p ++ [x] ≠ [].
Proof. by destruct p. Qed.

(** ** Directory creation and cleanup *)

Lemma mkdir_exist_ok_cases p s :
  (node_at (fs s) p = Some Dir ∧ mkdir_exist_ok p s = (Ok tt, s))
  ∨ (node_at (fs s) p = None ∧ node_at (fs s) (parent p) = Some Dir
     ∧ mkdir_exist_ok p s
       = (Ok tt, {| fs := <[p := Dir]> (fs s); out := out s;
                    installer_path := installer_path s |}))
  ∨ (((∃ c, node_at (fs s) p = Some (File c))
      ∨ (node_at (fs s) p = None ∧ node_at (fs s) (parent p) ≠ Some Dir))
     ∧ ∃ e, mkdir_exist_ok p s = (Raise e, s) ∧ ∀ code, e ≠ SystemExit code).
Proof.
  unfold mkdir_exist_ok. unfold_monad.
  destruct (node_at (fs s) p) as [[|c]|] eqn:Hp.
  - by left.
  - right; right. split; [left; by eexists |]. by eexists.
  - destruct (node_at (fs s) (parent p)) as [[|c]|] eqn:Hd.
    + right; left. done.
    + right; right. split; [by right |]. by eexists.
    + right; right. split; [by right |]. by eexists.
Qed.

(** The loop of the cleanup on paths none of which is a directory: it
    ends without an exception; every listed path is gone and every other
    path is as before; every listed path that was there is reported, and
    nothing else is. *)
Lemma remove_each_spec (temp_files : list path) : ∀ s,
  Forall (λ p, node_at (fs s) p ≠ Some Dir) temp_files →
  ∃ f' evs,
    remove_each temp_files s
    = (Ok tt, {| fs := f'; out := out s ++ evs;
                 installer_path := installer_path s |})
    ∧ (∀ p, p ∈ temp_files → f' !! p = None)
    ∧ (∀ q, q ∉ temp_files → f' !! q = fs s !! q)
    ∧ (∀ p, p ∈ temp_files → is_Some (fs s !! p) →
         Print (MsgRemoved (name p)) ∈ evs)
    ∧ (∀ e, e ∈ evs →
         ∃ p, p ∈ temp_files ∧ is_Some (fs s !! p)
              ∧ e = Print (MsgRemoved (name p))).
Proof.
  induction temp_files as [|p rest IH]; intros s Hnodir.
  { exists (fs s), []. split_and!.
    - simpl. unfold ret. rewrite app_nil_r. by destruct s.
    - by intros p ?%elem_of_nil.
    - done.
    - by intros p ?%elem_of_nil.
    - by intros e ?%elem_of_nil. }
  apply Forall_cons in Hnodir as [Hp Hrest].
  assert (p ≠ []) as Hroot by (by intros ->).
  rewrite node_at_nonroot in Hp by done.
  cbn [remove_each]. unfold path_exists, unlink. unfold_monad.
  rewrite node_at_nonroot by done.
  destruct (fs s !! p) as [[|c]|] eqn:Hlook; [done | |]; unfold_monad.
  - (* the file is there: it is removed and reported *)
    rewrite node_at_nonroot, Hlook by done. unfold_monad.
    set (s1 := {| fs := delete p (fs s);
                  out := out s ++ [Print (MsgRemoved (name p))];
                  installer_path := installer_path s |}).
    destruct (IH s1) as (f' & evs & -> & Hgone & Hkept & Hsaid & Honly).
    { eapply Forall_impl; [exact Hrest |]. intros q Hq. cbn beta in *.
      destruct q as [|x q]; [done |]. cbn [node_at s1 fs] in *.
      destruct (decide (p = x :: q)) as [->|Hne].
      - by rewrite lookup_delete_eq.
      - by rewrite lookup_delete_ne. }
    exists f', (Print (MsgRemoved (name p)) :: evs). cbn [s1 fs out] in *.
    split_and!.
    + by rewrite <- app_assoc.
    + intros q [->|Hq]%elem_of_cons; [| by apply Hgone].
      destruct (decide (p ∈ rest)); [by apply Hgone |].
      rewrite Hkept by done. apply lookup_delete_eq.
    + intros q [Hq1 Hq2]%not_elem_of_cons.
      rewrite Hkept by done. by apply lookup_delete_ne.
    + intros q [->|Hq]%elem_of_cons Hthere; [apply list_elem_of_here |].
      destruct (decide (q = p)) as [->|Hne]; [apply list_elem_of_here |].
      apply list_elem_of_further, Hsaid; [done |].
      by rewrite lookup_delete_ne.
    + intros e [->|He]%elem_of_cons.
      * exists p. split_and!; [apply list_elem_of_here | by eexists | done].
      * destruct (Honly e He) as (q & Hq & Hthere & ->).
        exists q. split_and!; [by apply list_elem_of_further | | done].
        destruct (decide (p = q)) as [->|Hne]; [by eexists |].
        by rewrite lookup_delete_ne in Hthere.
  - (* the file is not there: nothing happens *)
    destruct (IH s Hrest) as (f' & evs & Heq & Hgone & Hkept & Hsaid & Honly).
    exists f', evs. split_and!.
    + replace {| fs := fs s; out := out s;
                 installer_path := installer_path s |} with s
        by by destruct s.
      exact Heq.
    + intros q [->|Hq]%elem_of_cons; [| by apply Hgone].
      destruct (decide (p ∈ rest)); [by apply Hgone |].
      by rewrite Hkept.
    + intros q [Hq1 Hq2]%not_elem_of_cons. by apply Hkept.
    + intros q [->|Hq]%elem_of_cons Hthere.
      * rewrite Hlook in Hthere. by destruct Hthere.
      * by apply Hsaid.
    + intros e He. destruct (Honly e He) as (q & Hq & Hthere & ->).
      exists q. split_and!; [by apply list_elem_of_further | done | done].
Qed.

(** ** The bootstrap *)

Lemma state_eta s :
  {| fs := fs s; out := out s; installer_path := installer_path s |} = s.
Proof. by destruct s. Qed.

(** Whatever the subprocesses answer, setting up the virtual environment
    prints bootstrap events only, changes the file system at most by the
    [venv] directory, and when it fails the exit status is 1. *)
Lemma setup_venv_spec E s :
  ∃ r f' evs,
    setup_venv E s
    = (r, {| fs := f'; out := out s ++ evs;
             installer_path := installer_path s |})
    ∧ (f' = fs s ∨ f' = <[script_dir E ++ ["venv"] := Dir]> (fs s))
    ∧ Forall bootstrap_event evs
    ∧ (∀ e, r = Raise e → exit_code (Raise e : result unit) = 1).
Proof.
  unfold setup_venv, path_exists. unfold_monad.
  destruct (node_at (fs s) (script_dir E ++ ["venv"])) as [n|];
    cbn [negb]; unfold_monad;
    [| destruct (venv_created (procs E));
       [| destruct (venv_left_behind (procs E))]; unfold_monad];
    try destruct (venv_import_requests (procs E)) as [[|]|]; unfold_monad;
    try destruct (pip_install_requests (procs E)) as [[|]|]; unfold_monad;
    rewrite <- ?app_assoc; cbn [app];
    do 3 eexists; (split; [reflexivity |]);
    (split_and!;
     [ by (left + right)
     | by repeat constructor
     | by intros e [= <-] ]).
Qed.

(** A run that has to bootstrap either ends in the bootstrap with status
    1, or hands over to the script run inside the virtual environment
    and exits with its status. *)
Lemma main_bootstrap E a s :
  requests_importable E = false →
  ∃ s_b evs,
    (fs s_b = fs s ∨ fs s_b = <[script_dir E ++ ["venv"] := Dir]> (fs s))
    ∧ out s_b = out s ++ evs
    ∧ Forall bootstrap_event evs
    ∧ installer_path s_b = installer_path s
    ∧ ((∃ e, main E a s = (Raise e, s_b)
             ∧ exit_code (Raise e : result unit) = 1)
       ∨ main E a s
         = (Raise (SystemExit (exit_code (fst (main_with_requests E a s_b)))),
            snd (main_with_requests E a s_b))).
Proof.
  intros Himp. unfold main, run_with_venv. rewrite Himp. unfold_monad.
  destruct (setup_venv_spec E
              {| fs := fs s; out := out s ++ [Print MsgRequestsNotFound];
                 installer_path := installer_path s |})
    as (r & f' & evs & -> & Hf & Hevs & Hr).
  cbn [fs out installer_path] in *. destruct r as [python|e]; unfold_monad;
    rewrite <- ?app_assoc; cbn [app].
  - exists {| fs := f';
              out := out s ++ Print MsgRequestsNotFound
                       :: evs ++ [Print MsgRerunning; Subprocess CmdRerunScript];
              installer_path := installer_path s |},
      (Print MsgRequestsNotFound
         :: evs ++ [Print MsgRerunning; Subprocess CmdRerunScript]).
    split_and!; [exact Hf | done | | done |].
    + apply Forall_cons. split; [done |].
      apply Forall_app. split; [exact Hevs | by repeat constructor].
    + right. by destruct (main_with_requests E a _).
  - exists {| fs := f'; out := out s ++ Print MsgRequestsNotFound :: evs;
              installer_path := installer_path s |},
      (Print MsgRequestsNotFound :: evs).
    split_and!; [exact Hf | done | | done |].
    + by apply Forall_cons.
    + left. exists e. split; [done | by apply Hr].
Qed.

(** ** The main program *)

(** The ways through [main] once [requests] is imported: the temp
    directory cannot be made; or it is there and the manifest is not; or
    both are there and the [try] statement runs. *)
Lemma main_with_requests_cases E a s :
  (((∃ c, node_at (fs s) (temp_dir_of E) = Some (File c))
    ∨ (node_at (fs s) (temp_dir_of E) = None
       ∧ node_at (fs s) (script_dir E) ≠ Some Dir))
   ∧ ∃ e, main_with_requests E a s = (Raise e, s)
        ∧ ∀ code, e ≠ SystemExit code)
  ∨ ∃ s1,
      (s1 = s
       ∨ (node_at (fs s) (temp_dir_of E) = None
          ∧ s1 = {| fs := <[temp_dir_of E := Dir]> (fs s); out := out s;
                    installer_path := installer_path s |}))
      ∧ node_at (fs s1) (temp_dir_of E) = Some Dir
      ∧ fs s1 !! manifest_path_of E = fs s !! manifest_path_of E
      ∧ ((fs s !! manifest_path_of E = None
          ∧ main_with_requests E a s
            = (Raise (SystemExit 1),
               say s1 [Print (MsgManifestNotFound (manifest_path_of E))]))
         ∨ (is_Some (fs s !! manifest_path_of E)
            ∧ main_with_requests E a s
              = try_finally (fetch_hash_update E a) (cleanup_unless_kept a) s1)).
Proof.
  unfold main_with_requests, path_exists. unfold_monad.
  pose proof (temp_dir_not_manifest E) as Hne.
  pose proof (manifest_path_nonroot E) as Hroot.
  assert (temp_dir_of E ≠ []) as Htemp by apply snoc_nonroot.
  destruct (mkdir_exist_ok_cases (temp_dir_of E) s)
    as [(Hd & ->)|[(Hn & Hpar & ->)|(Hnd & e & -> & He)]].
  - right. exists s. split_and!; [by left | done | done |].
    rewrite node_at_nonroot by done.
    destruct (fs s !! manifest_path_of E) as [n|]; cbn [negb]; unfold_monad.
    + right. split; [by eexists |]. done.
    + left. done.
  - right. eexists. split_and!; [right; split; [exact Hn | reflexivity] | | |].
    + cbn [fs]. rewrite node_at_nonroot by done. apply lookup_insert_eq.
    + cbn [fs]. by rewrite lookup_insert_ne.
    + cbn [fs]. rewrite node_at_nonroot by done.
      rewrite lookup_insert_ne by done.
      destruct (fs s !! manifest_path_of E) as [n|]; cbn [negb]; unfold_monad.
      * right. split; [by eexists |]. done.
      * left. done.
  - left. split; [| by exists e].
    unfold temp_dir_of, parent in Hnd. by rewrite removelast_last in Hnd.
Qed.

(** The [try] statement when the request fails: the [finally] block is
    entered with [installer_path] unassigned. *)
Lemma try_request_fails E a s :
  installer_path s = None →
  request_fails E (url_of (version a)) = true →
  ∃ m,
    download_error m = true
    ∧ try_finally (fetch_hash_update E a) (cleanup_unless_kept a) s
    = (Raise (SystemExit 1),
       say s ([Print (MsgDownloading (url_of (version a)));
               HttpGet (url_of (version a)); Print m]
              ++ if keep_temp a then [] else [Print MsgCleaning])).
Proof.
  intros Hnone Hreq. unfold fetch_hash_update.
  destruct (download_request_fails E (hyphenate (version a)) (temp_dir_of E)
              s Hreq) as (m & Herr & Hm).
  exists m. split; [done |]. unfold_monad. rewrite Hm. unfold_monad.
  unfold cleanup_unless_kept, cleanup_temp_files, say.
  destruct (keep_temp a); cbn [negb]; unfold_monad.
  - by rewrite app_nil_r.
  - rewrite Hnone. cbn [remove_each]. unfold_monad.
    by rewrite <- app_assoc.
Qed.

(** A run of [main] with [requests] imported in which the request would
    fail: status 1, the manifest as it was, the update never started. *)
Lemma main_with_requests_request_fails E a s :
  installer_path s = None →
  request_fails E (url_of (version a)) = true →
  ∃ e s' evs,
    main_with_requests E a s = (Raise e, s')
    ∧ exit_code (Raise e : result unit) = 1
    ∧ fs s' !! manifest_path_of E = fs s !! manifest_path_of E
    ∧ out s' = out s ++ evs
    ∧ Forall (λ ev, ev ≠ Print MsgUpdating) evs.
Proof.
  intros Hnone Hreq.
  destruct (main_with_requests_cases E a s)
    as [(_ & e & -> & He)|(s1 & Hs1 & _ & Hman & Hrun)].
  { exists e, s, []. split_and!; [done | | done | by rewrite app_nil_r | done].
    destruct e; try done. by destruct (He code). }
  assert (out s1 = out s ∧ installer_path s1 = installer_path s) as [Ho Hi].
  { destruct Hs1 as [->|[_ ->]]; done. }
  destruct Hrun as [[_ ->]|[_ ->]].
  - do 3 eexists. split_and!; [reflexivity | done | done | |].
    + cbn [say out]. by rewrite Ho.
    + by repeat constructor.
  - destruct (try_request_fails E a s1) as (m & Herr & ->);
      [congruence | done |].
    do 3 eexists. split_and!; [reflexivity | done | done | |].
    + cbn [say out]. by rewrite Ho.
    + assert (Print m ≠ Print MsgUpdating) by (by intros [= ->]).
      destruct (keep_temp a); cbn [app]; by repeat constructor.
Qed.

Lemma bootstrap_event_not_updating evs :
  Forall bootstrap_event evs → Forall (λ ev, ev ≠ Print MsgUpdating) evs.
Proof.
  intros H. eapply Forall_impl; [exact H |]. by intros ev Hev ->.
Qed.

(** The same for every run of the script. *)
Lemma run_request_fails E a files :
  request_fails E (url_of (version a)) = true →
  fst (run E a files) = 1
  ∧ fs (snd (run E a files)) !! manifest_path_of E
    = files !! manifest_path_of E
  ∧ Print MsgUpdating ∉ out (snd (run E a files)).
Proof.
  intros Hreq. unfold run.
  assert (∀ evs, Forall (λ ev, ev ≠ Print MsgUpdating) evs →
                 Print MsgUpdating ∉ evs) as Hnot.
  { intros evs Hevs Hin. by eapply Forall_forall in Hevs. }
  destruct (requests_importable E) eqn:Himp.
  - unfold main. rewrite Himp.
    destruct (main_with_requests_request_fails E a (start files))
      as (e & s' & evs & -> & Hcode & Hman & Hout & Hevs); [done.. |].
    cbn [fst snd]. split_and!; [done | done |].
    rewrite Hout. cbn [start out app]. by apply Hnot.
  - destruct (main_bootstrap E a (start files) Himp)
      as (s_b & evs & Hfs & Hout & Hevs & Hi & Hmain).
    assert (fs s_b !! manifest_path_of E = files !! manifest_path_of E)
      as Hman.
    { destruct Hfs as [->| ->]; [done |].
      rewrite lookup_insert_ne; [done | apply venv_not_manifest]. }
    destruct Hmain as [(e & -> & Hcode)| ->].
    + cbn [fst snd]. split_and!; [done | done |].
      rewrite Hout. cbn [start out app].
      by apply Hnot, bootstrap_event_not_updating.
    + destruct (main_with_requests_request_fails E a s_b)
        as (e & s' & evs' & -> & Hcode & Hman' & Hout' & Hevs');
        [by rewrite Hi | done |].
      cbn [fst snd exit_code]. split_and!; [done | congruence |].
      rewrite Hout', Hout. cbn [start out app]. apply Hnot.
      apply Forall_app. split; [by apply bootstrap_event_not_updating | done].
Qed.

(** ** Failed downloads *)

(** C4. When the server answers the request for the constructed URL with
    status 404, the run ends with a non-zero exit status, the manifest
    file is what it was, and the update step is never started. *)
Theorem not_found_leaves_manifest E a files chunks broken :
  http E (url_of (version a)) = Response 404 chunks broken →
  fst (run E a files) ≠ 0
  ∧ fs (snd (run E a files)) !! manifest_path_of E
    = files !! manifest_path_of E
  ∧ Print MsgUpdating ∉ out (snd (run E a files)).
Proof.
  intros H.
  destruct (run_request_fails E a files) as (Hcode & Hman & Hout).
  { unfold request_fails. by rewrite H. }
  split_and!; [by rewrite Hcode | done | done].
Qed.

Lemma not_found_leaves_manifest_witness :
  http (sample_env (Response 404 [] None)) (url_of (version sample_args))
  = Response 404 [] None
  ∧ fst (run (sample_env (Response 404 [] None)) sample_args sample_files) ≠ 0
  ∧ fs (snd (run (sample_env (Response 404 [] None)) sample_args
               sample_files)) !! sample_manifest_path
    = Some (File (JsonText sample_doc)).
Proof.
  destruct (not_found_leaves_manifest (sample_env (Response 404 [] None))
              sample_args sample_files [] None eq_refl) as (Hcode & Hman & _).
  split_and!; [reflexivity | exact Hcode |].
  etransitivity; [exact Hman | reflexivity].
Defined.

(** C5, as the code has it.  The download step sorts a failed request
    into three classes, each with its own message: status 404, any other
    status from 400 to 599, and a transport failure of the request.  In
    each the step exits with status 1 after a single request, and so does
    every run whose request fails.  On any other answer the step does not
    exit, has sent the one request and prints none of the three
    messages; this holds also when the transport fails while the body is
    read, outside the [try] of lines 57-70: then the step ends with the
    exception, which nothing catches. *)
Theorem download_failure_classes E hyphen_version dest s :
  let url := Str.format URL_TEMPLATE hyphen_version in
  let after := download_installer E hyphen_version dest s in
  let exits_saying m :=
    after = (Raise (SystemExit 1),
             say s [Print (MsgDownloading url); HttpGet url; Print m]) in
  match http E url with
  | Response status _ broken =>
      if is_http_error status then
        if status =? 404 then exits_saying (MsgVersionNotFound url)
        else exits_saying (MsgHttpError status url)
      else
        (∀ code, fst after ≠ Raise (SystemExit code))
        ∧ out (snd after)
          = out s ++ [Print (MsgDownloading url); HttpGet url]
        ∧ (∀ detail, broken = Some detail → ∃ e, fst after = Raise e)
  | TransportError detail => exits_saying (MsgNetworkError detail)
  end
  ∧ (∀ a files,
        hyphenate (version a) = hyphen_version →
        request_fails E url = true → fst (run E a files) = 1).
Proof.
  intros url after exits_saying. split.
  - destruct (http E url) as [status chunks broken|detail] eqn:H.
    + destruct (is_http_error status) eqn:Herr.
      * destruct (Z.eqb_spec status 404) as [->|Hne].
        -- by eapply download_not_found.
        -- by eapply download_http_error.
      * destruct (download_installer_cases E hyphen_version dest s)
          as [[Hreq _]|[(_ & e & Hafter & He)
                       |(st & ch & br & Hst & _ & Hafter)]].
        -- unfold request_fails in Hreq. fold url in Hreq.
           rewrite H in Hreq. congruence.
        -- subst after. rewrite Hafter. cbn [fst snd say out].
           split_and!; [| done | by eexists].
           intros code [= ->]. by destruct (He code).
        -- subst after. rewrite Hafter. cbn [fst snd out].
           fold url in Hst. rewrite H in Hst. injection Hst as <- <- <-.
           split_and!; [by destruct broken | done |].
           intros detail ->. by eexists.
    + by eapply download_transport_error.
  - intros a files <- Hreq. by apply run_request_fails.
Qed.

Lemma download_failure_classes_witness :
  download_installer (sample_env (TransportError "timed out")) "7-2-0-2"
    ["repo"; "helpers"; "temp"] (start sample_files)
  = (Raise (SystemExit 1),
     say (start sample_files)
       [Print (MsgDownloading (url_of "7.2.0.2")); HttpGet (url_of "7.2.0.2");
        Print (MsgNetworkError "timed out")])
  ∧ fst (run (sample_env (Response 503 [] None)) sample_args sample_files) = 1.
Proof.
  split.
  - exact (proj1 (download_failure_classes
                    (sample_env (TransportError "timed out")) "7-2-0-2"
                    ["repo"; "helpers"; "temp"] (start sample_files))).
  - apply (proj2 (download_failure_classes
                    (sample_env (Response 503 [] None)) "7-2-0-2"
                    ["repo"; "helpers"; "temp"] (start sample_files))
             sample_args sample_files); reflexivity.
Defined.

(** C5, as the claim has it, fails: a transport failure is not always
    answered with the network-error message.  When the server answers
    with status 200 and the connection times out while the body is read,
    the step ends with the exception of the stream and the run with
    status 1, and none of the three messages is printed. *)
Lemma download_failure_classes_counterexample :
  let E := sample_env (Response 200 [sample_installer] (Some "timed out")) in
  let after :=
    download_installer E "7-2-0-2" ["repo"; "helpers"; "temp"]
      (start sample_files_ready) in
  http E (Str.format URL_TEMPLATE "7-2-0-2")
  = Response 200 [sample_installer] (Some "timed out")
  ∧ fst after = Raise (StreamError "timed out")
  ∧ (∀ m, download_error m = true → Print m ∉ out (snd after))
  ∧ fst (run E sample_args sample_files) = 1
  ∧ (∀ m, download_error m = true →
          Print m ∉ out (snd (run E sample_args sample_files))).
Proof.
  cbv zeta. split_and!; [reflexivity | vm_compute; reflexivity | |
                         vm_compute; reflexivity |].
  - intros m Hm Hin. vm_compute in Hin.
    repeat (apply elem_of_cons in Hin as [Heq|Hin];
            [by (try discriminate; injection Heq as ->) |]).
    by apply elem_of_nil in Hin.
  - intros m Hm Hin. vm_compute in Hin.
    repeat (apply elem_of_cons in Hin as [Heq|Hin];
            [by (try discriminate; injection Heq as ->) |]).
    by apply elem_of_nil in Hin.
Qed.

(** C10. A download step whose request fails, by the transport or by the
    status check, exits and leaves the whole file system as it was: no
    file is created, not even an empty one.  Conversely the file system
    differs after the step only if the status check has passed. *)
Theorem failed_request_creates_no_file E hyphen_version dest s :
  let url := Str.format URL_TEMPLATE hyphen_version in
  let after := download_installer E hyphen_version dest s in
  (request_fails E url = true →
   fst after = Raise (SystemExit 1) ∧ fs (snd after) = fs s)
  ∧ (fs (snd after) ≠ fs s →
     ∃ status chunks broken,
       http E url = Response status chunks broken
       ∧ is_http_error status = false).
Proof.
  intros url after.
  destruct (download_installer_cases E hyphen_version dest s)
    as [(Hreq & m & _ & Hafter)|[(Hreq & e & Hafter & _)
                                |(st & ch & br & H & Herr & Hafter)]];
    subst after url; rewrite Hafter; cbn [fst snd say fs]; split.
  - done.
  - by intros [].
  - intros Hreq'. congruence.
  - by intros [].
  - intros Hreq. unfold request_fails in Hreq. rewrite H in Hreq. congruence.
  - intros _. by exists st, ch, br.
Qed.

Lemma failed_request_creates_no_file_witness :
  request_fails (sample_env (Response 404 [] None))
    (Str.format URL_TEMPLATE "7-2-0-2") = true
  ∧ fs (snd (download_installer (sample_env (Response 404 [] None)) "7-2-0-2"
               ["repo"; "helpers"; "temp"] (start sample_files)))
    = sample_files.
Proof.
  split; [reflexivity |].
  apply (proj1 (failed_request_creates_no_file
                  (sample_env (Response 404 [] None)) "7-2-0-2"
                  ["repo"; "helpers"; "temp"] (start sample_files))).
  reflexivity.
Defined.

(** ** Every outcome of the update and of the [try] body *)

Lemma set_fields_inv m dv hv ck :
  (∃ d a b, m = JDict d
     ∧ Dict.get "architecture" d = Some (JDict a)
     ∧ Dict.get "64bit" a = Some (JDict b))
  ∨ ∃ e, set_fields m dv hv ck = Raise e ∧ ∀ code, e ≠ SystemExit code.
Proof.
  unfold set_fields, setitem3.
  destruct m as [| | | | | |d]; try (right; by eexists).
  cbn [setitem getitem and_then]. rewrite get_set_ne by done.
  destruct (Dict.get "architecture" d) as [[| | | | | |a]|] eqn:Ha;
    try (right; by eexists).
  cbn [setitem getitem and_then].
  destruct (Dict.get "64bit" a) as [[| | | | | |b]|] eqn:Hb;
    try (right; by eexists).
  left. by exists d, a, b.
Qed.

(** Every outcome of the update: it returns; or it raises before the
    file is opened for writing, and nothing is written; or the dump
    raises, and the file holds what was written until then. *)
Lemma update_manifest_cases manifest_path dv hv ck s :
  (∃ d a b,
     node_at (fs s) manifest_path = Some (File (JsonText (JDict d)))
     ∧ Dict.get "architecture" d = Some (JDict a)
     ∧ Dict.get "64bit" a = Some (JDict b)
     ∧ dumpable (updated dv hv ck d a b) = true
     ∧ update_manifest manifest_path dv hv ck s
       = (Ok tt,
          {| fs := <[manifest_path
                     := File (JsonText (updated dv hv ck d a b))]> (fs s);
             out := out s ++ [Print MsgUpdating];
             installer_path := installer_path s |}))
  ∨ (∃ e, update_manifest manifest_path dv hv ck s
          = (Raise e, say s [Print MsgUpdating])
        ∧ ∀ code, e ≠ SystemExit code)
  ∨ (∃ doc,
       dumpable doc = false
       ∧ update_manifest manifest_path dv hv ck s
         = (Raise UnicodeEncodeError,
            {| fs := <[manifest_path := File (Bytes (written_bytes doc))]>
                       (fs s);
               out := out s ++ [Print MsgUpdating];
               installer_path := installer_path s |})).
Proof.
  destruct (node_at (fs s) manifest_path) as [[|[data|doc]]|] eqn:Hp.
  1, 2, 4: right; left; unfold update_manifest, open_read, json_load;
    unfold_monad; rewrite Hp; unfold_monad;
    try destruct (Utf8.valid data); unfold_monad; by eexists.
  destruct (set_fields_inv doc dv hv ck)
    as [(d & a & b & -> & Ha & Hb)|(e & He & Hne)].
  - destruct (dumpable (updated dv hv ck d a b)) eqn:Hdump.
    + left. exists d, a, b. split_and!; [done.. |].
      by apply update_manifest_returns.
    + right; right. exists (updated dv hv ck d a b). split; [done |].
      by apply update_manifest_dump_fails.
  - right; left. exists e. split; [| done].
    unfold update_manifest, open_read, json_load. unfold_monad.
    rewrite Hp. unfold_monad. by rewrite He.
Qed.

(** The body of the [try]: the download step fails before it opens the
    file; or the stream breaks, and the partial file is left untracked;
    or the update raises after the download, with the manifest as it was
    or with what a failed dump left of it; or everything succeeds. *)
Lemma fetch_hash_update_cases E a s :
  let url := url_of (version a) in
  let installer := installer_path_of E (version a) in
  let body := fetch_hash_update E a s in
  (∃ e evs, body = (Raise e, say s evs)
            ∧ exit_code (Raise e : result unit) = 1)
  ∨ (∃ status chunks detail,
       body = (Raise (StreamError detail),
               {| fs := <[installer := File (Bytes (concat chunks))]> (fs s);
                  out := out s ++ [Print (MsgDownloading url); HttpGet url];
                  installer_path := installer_path s |})
       ∧ http E url = Response status chunks (Some detail))
  ∨ (∃ status chunks e f',
       body = (Raise e,
               {| fs := f';
                  out := out s ++ [Print (MsgDownloading url); HttpGet url;
                                   Print MsgCalculating; Print MsgUpdating];
                  installer_path := Some installer |})
       ∧ exit_code (Raise e : result unit) = 1
       ∧ http E url = Response status chunks None
       ∧ (f' = <[installer := File (Bytes (concat chunks))]> (fs s)
          ∨ ∃ doc,
              dumpable doc = false
              ∧ f' = <[manifest_path_of E := File (Bytes (written_bytes doc))]>
                       (<[installer := File (Bytes (concat chunks))]> (fs s))))
  ∨ (∃ status chunks d a' b,
       let checksum :=
         Str.upper (SHA256.hex (SHA256.sha256 (concat chunks))) in
       body
       = (Ok tt,
          {| fs := <[manifest_path_of E
                     := File (JsonText
                          (updated (version a) (hyphenate (version a))
                             checksum d a' b))]>
                     (<[installer := File (Bytes (concat chunks))]> (fs s));
             out := out s ++ [Print (MsgDownloading url); HttpGet url;
                              Print MsgCalculating; Print MsgUpdating;
                              Print (MsgDone (version a));
                              Print (MsgSha256 checksum);
                              Print (MsgNextSteps (version a))];
             installer_path := Some installer |})
       ∧ http E url = Response status chunks None
       ∧ is_http_error status = false
       ∧ fs s !! manifest_path_of E = Some (File (JsonText (JDict d)))
       ∧ Dict.get "architecture" d = Some (JDict a')
       ∧ Dict.get "64bit" a' = Some (JDict b)).
Proof.
  intros url installer body. subst url installer body.
  unfold installer_path_of, url_of, fetch_hash_update.
  pose proof (installer_not_manifest E
                (Str.basename (Str.format URL_TEMPLATE (hyphenate (version a)))))
    as Hne.
  pose proof (manifest_path_nonroot E) as Hroot.
  destruct (download_installer_cases E (hyphenate (version a)) (temp_dir_of E) s)
    as [(_ & m & _ & Hd)|[(_ & e & Hd & He)|(st & ch & br & H & Herr & Hd)]];
    unfold_monad; rewrite Hd; unfold_monad.
  { left. by do 2 eexists. }
  { left. do 2 eexists. split; [done |].
    destruct e; try done. by destruct (He code). }
  right. destruct br as [detail|]; unfold_monad.
  { left. by exists st, ch, detail. }
  right.
  rewrite (calculate_sha256_returns _ _ (Bytes (concat ch)));
    [| cbn [fs]; rewrite node_at_nonroot by apply snoc_nonroot;
       apply lookup_insert_eq].
  unfold_monad. cbn [bytes_of]. rewrite <- app_assoc. cbn [app].
  match goal with
  | |- context [update_manifest ?p ?dv ?hv ?ck ?s0] =>
      destruct (update_manifest_cases p dv hv ck s0)
        as [(d & a' & b & Hp & Ha & Hb & _ & ->)
           |[(e & -> & He)|(doc & Hdoc & ->)]]
  end; unfold_monad.
  - right. exists st, ch, d, a', b. cbv zeta.
    rewrite <- !app_assoc. cbn [app]. split_and!; [done.. | | done | done].
    cbn [fs] in Hp. rewrite node_at_nonroot in Hp by done.
    by rewrite lookup_insert_ne in Hp.
  - left. exists st, ch, e. unfold say. cbn [fs out installer_path].
    rewrite <- !app_assoc. cbn [app].
    eexists. split_and!; [reflexivity | | done | by left].
    destruct e; try done. by destruct (He code).
  - left. exists st, ch, UnicodeEncodeError.
    cbn [fs out installer_path]. rewrite <- !app_assoc. cbn [app].
    eexists. split_and!; [reflexivity | done | done |]. right. by exists doc.
Qed.

(** ** Cleanup *)

(** The cleanup step on paths none of which is a directory. *)
Lemma cleanup_temp_files_spec (temp_files : list path) s :
  Forall (λ p, node_at (fs s) p ≠ Some Dir) temp_files →
  ∃ f' evs,
    cleanup_temp_files temp_files s
    = (Ok tt, {| fs := f'; out := out s ++ Print MsgCleaning :: evs;
                 installer_path := installer_path s |})
    ∧ (∀ p, p ∈ temp_files → f' !! p = None)
    ∧ (∀ q, q ∉ temp_files → f' !! q = fs s !! q)
    ∧ (∀ p, p ∈ temp_files → is_Some (fs s !! p) →
         Print (MsgRemoved (name p)) ∈ evs)
    ∧ (∀ e, e ∈ evs →
         ∃ p, p ∈ temp_files ∧ is_Some (fs s !! p)
              ∧ e = Print (MsgRemoved (name p))).
Proof.
  intros Hnodir. unfold cleanup_temp_files. unfold_monad.
  destruct (remove_each_spec temp_files
              {| fs := fs s; out := out s ++ [Print MsgCleaning];
                 installer_path := installer_path s |} Hnodir)
    as (f' & evs & -> & Hgone & Hkept & Hsaid & Honly).
  exists f', evs. cbn [fs out installer_path] in *.
  rewrite <- app_assoc. by split_and!.
Qed.

(** What the [try] body leaves in [installer_path] is a regular file. *)
Lemma tracked_is_a_file E a s p :
  installer_path s = None →
  installer_path (snd (fetch_hash_update E a s)) = Some p →
  p = installer_path_of E (version a)
  ∧ ∃ c, fs (snd (fetch_hash_update E a s)) !! p = Some (File c).
Proof.
  intros Hnone.
  destruct (fetch_hash_update_cases E a s)
    as [(e & evs & -> & _)|[(st & ch & detail & -> & _)
       |[(st & ch & e & f' & -> & _ & _ & Hf')
        |(st & ch & d & a' & b & Hbody)]]];
    cbv zeta in *; cbn [snd say installer_path fs].
  - congruence.
  - congruence.
  - intros [= <-]. split; [done |].
    destruct Hf' as [->|(doc & _ & ->)]; eexists.
    + apply lookup_insert_eq.
    + rewrite lookup_insert_ne by (symmetry; apply installer_not_manifest).
      apply lookup_insert_eq.
  - destruct Hbody as (-> & _). cbn [snd installer_path fs].
    intros [= <-]. split; [done |]. eexists.
    rewrite lookup_insert_ne by (symmetry; apply installer_not_manifest).
    apply lookup_insert_eq.
Qed.

(** The [try] statement without the keep-temp flag. *)
Lemma try_then_cleanup E a s :
  keep_temp a = false →
  installer_path s = None →
  let body := fetch_hash_update E a s in
  let tracked :=
    match installer_path (snd body) with Some p => [p] | None => [] end in
  let cleaned := cleanup_temp_files tracked (snd body) in
  try_finally (fetch_hash_update E a) (cleanup_unless_kept a) s
  = (fst body, snd cleaned)
  ∧ fst cleaned = Ok tt
  ∧ (∀ p, p ∈ tracked → fs (snd cleaned) !! p = None)
  ∧ (∀ q, q ∉ tracked → fs (snd cleaned) !! q = fs (snd body) !! q)
  ∧ ∃ evs,
      out (snd cleaned) = out (snd body) ++ Print MsgCleaning :: evs
      ∧ (∀ p, p ∈ tracked → is_Some (fs (snd body) !! p) →
           Print (MsgRemoved (name p)) ∈ evs)
      ∧ (∀ e, e ∈ evs →
           ∃ p, p ∈ tracked ∧ is_Some (fs (snd body) !! p)
                ∧ e = Print (MsgRemoved (name p))).
Proof.
  intros Hkeep Hnone body tracked cleaned. subst cleaned tracked body.
  set (body := fetch_hash_update E a s).
  set (tracked :=
         match installer_path (snd body) with Some p => [p] | None => [] end).
  assert (Forall (λ p, node_at (fs (snd body)) p ≠ Some Dir) tracked)
    as Hnodir.
  { subst tracked. destruct (installer_path (snd body)) as [p|] eqn:Hp;
      [| by constructor].
    destruct (tracked_is_a_file E a s p Hnone Hp) as (-> & c & Hc).
    repeat constructor. fold body in Hc.
    rewrite node_at_nonroot by apply snoc_nonroot. by rewrite Hc. }
  destruct (cleanup_temp_files_spec tracked (snd body) Hnodir)
    as (f' & evs & Hclean & Hgone & Hkept & Hsaid & Honly).
  rewrite Hclean. cbn [fst snd fs out].
  split_and!; [| done | done | done | by exists evs].
  unfold try_finally, cleanup_unless_kept. rewrite Hkeep. cbn [negb].
  fold body. subst tracked. destruct body as [r s1]. unfold_monad.
  cbn [snd] in Hclean. by rewrite Hclean.
Qed.

(** The [try] statement with the keep-temp flag: the body alone. *)
Lemma try_then_keep E a s :
  keep_temp a = true →
  try_finally (fetch_hash_update E a) (cleanup_unless_kept a) s
  = fetch_hash_update E a s.
Proof.
  intros Hkeep. unfold try_finally, cleanup_unless_kept. rewrite Hkeep.
  cbn [negb]. unfold_monad. by destruct (fetch_hash_update E a s).
Qed.

(** C6. Without the keep-temp flag the cleanup runs when the
    fetch/hash/update sequence ends, however it ends: the [try] statement
    ends as the sequence did, in the state the cleanup leaves.  The
    cleanup is given the installer path when it was assigned and the
    empty list otherwise; it does not raise, every listed path is gone
    afterwards, every other path is untouched, and after its opening
    message it reports exactly the listed paths that were there. *)
Theorem cleanup_runs_on_every_path E a s :
  keep_temp a = false →
  installer_path s = None →
  let body := fetch_hash_update E a s in
  let tracked :=
    match installer_path (snd body) with Some p => [p] | None => [] end in
  let cleaned := cleanup_temp_files tracked (snd body) in
  try_finally (fetch_hash_update E a) (cleanup_unless_kept a) s
  = (fst body, snd cleaned)
  ∧ fst cleaned = Ok tt
  ∧ (∀ p, p ∈ tracked → fs (snd cleaned) !! p = None)
  ∧ (∀ q, q ∉ tracked → fs (snd cleaned) !! q = fs (snd body) !! q)
  ∧ ∃ evs,
      out (snd cleaned) = out (snd body) ++ Print MsgCleaning :: evs
      ∧ (∀ p, p ∈ tracked → is_Some (fs (snd body) !! p) →
           Print (MsgRemoved (name p)) ∈ evs)
      ∧ (∀ e, e ∈ evs →
           ∃ p, p ∈ tracked ∧ is_Some (fs (snd body) !! p)
                ∧ e = Print (MsgRemoved (name p))).
Proof. exact (try_then_cleanup E a s). Qed.

Lemma cleanup_runs_on_every_path_witness :
  keep_temp sample_args = false
  ∧ installer_path (start sample_files_ready) = None
  ∧ let body :=
      fetch_hash_update sample_server sample_args (start sample_files_ready) in
    let tracked :=
      match installer_path (snd body) with Some p => [p] | None => [] end in
    let cleaned := cleanup_temp_files tracked (snd body) in
    try_finally (fetch_hash_update sample_server sample_args)
      (cleanup_unless_kept sample_args) (start sample_files_ready)
    = (fst body, snd cleaned)
    ∧ fst cleaned = Ok tt.
Proof.
  destruct (cleanup_runs_on_every_path sample_server sample_args
              (start sample_files_ready) eq_refl eq_refl) as (Htry & Hok & _).
  split; [reflexivity |]. split; [reflexivity |]. cbv zeta.
  split; [exact Htry | exact Hok].
Defined.

(** The end-to-end scenario: the run succeeds, the installer is removed
    and its removal is the last thing reported. *)
Example sample_run_cleans_up :
  let after := run sample_server sample_args sample_files in
  fst after = 0
  ∧ fs (snd after) !! sample_installer_path = None
  ∧ last (out (snd after))
    = Some (Print (MsgRemoved "Phoenix-Firestorm-Betax64_AVX2-7-2-0-2_Setup.exe")).
Proof. vm_compute. done. Qed.

(** ** A missing manifest *)

(** C7, as the code has it.  In a run that needs no bootstrap, with a
    temp directory that is there or can be made, a missing manifest ends
    the run with status 1; the diagnostic is all the run prints, so no
    request is sent, and the file system differs at most by the new temp
    directory, so no file is downloaded or written. *)
Theorem missing_manifest_reported E a files :
  requests_importable E = true →
  files !! manifest_path_of E = None →
  node_at files (temp_dir_of E) = Some Dir
  ∨ (node_at files (temp_dir_of E) = None
     ∧ node_at files (script_dir E) = Some Dir) →
  let after := run E a files in
  fst after = 1
  ∧ out (snd after) = [Print (MsgManifestNotFound (manifest_path_of E))]
  ∧ (fs (snd after) = files
     ∨ fs (snd after) = <[temp_dir_of E := Dir]> files).
Proof.
  intros Himp Hmissing Hmk after. subst after. unfold run, main.
  rewrite Himp.
  destruct (main_with_requests_cases E a (start files))
    as [(Hbad & _)|(s1 & Hs1 & _ & _ & [[_ ->]|[Hthere _]])];
    cbn [start fs] in *.
  - destruct Hbad as [[c Hc]|[Hn Hd]], Hmk as [Hmk|[Hmk Hmk']]; congruence.
  - cbn [fst snd exit_code say out].
    destruct Hs1 as [->|[_ ->]]; cbn [start fs out app]; auto.
  - rewrite Hmissing in Hthere. by destruct Hthere.
Qed.

Lemma missing_manifest_reported_witness :
  requests_importable sample_server = true
  ∧ sample_files_bare !! manifest_path_of sample_server = None
  ∧ node_at sample_files_bare (temp_dir_of sample_server) = None
  ∧ node_at sample_files_bare (script_dir sample_server) = Some Dir
  ∧ fst (run sample_server sample_args sample_files_bare) = 1
  ∧ out (snd (run sample_server sample_args sample_files_bare))
    = [Print (MsgManifestNotFound sample_manifest_path)].
Proof.
  destruct (missing_manifest_reported sample_server sample_args
              sample_files_bare eq_refl eq_refl
              (or_intror (conj eq_refl eq_refl))) as (Hcode & Hout & _).
  split_and!; [reflexivity.. | exact Hcode | exact Hout].
Defined.

(** C7, as the claim has it, fails: where a regular file sits at the
    place of the temp directory, [mkdir] raises before the manifest is
    looked for; the run ends with status 1 and prints nothing. *)
Lemma missing_manifest_counterexample :
  sample_files_blocked !! manifest_path_of sample_server = None
  ∧ run sample_server sample_args sample_files_blocked
    = (1, start sample_files_blocked)
  ∧ Print (MsgManifestNotFound (manifest_path_of sample_server))
    ∉ out (snd (run sample_server sample_args sample_files_blocked)).
Proof.
  split_and!; [reflexivity | reflexivity |].
  intros H. by apply elem_of_nil in H.
Qed.

(** ** Successful runs *)

(** A run of [main] with [requests] imported that ends with status 0 went
    through every step: the one request got a good status and an
    unbroken body, and the manifest holds the updated document. *)
Lemma main_with_requests_success E a s :
  installer_path s = None →
  exit_code (fst (main_with_requests E a s)) = 0 →
  let url := url_of (version a) in
  let after := snd (main_with_requests E a s) in
  ∃ status chunks d a' b evs,
    http E url = Response status chunks None
    ∧ is_http_error status = false
    ∧ fs s !! manifest_path_of E = Some (File (JsonText (JDict d)))
    ∧ Dict.get "architecture" d = Some (JDict a')
    ∧ Dict.get "64bit" a' = Some (JDict b)
    ∧ fs after !! manifest_path_of E
      = Some (File (JsonText
          (updated (version a) (hyphenate (version a))
             (Str.upper (SHA256.hex (SHA256.sha256 (concat chunks))))
             d a' b)))
    ∧ out after = out s ++ Print (MsgDownloading url) :: HttpGet url :: evs
    ∧ Forall (λ ev, ∀ u, ev ≠ HttpGet u) evs.
Proof.
  intros Hnone Hcode url after. subst url after.
  destruct (main_with_requests_cases E a s)
    as [(_ & e & Hmain & He)|(s1 & Hs1 & _ & Hman & [[_ Hmain]|[_ Hmain]])];
    rewrite Hmain in Hcode |- *; cbn [fst snd exit_code] in Hcode.
  { destruct e; try done. by destruct (He code). }
  { done. }
  assert (out s1 = out s ∧ installer_path s1 = None) as [Ho Hi].
  { destruct Hs1 as [->|[_ ->]]; done. }
  pose proof (installer_not_manifest E (Str.basename (url_of (version a))))
    as Hne.
  fold (installer_path_of E (version a)) in Hne.
  (* the outcome of the [try] statement is that of its body *)
  assert (fst (try_finally (fetch_hash_update E a) (cleanup_unless_kept a) s1)
          = fst (fetch_hash_update E a s1)) as Hfst.
  { destruct (keep_temp a) eqn:Hkeep.
    - by rewrite try_then_keep.
    - by destruct (try_then_cleanup E a s1 Hkeep Hi) as (-> & _). }
  rewrite Hfst in Hcode.
  destruct (fetch_hash_update_cases E a s1)
    as [(e & evs & Hbody & He)|[(st & ch & detail & Hbody & _)
       |[(st & ch & e & f' & Hbody & He & _)
        |(st & ch & d & a' & b & Hbody & H & Herr & Hdoc & Ha & Hb)]]];
    cbv zeta in Hbody; rewrite Hbody in Hcode; cbn [fst] in Hcode;
    try by (rewrite He in Hcode).
  { done. }
  exists st, ch, d, a', b.
  destruct (keep_temp a) eqn:Hkeep.
  - rewrite try_then_keep, Hbody by done. cbn [snd fs out].
    eexists. split_and!; [done | done | congruence | done | done | | |].
    + apply lookup_insert_eq.
    + rewrite Ho. reflexivity.
    + repeat constructor; by intros u.
  - destruct (try_then_cleanup E a s1 Hkeep Hi)
      as (-> & _ & _ & Hkept & evs & Hout & _ & Honly).
    rewrite Hbody in Hkept, Hout, Honly |- *.
    cbn [fst snd fs out installer_path] in *.
    eexists. split_and!; [done | done | congruence | done | done | | |].
    + rewrite Hkept by (intros Heq%list_elem_of_singleton; congruence).
      apply lookup_insert_eq.
    + rewrite Hout, Ho, <- app_assoc. reflexivity.
    + repeat (apply Forall_cons; split; [by intros u |]).
      apply Forall_forall. intros ev Hev u ->.
      by destruct (Honly _ Hev) as (p & _ & _ & [=]).
Qed.

Lemma bootstrap_event_not_request evs :
  Forall bootstrap_event evs → Forall (λ ev, ∀ u, ev ≠ HttpGet u) evs.
Proof.
  intros H. eapply Forall_impl; [exact H |]. by intros ev Hev u ->.
Qed.

(** C9. In every run that ends with status 0, one request was sent, to
    the URL built from the template and the hyphenated version; the
    [architecture.64bit.url] field of the manifest holds that same URL,
    and the [hash] field the checksum of the body that request got. *)
Theorem manifest_url_is_download_url E a files :
  fst (run E a files) = 0 →
  let url := Str.format URL_TEMPLATE (hyphenate (version a)) in
  let after := snd (run E a files) in
  ∃ status chunks m',
    http E url = Response status chunks None
    ∧ is_http_error status = false
    ∧ HttpGet url ∈ out after
    ∧ (∀ u, HttpGet u ∈ out after → u = url)
    ∧ fs after !! manifest_path_of E = Some (File (JsonText m'))
    ∧ json_at ["architecture"; "64bit"; "url"] m' = Some (JStr url)
    ∧ json_at ["architecture"; "64bit"; "hash"] m'
      = Some (JStr ("sha256:"
                    +:+ Str.upper (SHA256.hex (SHA256.sha256 (concat chunks))))).
Proof.
  intros Hcode url after. subst url after. unfold run in *.
  assert (∃ s0,
            installer_path s0 = None
            ∧ Forall (λ ev, ∀ u, ev ≠ HttpGet u) (out s0)
            ∧ exit_code (fst (main_with_requests E a s0)) = 0
            ∧ snd (main E a (start files)) = snd (main_with_requests E a s0))
    as (s0 & Hnone & Hquiet & Hcode0 & Hsnd).
  { destruct (requests_importable E) eqn:Himp.
    - exists (start files). unfold main in *. rewrite Himp in *.
      split_and!; [done | by constructor | | done].
      by destruct (main_with_requests E a (start files)).
    - destruct (main_bootstrap E a (start files) Himp)
        as (s_b & evs & _ & Hout & Hevs & Hi & [(e & Hmain & He)|Hmain]);
        rewrite Hmain in Hcode |- *; cbn [fst snd] in Hcode.
      + rewrite He in Hcode. done.
      + cbn [exit_code] in Hcode.
        exists s_b. split_and!; [done | | done | done].
        rewrite Hout. cbn [start out app].
        by apply bootstrap_event_not_request. }
  destruct (main E a (start files)) as [r s']. cbn [fst snd] in *. subst s'.
  destruct (main_with_requests_success E a s0 Hnone Hcode0)
    as (st & ch & d & a' & b & evs & H & Herr & _ & Ha & Hb & Hman & Hout
        & Hevs).
  unfold url_of in *.
  exists st, ch. eexists. split_and!; [done | done | | | exact Hman | |].
  - rewrite Hout. apply elem_of_app. right.
    apply list_elem_of_further, list_elem_of_here.
  - intros u. rewrite Hout.
    intros [Hin|[[=]|[[= ->]|Hin]%elem_of_cons]%elem_of_cons]%elem_of_app.
    + eapply Forall_forall in Hquiet; [| exact Hin]. by destruct (Hquiet u).
    + done.
    + eapply Forall_forall in Hevs; [| exact Hin]. by destruct (Hevs u).
  - by apply updated_url.
  - by apply updated_hash.
Qed.

Lemma manifest_url_is_download_url_witness :
  fst (run sample_server sample_args sample_files) = 0
  ∧ ∃ m',
      fs (snd (run sample_server sample_args sample_files))
        !! manifest_path_of sample_server
      = Some (File (JsonText m'))
      ∧ json_at ["architecture"; "64bit"; "url"] m'
        = Some (JStr (Str.format URL_TEMPLATE (hyphenate (version sample_args))))
      ∧ HttpGet (Str.format URL_TEMPLATE (hyphenate (version sample_args)))
        ∈ out (snd (run sample_server sample_args sample_files)).
Proof.
  assert (fst (run sample_server sample_args sample_files) = 0) as Hcode
    by (vm_compute; reflexivity).
  split; [exact Hcode |].
  destruct (manifest_url_is_download_url sample_server sample_args
              sample_files Hcode)
    as (st & ch & m' & _ & _ & Hget & _ & Hman & Hurl & _).
  exists m'. split_and!; [exact Hman | exact Hurl | exact Hget].
Defined.

(* ===================================================================== *)
(** * Part III: further properties of the script *)
(* ===================================================================== *)

(** ** Errors and repetition of the manifest update *)

(** X1. What the manifest update does on every kind of manifest file.
    It raises [FileNotFoundError] when there is no file,
    [IsADirectoryError] on a directory, [UnicodeDecodeError] on a file
    whose bytes are not UTF-8, [JSONDecodeError] on any other file that
    is no JSON text, [TypeError] when the document, its [architecture] or
    the [64bit] entry is not an object, and [KeyError] when
    [architecture] or [64bit] is missing.  In each of these cases it has
    printed its message and written nothing, although [version] was
    already set in memory.  Otherwise the file is emptied and written
    anew: the update returns when every chunk of the new text can be
    encoded, and raises [UnicodeEncodeError] with a shorter file, the
    beginning of that text, when one cannot. *)
Theorem update_manifest_errors manifest_path dv hv ck s :
  let after := update_manifest manifest_path dv hv ck s in
  let fails_with e := after = (Raise e, say s [Print MsgUpdating]) in
  let leaves r c :=
    after = (r, {| fs := <[manifest_path := File c]> (fs s);
                   out := out s ++ [Print MsgUpdating];
                   installer_path := installer_path s |}) in
  match node_at (fs s) manifest_path with
  | None => fails_with (FileNotFoundError manifest_path)
  | Some Dir => fails_with (IsADirectoryError manifest_path)
  | Some (File (Bytes data)) =>
      fails_with (if Utf8.valid data then JSONDecodeError
                  else UnicodeDecodeError)
  | Some (File (JsonText (JDict d))) =>
      match Dict.get "architecture" d with
      | None => fails_with (KeyError "architecture")
      | Some (JDict a) =>
          match Dict.get "64bit" a with
          | None => fails_with (KeyError "64bit")
          | Some (JDict b) =>
              let m' := updated dv hv ck d a b in
              if dumpable m' then leaves (Ok tt) (JsonText m')
              else
                leaves (Raise UnicodeEncodeError) (Bytes (written_bytes m'))
                ∧ written_bytes m' `prefix_of` json_dumps m'
                ∧ (length (written_bytes m') < length (json_dumps m'))%nat
          | Some _ => fails_with TypeError
          end
      | Some _ => fails_with TypeError
      end
  | Some (File (JsonText _)) => fails_with TypeError
  end.
Proof.
  intros after fails_with leaves. subst after fails_with leaves. cbv beta.
  destruct (node_at (fs s) manifest_path) as [[|[data|doc]]|] eqn:Hp.
  1, 2, 4: unfold update_manifest, open_read, json_load;
    unfold_monad; rewrite Hp; unfold_monad;
    try destruct (Utf8.valid data); by unfold_monad.
  assert (∀ e, set_fields doc dv hv ck = Raise e →
               update_manifest manifest_path dv hv ck s
               = (Raise e, say s [Print MsgUpdating])) as Hraise.
  { intros e He. unfold update_manifest, open_read, json_load.
    unfold_monad. rewrite Hp. unfold_monad. by rewrite He. }
  destruct doc as [| | | | | |d]; try (by apply Hraise).
  destruct (Dict.get "architecture" d) as [arch|] eqn:Ha.
  2: { apply Hraise. unfold set_fields, setitem3.
       cbn [setitem getitem and_then]. rewrite get_set_ne by done.
       by rewrite Ha. }
  destruct arch as [| | | | | |a];
    try (apply Hraise; unfold set_fields, setitem3;
         cbn [setitem getitem and_then]; rewrite get_set_ne by done;
         by rewrite Ha).
  destruct (Dict.get "64bit" a) as [[| | | | | |b]|] eqn:Hb;
    try (apply Hraise; unfold set_fields, setitem3;
         cbn [setitem getitem and_then]; rewrite get_set_ne by done;
         rewrite Ha; cbn [setitem getitem and_then]; by rewrite Hb).
  cbv zeta. destruct (dumpable (updated dv hv ck d a b)) eqn:Hdump.
  - by apply update_manifest_returns.
  - split_and!.
    + by apply update_manifest_dump_fails.
    + apply written_bytes_prefix.
    + by apply written_bytes_shorter.
Qed.

(** Two stores to each of two keys: the later values win, and the keys
    stand where the first stores put them. *)
Lemma set_twice k1 k2 v1 v2 w1 w2 (d : list (string * json)) :
  k1 ≠ k2 →
  Dict.set k2 v2 (Dict.set k1 v1 (Dict.set k2 w2 (Dict.set k1 w1 d)))
  = Dict.set k2 v2 (Dict.set k1 v1 d).
Proof.
  intros Hne.
  assert (String.eqb k1 k2 = false) as E12 by by apply String.eqb_neq.
  assert (String.eqb k2 k1 = false) as E21
    by (apply String.eqb_neq; congruence).
  assert (∀ k, k ≠ k1 → String.eqb k k1 = false) as N1
    by (intros; by apply String.eqb_neq).
  assert (∀ k, k ≠ k2 → String.eqb k k2 = false) as N2
    by (intros; by apply String.eqb_neq).
  induction d as [|[k x] d IH].
  - repeat (progress (cbn [Dict.set];
                      rewrite ?String.eqb_refl, ?E12, ?E21)).
    done.
  - destruct (String.eqb_spec k k1) as [->|Hk1];
      [| destruct (String.eqb_spec k k2) as [->|Hk2]];
      repeat (progress (cbn [Dict.set];
                        rewrite ?String.eqb_refl, ?E12, ?E21,
                          ?(N1 k) , ?(N2 k) by done)).
    + by rewrite set_set.
    + by rewrite set_set.
    + by rewrite IH.
Qed.

(** The stores of a second update on the document of a first. *)
Lemma updated_twice dv1 hv1 ck1 dv2 hv2 ck2 d a b :
  Dict.get "architecture" d = Some (JDict a) →
  Dict.get "64bit" a = Some (JDict b) →
  ∃ d1 a1 b1,
    updated dv1 hv1 ck1 d a b = JDict d1
    ∧ Dict.get "architecture" d1 = Some (JDict a1)
    ∧ Dict.get "64bit" a1 = Some (JDict b1)
    ∧ updated dv2 hv2 ck2 d1 a1 b1 = updated dv2 hv2 ck2 d a b.
Proof.
  intros Ha Hb. unfold updated. do 3 eexists.
  split_and!; [reflexivity | apply get_set_eq | apply get_set_eq |].
  by rewrite (set_twice "version" "architecture"),
    (set_twice "url" "hash"), set_set.
Qed.

(** X2. Updating a manifest twice leaves the same file as the second
    update alone: when both updates return, the second one alone returns
    as well, and the later version, URL and hash have replaced the
    earlier ones in place, so the update can be repeated and run again
    with the same arguments without further change. *)
Theorem update_manifest_twice s manifest_path dv1 hv1 ck1 dv2 hv2 ck2 m :
  node_at (fs s) manifest_path = Some (File (JsonText m)) →
  let first := update_manifest manifest_path dv1 hv1 ck1 s in
  let once := update_manifest manifest_path dv2 hv2 ck2 s in
  let twice := update_manifest manifest_path dv2 hv2 ck2 (snd first) in
  fst first = Ok tt →
  fst twice = Ok tt →
  fst once = Ok tt ∧ fs (snd twice) = fs (snd once).
Proof.
  intros Hp first once twice Hfirst Htwice. subst first once twice.
  assert (manifest_path ≠ []) as Hroot by (by intros ->).
  destruct (update_manifest_returned _ _ _ _ _ _ Hp Hfirst)
    as (d & a & b & -> & Ha & Hb & _ & Hs1).
  rewrite Hs1 in Htwice |- *.
  destruct (updated_twice dv1 hv1 ck1 dv2 hv2 ck2 d a b Ha Hb)
    as (d1 & a1 & b1 & Hd1 & Ha1 & Hb1 & Hsame).
  match type of Htwice with
  | fst (update_manifest _ _ _ _ ?s1) = _ =>
      assert (node_at (fs s1) manifest_path = Some (File (JsonText (JDict d1))))
        as Hp1
        by (cbn [fs]; rewrite node_at_nonroot by done;
            rewrite lookup_insert_eq; by rewrite Hd1);
      destruct (update_manifest_returned _ _ _ _ _ _ Hp1 Htwice)
        as (d1' & a1' & b1' & [= <-] & Ha1' & Hb1' & Hdump & ->)
  end.
  rewrite Ha1 in Ha1'. injection Ha1' as <-.
  rewrite Hb1 in Hb1'. injection Hb1' as <-.
  rewrite Hsame in Hdump |- *.
  rewrite (update_manifest_returns _ _ dv2 _ _ d a b Hp Ha Hb Hdump).
  cbn [fst snd fs]. by rewrite insert_insert_eq.
Qed.

Lemma update_manifest_twice_witness :
  node_at (fs (start sample_files)) sample_manifest_path
  = Some (File (JsonText sample_doc))
  ∧ fst (update_manifest sample_manifest_path "7.2.0.2" "7-2-0-2" "AB"
           (start sample_files)) = Ok tt
  ∧ fs (snd (update_manifest sample_manifest_path "7.2.0.3" "7-2-0-3" "CD"
               (snd (update_manifest sample_manifest_path "7.2.0.2" "7-2-0-2"
                       "AB" (start sample_files)))))
    = fs (snd (update_manifest sample_manifest_path "7.2.0.3" "7-2-0-3" "CD"
                 (start sample_files))).
Proof.
  assert (node_at (fs (start sample_files)) sample_manifest_path
          = Some (File (JsonText sample_doc))) as Hp by reflexivity.
  assert (fst (update_manifest sample_manifest_path "7.2.0.2" "7-2-0-2" "AB"
                 (start sample_files)) = Ok tt) as Hfirst
    by (vm_compute; reflexivity).
  assert (fst (update_manifest sample_manifest_path "7.2.0.3" "7-2-0-3" "CD"
                 (snd (update_manifest sample_manifest_path "7.2.0.2"
                         "7-2-0-2" "AB" (start sample_files)))) = Ok tt)
    as Htwice by (vm_compute; reflexivity).
  split_and!; [exact Hp | exact Hfirst |].
  exact (proj2 (update_manifest_twice (start sample_files)
                  sample_manifest_path "7.2.0.2" "7-2-0-2" "AB" "7.2.0.3"
                  "7-2-0-3" "CD" sample_doc Hp Hfirst Htwice)).
Defined.

(** X3. Where an update that returns has put its fields: a field that
    was already there keeps its place, a missing [version] goes to the
    end of the document, and a missing [url] and [hash] go, in this
    order, to the end of the [64bit] object. *)
Theorem update_manifest_appends_missing_fields
    s manifest_path dv hv ck d a b :
  node_at (fs s) manifest_path = Some (File (JsonText (JDict d))) →
  Dict.get "architecture" d = Some (JDict a) →
  Dict.get "64bit" a = Some (JDict b) →
  fst (update_manifest manifest_path dv hv ck s) = Ok tt →
  ∃ m',
    fs (snd (update_manifest manifest_path dv hv ck s)) !! manifest_path
    = Some (File (JsonText m'))
    ∧ keys_at [] m'
      = Some (Dict.keys d
              ++ if Dict.get "version" d is Some _ then [] else ["version"])
    ∧ keys_at ["architecture"] m' = Some (Dict.keys a)
    ∧ keys_at ["architecture"; "64bit"] m'
      = Some (Dict.keys b
              ++ (if Dict.get "url" b is Some _ then [] else ["url"])
              ++ if Dict.get "hash" b is Some _ then [] else ["hash"]).
Proof.
  intros Hp Ha Hb Hok.
  assert (dumpable (updated dv hv ck d a b) = true) as Hdump.
  { destruct (dumpable (updated dv hv ck d a b)) eqn:Hdump; [done |].
    by rewrite (update_manifest_dump_fails _ _ _ _ _ d a b Hp Ha Hb Hdump)
      in Hok. }
  rewrite (update_manifest_returns _ _ _ _ _ d a b Hp Ha Hb Hdump).
  cbn [snd fs].
  eexists. split; [apply lookup_insert_eq |].
  unfold keys_at, updated. split_and!.
  - cbn [json_at]. f_equal.
    rewrite keys_set_present
      by (rewrite get_set_ne by done; by rewrite Ha).
    destruct (Dict.get "version" d) eqn:Hv.
    + rewrite keys_set_present by by rewrite Hv. by rewrite app_nil_r.
    + by rewrite keys_set_absent.
  - rewrite json_at_set_eq. cbn [json_at]. f_equal.
    apply keys_set_present. by rewrite Hb.
  - rewrite !json_at_set_eq. cbn [json_at]. f_equal.
    assert (Dict.keys
              (Dict.set "url" (JStr (Str.format URL_TEMPLATE hv)) b)
            = Dict.keys b ++ if Dict.get "url" b is Some _ then [] else ["url"])
      as Hurl.
    { destruct (Dict.get "url" b) eqn:Hu.
      - rewrite keys_set_present by by rewrite Hu. by rewrite app_nil_r.
      - by rewrite keys_set_absent. }
    destruct (Dict.get "hash" b) eqn:Hh.
    + rewrite keys_set_present
        by (rewrite get_set_ne by done; by rewrite Hh).
      by rewrite Hurl, app_nil_r.
    + rewrite keys_set_absent by (by rewrite get_set_ne by done).
      by rewrite Hurl, <- app_assoc.
Qed.

Lemma update_manifest_appends_missing_fields_witness :
  fst (update_manifest ["m.json"] "1.2" "1-2" "AB"
         (start (<[ ["m.json"]
                    := File (JsonText sample_doc_without_fields) ]> ∅)))
  = Ok tt
  ∧ ∃ m',
      fs (snd (update_manifest ["m.json"] "1.2" "1-2" "AB"
                 (start (<[ ["m.json"]
                            := File (JsonText sample_doc_without_fields) ]> ∅))))
        !! ["m.json"]
      = Some (File (JsonText m'))
      ∧ keys_at [] m' = Some ["architecture"; "homepage"; "version"]
      ∧ keys_at ["architecture"; "64bit"] m' = Some ["url"; "hash"].
Proof.
  assert (node_at
            (fs (start (<[ ["m.json"]
                           := File (JsonText sample_doc_without_fields) ]> ∅)))
            ["m.json"]
          = Some (File (JsonText
              (JDict [ ("architecture", JDict [("64bit", JDict [])]);
                       ("homepage", JStr "h") ])))) as Hp by reflexivity.
  assert (fst (update_manifest ["m.json"] "1.2" "1-2" "AB"
                 (start (<[ ["m.json"]
                            := File (JsonText sample_doc_without_fields) ]> ∅)))
          = Ok tt) as Hok by (vm_compute; reflexivity).
  destruct (update_manifest_appends_missing_fields _ _ "1.2" "1-2" "AB"
              _ [("64bit", JDict [])] [] Hp eq_refl eq_refl Hok)
    as (m' & Hm & Htop & _ & H64).
  split; [exact Hok |].
  exists m'. split_and!; [exact Hm | exact Htop | exact H64].
Defined.

(** ** The dump, chunk by chunk *)

(** The chunks of the sample manifest, as the encoder yields them: a
    string in a dict is a chunk of its own, a scalar in a list comes
    with the bracket or the comma before it. *)
Example chunks_of_a_dict :
  Dump.chunks 0 (JDict [("a", JStr "x"); ("b", JDict [])])
  = [ "{"; String "010" "  "; Dump.quoted "a"; ": "; Dump.quoted "x";
      String "," (String "010" "  "); Dump.quoted "b"; ": "; "{}";
      String "010" ""; "}" ].
Proof. reflexivity. Qed.

Example chunks_of_a_list :
  Dump.chunks 0 (JList [JInt 1; JList []; JStr "x"])
  = [ String "[" (String "010" "  1"); String "," (String "010" "  "); "[]";
      (String "," (String "010" "  ") +:+ Dump.quoted "x");
      String "010" ""; "]" ].
Proof. reflexivity. Qed.

(** X17. The dump into a file that was just opened for writing.  The
    chunks it writes add up to the text of the document.  When each of
    them can be encoded the dump returns and the file holds that text;
    otherwise it raises [UnicodeEncodeError] and the file holds the
    chunks before the first one that cannot be encoded: a beginning of
    the text, shorter than the text.  Nothing else changes. *)
Theorem json_dump_all_or_beginning doc p s :
  fs s !! p = Some (File (Bytes [])) →
  let after := json_dump doc p s in
  out (snd after) = out s
  ∧ (∀ q, q ≠ p → fs (snd after) !! q = fs s !! q)
  ∧ Dump.join (Dump.chunks 0 doc) = Dump.dumps 0 doc
  ∧ written_bytes doc `prefix_of` json_dumps doc
  ∧ if dumpable doc then
      fst after = Ok tt
      ∧ fs (snd after) !! p = Some (File (JsonText doc))
      ∧ written_bytes doc = bytes_of (JsonText doc)
    else
      fst after = Raise UnicodeEncodeError
      ∧ fs (snd after) !! p = Some (File (Bytes (written_bytes doc)))
      ∧ (length (written_bytes doc) < length (json_dumps doc))%nat.
Proof.
  intros Hp after. subst after. rewrite (json_dump_spec doc p s Hp).
  destruct (dumpable doc) eqn:Hdump; cbn [fst snd fs out].
  - split_and!; [done | | apply chunks_text | apply written_bytes_prefix
                 | done | apply lookup_insert_eq
                 | by apply written_bytes_text].
    intros q Hq. by rewrite lookup_insert_ne.
  - split_and!; [done | | apply chunks_text | apply written_bytes_prefix
                 | done | apply lookup_insert_eq
                 | by apply written_bytes_shorter].
    intros q Hq. by rewrite lookup_insert_ne.
Qed.

Lemma json_dump_all_or_beginning_witness :
  fs (start (<[ ["m.json"] := File (Bytes []) ]> ∅)) !! ["m.json"]
  = Some (File (Bytes []))
  ∧ fst (json_dump surrogate_doc ["m.json"]
           (start (<[ ["m.json"] := File (Bytes []) ]> ∅)))
    = Raise UnicodeEncodeError
  ∧ (length (written_bytes surrogate_doc)
     < length (json_dumps surrogate_doc))%nat.
Proof.
  assert (fs (start (<[ ["m.json"] := File (Bytes []) ]> ∅)) !! ["m.json"]
          = Some (File (Bytes []))) as Hp by reflexivity.
  assert (dumpable surrogate_doc = false) as Hdump
    by (vm_compute; reflexivity).
  pose proof (json_dump_all_or_beginning surrogate_doc ["m.json"]
                (start (<[ ["m.json"] := File (Bytes []) ]> ∅)) Hp)
    as (_ & _ & _ & _ & H).
  rewrite Hdump in H. destruct H as (Hraise & _ & Hshort).
  split_and!; [exact Hp | exact Hraise | exact Hshort].
Defined.

(** The run on the manifest with the lone surrogate: the download and
    the hash get through, the dump of the update raises, the run ends
    with status 1 and the manifest is cut off before the string. *)
Example surrogate_run_cuts_manifest :
  let after := run sample_server sample_args surrogate_files in
  fst after = 1
  ∧ last (out (snd after))
    = Some (Print (MsgRemoved "Phoenix-Firestorm-Betax64_AVX2-7-2-0-2_Setup.exe"))
  ∧ (Print (MsgDone "7.2.0.2") ∉ out (snd after))
  ∧ fs (snd after) !! sample_manifest_path
    = Some (File (Bytes (written_bytes
         (updated "7.2.0.2" "7-2-0-2" (checksum_of [sample_installer])
            surrogate_fields sample_architecture sample_64bit)))).
Proof.
  cbv zeta. split_and!; [by vm_compute | by vm_compute | | by vm_compute].
  intros Hin. vm_compute in Hin.
  repeat (apply elem_of_cons in Hin as [Heq|Hin]; [discriminate |]).
  by apply elem_of_nil in Hin.
Qed.

(** ** The name and the content of the downloaded file *)

(** A text without "/" is a part of the name. *)
Lemma name_from_no_slash (y : string) : ∀ acc,
  Str.contains "/" y = false → Str.name_from acc y = acc +:+ y.
Proof.
  induction y as [|c y IH]; intros acc; simpl.
  - by rewrite append_empty_r.
  - intros [Hc Hy]%orb_false_iff. rewrite Hc, IH by done.
    by rewrite append_assoc.
Qed.

Lemma name_from_append (x y : string) : ∀ acc,
  Str.contains "/" y = false →
  Str.name_from acc (x +:+ y) = Str.name_from acc x +:+ y.
Proof.
  induction x as [|c x IH]; intros acc Hy.
  - by apply name_from_no_slash.
  - rewrite append_cons. simpl. destruct (Ascii.eqb c "/"); by apply IH.
Qed.

Lemma name_from_has_no_slash (x : string) : ∀ acc,
  Str.contains "/" acc = false → Str.contains "/" (Str.name_from acc x) = false.
Proof.
  induction x as [|c x IH]; intros acc Hacc; simpl; [done |].
  destruct (Ascii.eqb c "/") eqn:Hc; apply IH; [done |].
  rewrite contains_append, Hacc. simpl. by rewrite Hc.
Qed.

(** X4. The name of the downloaded file.  Whatever the version string,
    the name taken from the URL holds no "/" and ends in "_Setup.exe",
    so the file is created in the destination directory itself; for a
    version without "/" the name is the last segment of the template with
    the version in it. *)
Theorem installer_name_is_one_component hyphen_version :
  let file_name := Str.basename (Str.format URL_TEMPLATE hyphen_version) in
  Str.contains "/" file_name = false
  ∧ (∃ stem, file_name = stem +:+ "_Setup.exe")
  ∧ (Str.contains "/" hyphen_version = false →
     file_name
     = "Phoenix-Firestorm-Betax64_AVX2-" +:+ hyphen_version +:+ "_Setup.exe").
Proof.
  intros file_name. subst file_name. rewrite format_URL_TEMPLATE.
  assert (Str.basename (url_prefix +:+ hyphen_version +:+ url_suffix)
          = Str.name_from "Phoenix-Firestorm-Betax64_AVX2-" hyphen_version
            +:+ "_Setup.exe") as ->.
  { rewrite <- name_from_append by done. reflexivity. }
  split_and!.
  - rewrite contains_append, name_from_has_no_slash by done. done.
  - by eexists.
  - intros Hv. by rewrite name_from_no_slash, append_assoc.
Qed.

Lemma installer_name_is_one_component_witness :
  Str.contains "/" "7-2-0-2" = false
  ∧ Str.basename (Str.format URL_TEMPLATE "7-2-0-2")
    = "Phoenix-Firestorm-Betax64_AVX2-7-2-0-2_Setup.exe"
  ∧ Str.basename (Str.format URL_TEMPLATE "../../x") = "x_Setup.exe".
Proof.
  split_and!; [reflexivity | | reflexivity].
  apply (proj2 (proj2 (installer_name_is_one_component "7-2-0-2"))).
  reflexivity.
Defined.

(** X5. A download whose status check passes.  Where the destination
    file can be opened (it is a regular file already, or it is not there
    and the destination directory is), the step sends one request and
    leaves in the file named after the URL exactly the bytes of the
    chunks in order, in place of whatever the file held; no other path
    changes.  It returns the path of the file, or, when the connection
    breaks while the body is read, raises with the bytes received so far
    left in the file. *)
Theorem download_installer_writes_body E hyphen_version dest s
    status chunks broken :
  let url := Str.format URL_TEMPLATE hyphen_version in
  let filename := dest ++ [Str.basename url] in
  let after := download_installer E hyphen_version dest s in
  http E url = Response status chunks broken →
  is_http_error status = false →
  (∃ c, node_at (fs s) filename = Some (File c))
  ∨ (node_at (fs s) filename = None ∧ node_at (fs s) dest = Some Dir) →
  fst after
  = match broken with
    | Some detail => Raise (StreamError detail)
    | None => Ok filename
    end
  ∧ fs (snd after) !! filename = Some (File (Bytes (concat chunks)))
  ∧ (∀ p, p ≠ filename → fs (snd after) !! p = fs s !! p)
  ∧ out (snd after) = out s ++ [Print (MsgDownloading url); HttpGet url].
Proof.
  intros url filename after H Herr Hfile. subst url filename after.
  rewrite (download_body E hyphen_version dest s status chunks broken H Herr
             Hfile).
  cbn [fst snd fs out]. split_and!; [done | apply lookup_insert_eq | | done].
  intros p Hp. by rewrite lookup_insert_ne.
Qed.

Lemma download_installer_writes_body_witness :
  fs (snd (download_installer
             (sample_env (Response 200 [sample_installer; []; sample_installer]
                            (Some "reset")))
             "7-2-0-2" ["repo"; "helpers"; "temp"] (start sample_files_ready)))
    !! sample_installer_path
  = Some (File (Bytes (sample_installer ++ sample_installer))).
Proof.
  apply (download_installer_writes_body
           (sample_env (Response 200 [sample_installer; []; sample_installer]
                          (Some "reset")))
           "7-2-0-2" ["repo"; "helpers"; "temp"] (start sample_files_ready)
           200 [sample_installer; []; sample_installer] (Some "reset")
           eq_refl eq_refl).
  right. split; reflexivity.
Defined.

(** ** Runs that reach the download *)

(** A run that needs no bootstrap, can make its temp directory and finds
    a manifest is the [try] statement on the files with the temp
    directory. *)
Lemma run_reaches_try E a files :
  requests_importable E = true →
  temp_dir_ready E files →
  is_Some (files !! manifest_path_of E) →
  node_at (with_temp_dir E files) (temp_dir_of E) = Some Dir
  ∧ (∀ p, p ≠ temp_dir_of E → with_temp_dir E files !! p = files !! p)
  ∧ main E a (start files)
    = try_finally (fetch_hash_update E a) (cleanup_unless_kept a)
        (start (with_temp_dir E files)).
Proof.
  intros Himp Hready Hman. unfold main. rewrite Himp.
  assert (temp_dir_of E ≠ []) as Htemp by apply snoc_nonroot.
  destruct (main_with_requests_cases E a (start files))
    as [(Hbad & _)|(s1 & Hs1 & Hdir & _ & [[Hmissing _]|[_ ->]])];
    cbn [start fs] in *.
  - destruct Hbad as [[c Hc]|[Hn Hd]], Hready as [Hr|[Hr Hr']]; congruence.
  - rewrite Hmissing in Hman. by destruct Hman.
  - unfold with_temp_dir.
    destruct Hs1 as [->|[Hnone ->]]; cbn [start fs] in *.
    + rewrite Hdir. done.
    + rewrite Hnone. split_and!; [done | | done].
      intros p Hp. by rewrite lookup_insert_ne.
Qed.

(** The [try] body once the download has succeeded: the hash of the
    body, then the manifest update in a state that tracks the file. *)
Lemma body_after_download E a s status chunks :
  http E (url_of (version a)) = Response status chunks None →
  is_http_error status = false →
  (∃ c, node_at (fs s) (installer_path_of E (version a)) = Some (File c))
  ∨ (node_at (fs s) (installer_path_of E (version a)) = None
     ∧ node_at (fs s) (temp_dir_of E) = Some Dir) →
  fetch_hash_update E a s
  = bind (update_manifest (manifest_path_of E) (version a)
            (hyphenate (version a)) (checksum_of chunks))
      (λ _, bind (print (MsgDone (version a)))
        (λ _, bind (print (MsgSha256 (checksum_of chunks)))
          (λ _, print (MsgNextSteps (version a)))))
      {| fs := <[installer_path_of E (version a)
                 := File (Bytes (concat chunks))]> (fs s);
         out := out s ++ [Print (MsgDownloading (url_of (version a)));
                          HttpGet (url_of (version a));
                          Print MsgCalculating];
         installer_path := Some (installer_path_of E (version a)) |}.
Proof.
  unfold url_of, installer_path_of, checksum_of. intros H Herr Hfile.
  unfold fetch_hash_update. unfold_monad.
  rewrite (download_body E _ _ s status chunks None H Herr Hfile).
  unfold_monad.
  rewrite (calculate_sha256_returns _ _ (Bytes (concat chunks)));
    [| cbn [fs]; rewrite node_at_nonroot by apply snoc_nonroot;
       apply lookup_insert_eq].
  unfold_monad. cbn [bytes_of]. rewrite <- app_assoc. by cbn [app].
Qed.

(** The cleanup of one tracked regular file. *)
Lemma cleanup_one_file (p : path) c s :
  fs s !! p = Some (File c) → p ≠ [] →
  cleanup_temp_files [p] s
  = (Ok tt, {| fs := delete p (fs s);
               out := out s ++ [Print MsgCleaning; Print (MsgRemoved (name p))];
               installer_path := installer_path s |}).
Proof.
  intros Hp Hroot. unfold cleanup_temp_files. cbn [remove_each].
  unfold path_exists, unlink. unfold_monad.
  rewrite node_at_nonroot, Hp by done. unfold_monad.
  rewrite node_at_nonroot, Hp by done. unfold_monad.
  by rewrite <- app_assoc.
Qed.

Lemma openable_in_temp_dir E a files :
  node_at (with_temp_dir E files) (temp_dir_of E) = Some Dir →
  (∀ p, p ≠ temp_dir_of E → with_temp_dir E files !! p = files !! p) →
  files !! installer_path_of E (version a) ≠ Some Dir →
  (∃ c, node_at (with_temp_dir E files) (installer_path_of E (version a))
        = Some (File c))
  ∨ (node_at (with_temp_dir E files) (installer_path_of E (version a)) = None
     ∧ node_at (with_temp_dir E files) (temp_dir_of E) = Some Dir).
Proof.
  intros Hdir Hsame Hnodir. unfold installer_path_of in *.
  rewrite node_at_nonroot by apply snoc_nonroot.
  rewrite Hsame
    by (intros Heq; apply (f_equal length) in Heq;
        rewrite length_app in Heq; simpl in Heq; lia).
  destruct (files !! _) as [[|c]|]; [done | left; by eexists | by right].
Qed.

(** X6. A connection that breaks while the body is read.  The run ends
    with status 1 and nothing but the two download events and, without
    the keep-temp flag, the opening message of the cleanup: the bytes
    received so far stay in the installer file, which the cleanup does
    not remove because [installer_path] was never assigned. *)
Theorem broken_stream_leaves_partial_file E a files status chunks detail :
  requests_importable E = true →
  temp_dir_ready E files →
  is_Some (files !! manifest_path_of E) →
  http E (url_of (version a)) = Response status chunks (Some detail) →
  is_http_error status = false →
  files !! installer_path_of E (version a) ≠ Some Dir →
  run E a files
  = (1,
     {| fs := <[installer_path_of E (version a)
                := File (Bytes (concat chunks))]> (with_temp_dir E files);
        out := [Print (MsgDownloading (url_of (version a)));
                HttpGet (url_of (version a))]
               ++ (if keep_temp a then [] else [Print MsgCleaning]);
        installer_path := None |}).
Proof.
  intros Himp Hready Hman H Herr Hnodir.
  destruct (run_reaches_try E a files Himp Hready Hman)
    as (Hdir & Hsame & Hmain).
  unfold run. rewrite Hmain. clear Hmain.
  pose proof (openable_in_temp_dir E a files Hdir Hsame Hnodir) as Hopen.
  unfold url_of, installer_path_of in *.
  unfold fetch_hash_update. unfold_monad.
  rewrite (download_body E _ _ (start (with_temp_dir E files)) status chunks
             (Some detail) H Herr Hopen).
  unfold_monad. unfold cleanup_unless_kept, cleanup_temp_files.
  destruct (keep_temp a); cbn [negb]; unfold_monad; cbn [start fs out app].
  - done.
  - cbn [start installer_path remove_each]. by unfold_monad.
Qed.

Lemma broken_stream_leaves_partial_file_witness :
  fst (run (sample_env (Response 200 [sample_installer] (Some "reset")))
         sample_args sample_files) = 1
  ∧ fs (snd (run (sample_env (Response 200 [sample_installer] (Some "reset")))
               sample_args sample_files)) !! sample_installer_path
    = Some (File (Bytes sample_installer)).
Proof.
  assert (is_Some (sample_files
                     !! manifest_path_of
                          (sample_env
                             (Response 200 [sample_installer] (Some "reset")))))
    as Hman by (by eexists).
  rewrite (broken_stream_leaves_partial_file
             (sample_env (Response 200 [sample_installer] (Some "reset")))
             sample_args sample_files 200 [sample_installer] "reset"
             eq_refl (or_intror (conj eq_refl eq_refl)) Hman
             eq_refl eq_refl ltac:(discriminate)).
  split; reflexivity.
Defined.

(** X7. The installer file after a completed download, whether or not
    the manifest update then succeeds: with the keep-temp flag the file
    is there with exactly the downloaded bytes; without it the file is
    gone and its removal is reported. *)
Theorem installer_kept_iff_keep_temp E a files status chunks :
  requests_importable E = true →
  temp_dir_ready E files →
  is_Some (files !! manifest_path_of E) →
  http E (url_of (version a)) = Response status chunks None →
  is_http_error status = false →
  files !! installer_path_of E (version a) ≠ Some Dir →
  let after := snd (run E a files) in
  fs after !! installer_path_of E (version a)
  = (if keep_temp a then Some (File (Bytes (concat chunks))) else None)
  ∧ (keep_temp a = false →
     Print (MsgRemoved (name (installer_path_of E (version a)))) ∈ out after).
Proof.
  intros Himp Hready Hman H Herr Hnodir after. subst after.
  destruct (run_reaches_try E a files Himp Hready Hman)
    as (Hdir & Hsame & Hmain).
  unfold run. rewrite Hmain. clear Hmain.
  pose proof (openable_in_temp_dir E a files Hdir Hsame Hnodir) as Hopen.
  pose proof (installer_not_manifest E (Str.basename (url_of (version a))))
    as Hne.
  fold (installer_path_of E (version a)) in Hne.
  assert (installer_path_of E (version a) ≠ []) as Hroot
    by apply snoc_nonroot.
  unfold try_finally.
  rewrite (body_after_download E a (start (with_temp_dir E files)) status
             chunks H Herr Hopen).
  unfold_monad.
  match goal with
  | |- context [update_manifest ?p ?dv ?hv ?ck ?s0] =>
      destruct (update_manifest_cases p dv hv ck s0)
        as [(d & a' & b & _ & _ & _ & _ & Hup)
           |[(e & Hup & _)|(doc & _ & Hup)]]
  end; rewrite Hup; unfold_monad;
    unfold cleanup_unless_kept; destruct (keep_temp a); cbn [negb];
    unfold_monad; cbn [say fs out installer_path].
  - split; [| done]. rewrite lookup_insert_ne by done.
    apply lookup_insert_eq.
  - erewrite cleanup_one_file;
      [| cbn [fs]; rewrite lookup_insert_ne by done; apply lookup_insert_eq
       | done].
    cbn [fst snd fs out]. split; [apply lookup_delete_eq |].
    intros _. apply elem_of_app. right.
    apply list_elem_of_further, list_elem_of_here.
  - split; [| done]. apply lookup_insert_eq.
  - erewrite cleanup_one_file; [| cbn [fs]; apply lookup_insert_eq | done].
    cbn [fst snd fs out]. split; [apply lookup_delete_eq |].
    intros _. apply elem_of_app. right.
    apply list_elem_of_further, list_elem_of_here.
  - split; [| done]. rewrite lookup_insert_ne by done.
    apply lookup_insert_eq.
  - erewrite cleanup_one_file;
      [| cbn [fs]; rewrite lookup_insert_ne by done; apply lookup_insert_eq
       | done].
    cbn [fst snd fs out]. split; [apply lookup_delete_eq |].
    intros _. apply elem_of_app. right.
    apply list_elem_of_further, list_elem_of_here.
Qed.

Lemma installer_kept_iff_keep_temp_witness :
  fs (snd (run sample_server {| version := "7.2.0.2"; keep_temp := true |}
             sample_files)) !! sample_installer_path
  = Some (File (Bytes sample_installer)).
Proof.
  assert (is_Some (sample_files !! manifest_path_of sample_server)) as Hman
    by (by eexists).
  apply (installer_kept_iff_keep_temp sample_server
           {| version := "7.2.0.2"; keep_temp := true |} sample_files
           200 [sample_installer] eq_refl (or_intror (conj eq_refl eq_refl))
           Hman eq_refl eq_refl ltac:(discriminate)).
Defined.

(** X8. The successful run, end to end.  With [requests] importable, a
    temp directory that is there or can be made, a manifest that holds an
    [architecture.64bit] object, a good status, an unbroken body and an
    updated document whose text can be encoded, the run ends with status
    0.  It prints its seven messages in order, with the checksum of the
    body, and the manifest holds the updated document; without the
    keep-temp flag the installer is then removed and reported, with it
    the installer stays. *)
Theorem run_succeeds E a files status chunks d a' b :
  requests_importable E = true →
  temp_dir_ready E files →
  files !! manifest_path_of E = Some (File (JsonText (JDict d))) →
  Dict.get "architecture" d = Some (JDict a') →
  Dict.get "64bit" a' = Some (JDict b) →
  http E (url_of (version a)) = Response status chunks None →
  is_http_error status = false →
  files !! installer_path_of E (version a) ≠ Some Dir →
  dumpable (updated (version a) (hyphenate (version a)) (checksum_of chunks)
              d a' b) = true →
  let installer := installer_path_of E (version a) in
  let updated_files :=
    <[manifest_path_of E
      := File (JsonText (updated (version a) (hyphenate (version a))
                           (checksum_of chunks) d a' b))]>
      (<[installer := File (Bytes (concat chunks))]> (with_temp_dir E files)) in
  run E a files
  = (0,
     {| fs := if keep_temp a then updated_files
              else delete installer updated_files;
        out := [Print (MsgDownloading (url_of (version a)));
                HttpGet (url_of (version a));
                Print MsgCalculating; Print MsgUpdating;
                Print (MsgDone (version a));
                Print (MsgSha256 (checksum_of chunks));
                Print (MsgNextSteps (version a))]
               ++ (if keep_temp a then []
                   else [Print MsgCleaning; Print (MsgRemoved (name installer))]);
        installer_path := Some installer |}).
Proof.
  intros Himp Hready Hdoc Ha Hb H Herr Hnodir Hdump installer updated_files.
  subst installer updated_files.
  assert (is_Some (files !! manifest_path_of E)) as Hman by by eexists.
  destruct (run_reaches_try E a files Himp Hready Hman)
    as (Hdir & Hsame & Hmain).
  unfold run. rewrite Hmain. clear Hmain.
  pose proof (openable_in_temp_dir E a files Hdir Hsame Hnodir) as Hopen.
  pose proof (installer_not_manifest E (Str.basename (url_of (version a))))
    as Hne.
  fold (installer_path_of E (version a)) in Hne.
  pose proof (manifest_path_nonroot E) as Hroot.
  unfold try_finally.
  rewrite (body_after_download E a (start (with_temp_dir E files)) status
             chunks H Herr Hopen).
  unfold_monad.
  rewrite (update_manifest_returns _ _ _ _ _ d a' b);
    [| cbn [fs start]; rewrite node_at_nonroot by done;
       rewrite lookup_insert_ne by done;
       rewrite Hsame by (symmetry; apply temp_dir_not_manifest);
       exact Hdoc
     | done | done | done].
  unfold_monad. unfold cleanup_unless_kept.
  destruct (keep_temp a); cbn [negb]; unfold_monad;
    cbn [start fs out installer_path app exit_code].
  - rewrite <- ?app_assoc. by cbn [app].
  - erewrite cleanup_one_file;
      [| cbn [fs]; rewrite lookup_insert_ne by done; apply lookup_insert_eq
       | apply snoc_nonroot].
    cbn [fs out installer_path exit_code]. rewrite <- ?app_assoc.
    by cbn [app].
Qed.

Lemma run_succeeds_witness :
  fst (run sample_server sample_args sample_files) = 0
  ∧ out (snd (run sample_server sample_args sample_files))
    = [Print (MsgDownloading (url_of "7.2.0.2")); HttpGet (url_of "7.2.0.2");
       Print MsgCalculating; Print MsgUpdating; Print (MsgDone "7.2.0.2");
       Print (MsgSha256 (checksum_of [sample_installer]));
       Print (MsgNextSteps "7.2.0.2"); Print MsgCleaning;
       Print (MsgRemoved (name (installer_path_of sample_server "7.2.0.2")))].
Proof.
  assert (dumpable
            (updated (version sample_args) (hyphenate (version sample_args))
               (checksum_of [sample_installer])
               [ ("version", JStr "7.2.0.1");
                 ("architecture",
                   JDict [ ("64bit",
                             JDict [ ("url", JStr "...");
                                     ("hash", JStr "sha256:AAA") ]) ]);
                 ("other", JStr "keep") ]
               [ ("64bit",
                   JDict [ ("url", JStr "..."); ("hash", JStr "sha256:AAA") ]) ]
               [ ("url", JStr "..."); ("hash", JStr "sha256:AAA") ])
          = true) as Hdump by (vm_compute; reflexivity).
  rewrite (run_succeeds sample_server sample_args sample_files 200
             [sample_installer] _ _ _ eq_refl
             (or_intror (conj eq_refl eq_refl)) eq_refl eq_refl eq_refl
             eq_refl eq_refl ltac:(discriminate) Hdump).
  split; reflexivity.
Defined.

(** ** What every run does *)

Lemma requests_of_app (e1 e2 : list event) :
  requests_of (e1 ++ e2) = requests_of e1 ++ requests_of e2.
Proof. apply omap_app. Qed.

Lemma requests_of_bootstrap evs :
  Forall bootstrap_event evs → requests_of evs = [].
Proof.
  induction 1 as [|e evs He _ IH]; [done |].
  unfold requests_of in *. cbn [omap list_omap]. rewrite IH.
  by destruct e.
Qed.

(** The [try] body sends exactly one request, to the URL of the version. *)
Lemma body_requests E a s :
  ∃ evs,
    out (snd (fetch_hash_update E a s)) = out s ++ evs
    ∧ requests_of evs = [url_of (version a)].
Proof.
  unfold url_of, fetch_hash_update.
  destruct (download_installer_cases E (hyphenate (version a)) (temp_dir_of E) s)
    as [(_ & m & _ & Hd)|[(_ & e & Hd & He)|(st & ch & br & H & Herr & Hd)]];
    unfold_monad; rewrite Hd; unfold_monad; cbn [say out].
  { by eexists. }
  { by eexists. }
  destruct br as [detail|]; unfold_monad; [by eexists |].
  rewrite (calculate_sha256_returns _ _ (Bytes (concat ch)));
    [| cbn [fs]; rewrite node_at_nonroot by apply snoc_nonroot;
       apply lookup_insert_eq].
  unfold_monad.
  match goal with
  | |- context [update_manifest ?p ?dv ?hv ?ck ?s0] =>
      destruct (update_manifest_cases p dv hv ck s0)
        as [(d & a' & b & _ & _ & _ & _ & ->)
           |[(e & -> & _)|(doc & _ & ->)]]
  end; unfold_monad; cbn [say out]; rewrite <- ?app_assoc; cbn [app];
    by eexists.
Qed.

(** The [try] statement ends as its body did; the [finally] block sends
    no request and touches no path but the installer's. *)
Lemma try_result E a s :
  installer_path s = None →
  let body := fetch_hash_update E a s in
  let after := try_finally (fetch_hash_update E a) (cleanup_unless_kept a) s in
  fst after = fst body
  ∧ (∀ q, q ≠ installer_path_of E (version a) →
       fs (snd after) !! q = fs (snd body) !! q)
  ∧ ∃ evs, out (snd after) = out (snd body) ++ evs ∧ requests_of evs = [].
Proof.
  intros Hnone body after. subst body after.
  destruct (keep_temp a) eqn:Hkeep.
  - rewrite try_then_keep by done. split_and!; [done | done |].
    exists []. by rewrite app_nil_r.
  - destruct (try_then_cleanup E a s Hkeep Hnone)
      as (-> & _ & _ & Hkept & evs & Hout & _ & Honly).
    cbn [fst snd]. split_and!; [done | |].
    + intros q Hq. apply Hkept.
      destruct (installer_path (snd (fetch_hash_update E a s))) as [p|] eqn:Hp;
        [| by intros ?%elem_of_nil].
      destruct (tracked_is_a_file E a s p Hnone Hp) as [-> _].
      by intros ->%list_elem_of_singleton.
    + exists (Print MsgCleaning :: evs). split; [done |].
      unfold requests_of. cbn [omap list_omap].
      clear Hout. induction evs as [|e evs IH]; [done |].
      cbn [omap list_omap].
      destruct (Honly e (list_elem_of_here _ _)) as (p & _ & _ & ->).
      apply IH. intros e' He'. apply Honly. by apply list_elem_of_further.
Qed.

(** Every way through [main] once [requests] is imported: status 0, or
    status 1 with the manifest as it was or as a dump that raised left
    it; at most one request. *)
Lemma main_with_requests_outcome E a s :
  installer_path s = None →
  let after := main_with_requests E a s in
  (exit_code (fst after) = 0
   ∨ (exit_code (fst after) = 1
      ∧ manifest_kept_or_cut E (fs s) (fs (snd after))))
  ∧ ∃ evs,
      out (snd after) = out s ++ evs
      ∧ (requests_of evs = [] ∨ requests_of evs = [url_of (version a)]).
Proof.
  intros Hnone after. subst after.
  destruct (main_with_requests_cases E a s)
    as [(_ & e & -> & He)|(s1 & Hs1 & _ & Hman & [[_ ->]|[_ ->]])];
    cbn [fst snd].
  { split.
    - right. split; [| by left]. destruct e; try done. by destruct (He code).
    - exists []. rewrite app_nil_r. by split; [| left]. }
  assert (out s1 = out s ∧ installer_path s1 = None) as [Ho Hi].
  { destruct Hs1 as [->|[_ ->]]; done. }
  { split; [right; split; [done | by left] |].
    eexists. cbn [say out]. rewrite Ho. split; [reflexivity | by left]. }
  assert (out s1 = out s ∧ installer_path s1 = None) as [Ho Hi].
  { destruct Hs1 as [->|[_ ->]]; done. }
  pose proof (installer_not_manifest E (Str.basename (url_of (version a))))
    as Hne.
  fold (installer_path_of E (version a)) in Hne.
  destruct (try_result E a s1 Hi) as (-> & Hkept & evs2 & -> & Hevs2).
  unfold manifest_kept_or_cut. rewrite Hkept by done.
  destruct (body_requests E a s1) as (evs1 & Hout1 & Hevs1).
  split.
  - destruct (fetch_hash_update_cases E a s1)
      as [(e & evs & -> & He)|[(st & ch & detail & -> & _)
         |[(st & ch & e & f' & -> & He & _ & Hf')
          |(st & ch & d & a' & b & -> & _)]]];
      cbn [fst snd say fs exit_code].
    + right. split; [done | by left].
    + right. split; [done |]. left. by rewrite lookup_insert_ne.
    + right. split; [done |]. destruct Hf' as [->|(doc & Hdoc & ->)].
      * left. by rewrite lookup_insert_ne.
      * right. exists doc. split; [done |]. apply lookup_insert_eq.
    + by left.
  - exists (evs1 ++ evs2). rewrite Hout1, Ho, app_assoc. split; [done |].
    right. by rewrite requests_of_app, Hevs1, Hevs2.
Qed.

(** The same for every run, bootstrapped or not. *)
Lemma run_outcome E a files :
  (fst (run E a files) = 0
   ∨ (fst (run E a files) = 1
      ∧ manifest_kept_or_cut E files (fs (snd (run E a files)))))
  ∧ (requests_of (out (snd (run E a files))) = []
     ∨ requests_of (out (snd (run E a files))) = [url_of (version a)]).
Proof.
  unfold run. destruct (requests_importable E) eqn:Himp.
  - unfold main. rewrite Himp.
    destruct (main_with_requests_outcome E a (start files) eq_refl)
      as (Hcode & evs & Hout & Hevs).
    destruct (main_with_requests E a (start files)) as [r s'].
    cbn [fst snd start fs out app] in *. rewrite Hout. by split.
  - destruct (main_bootstrap E a (start files) Himp)
      as (s_b & evs & Hfs & Hout & Hevs & Hi & Hmain).
    assert (fs s_b !! manifest_path_of E = files !! manifest_path_of E)
      as Hman.
    { destruct Hfs as [->| ->]; [done |].
      rewrite lookup_insert_ne; [done | apply venv_not_manifest]. }
    cbn [start out app] in Hout.
    destruct Hmain as [(e & -> & Hcode)| ->]; cbn [fst snd].
    + split; [right; split; [done | by left] |]. left. rewrite Hout.
      by apply requests_of_bootstrap.
    + destruct (main_with_requests_outcome E a s_b Hi)
        as (Hcode & evs' & Hout' & Hevs').
      destruct (main_with_requests E a s_b) as [r s'].
      cbn [fst snd exit_code] in *. split.
      * destruct Hcode as [?|[? Hcut]]; [by left | right; split; [done |]].
        unfold manifest_kept_or_cut in *. by rewrite <- Hman.
      * rewrite Hout', Hout, requests_of_app.
        by rewrite (requests_of_bootstrap evs) by done.
Qed.


(** X10. Every run sends at most one request, and never to another URL
    than the one built from the template and the hyphenated version:
    nothing is retried. *)
Theorem run_sends_at_most_one_request E a files :
  requests_of (out (snd (run E a files))) = []
  ∨ requests_of (out (snd (run E a files)))
    = [Str.format URL_TEMPLATE (hyphenate (version a))].
Proof. exact (proj2 (run_outcome E a files)). Qed.

(** ** The bootstrap, case by case *)

Ltac not_in_trace H :=
  repeat (apply elem_of_cons in H as [H|H]; [discriminate |]);
  by apply elem_of_nil in H.

Ltac in_trace :=
  repeat first [apply list_elem_of_here | apply list_elem_of_further].

(** X11. A bootstrap that gets through.  When [requests] cannot be
    imported and the virtual environment is there or is created, with
    [requests] in it or installed into it, the run creates the
    environment only if it was not there, installs [requests] only if
    the import test failed, then runs the script inside the environment
    and exits with the status of that run. *)
Theorem bootstrap_reruns_script E a files :
  requests_importable E = false →
  venv_usable E files = true →
  let child :=
    main_with_requests E a
      {| fs := with_venv E files; out := bootstrap_trace E files;
         installer_path := None |} in
  run E a files = (exit_code (fst child), snd child).
Proof.
  intros Himp Husable child. subst child.
  unfold venv_usable, bootstrap_trace, with_venv, venv_there in *.
  unfold run, main, run_with_venv, setup_venv, path_exists. rewrite Himp.
  unfold_monad. cbn [start fs].
  destruct (node_at files (script_dir E ++ ["venv"])) as [n|];
    cbn [negb orb andb] in *; unfold_monad;
    [| destruct (venv_created (procs E)); [| done]; unfold_monad];
    (destruct (venv_import_requests (procs E)) as [[|]|]; [| | done]);
    unfold_monad;
    try (destruct (pip_install_requests (procs E)) as [[|]|];
         [| done | done]; unfold_monad);
    cbn [start out app installer_path];
    match goal with
    | |- context [main_with_requests E a ?s0] =>
        by destruct (main_with_requests E a s0)
    end.
Qed.

Lemma bootstrap_reruns_script_witness :
  requests_importable sample_env_bootstrap = false
  ∧ venv_usable sample_env_bootstrap sample_files = true
  ∧ fst (run sample_env_bootstrap sample_args sample_files) = 1
  ∧ out (snd (run sample_env_bootstrap sample_args sample_files))
    = [Print MsgRequestsNotFound; Print MsgCreatingVenv;
       Subprocess CmdCreateVenv; Subprocess CmdTryImportRequests;
       Print MsgInstallingRequests; Subprocess CmdPipInstallRequests;
       Print MsgRerunning; Subprocess CmdRerunScript;
       Print (MsgDownloading (url_of "7.2.0.2")); HttpGet (url_of "7.2.0.2");
       Print (MsgVersionNotFound (url_of "7.2.0.2")); Print MsgCleaning].
Proof.
  rewrite (bootstrap_reruns_script sample_env_bootstrap sample_args
             sample_files eq_refl eq_refl).
  split_and!; reflexivity.
Defined.

(** X12. A bootstrap that does not get through.  The run ends with
    status 1 before the script proper starts: it prints and starts
    nothing but bootstrap steps, and changes no path but the [venv]
    directory.  The set-up-failed message is printed exactly when
    [python.exe] or [pip.exe] of the environment is missing; a failed
    creation or a failed install ends the run without it. *)
Theorem bootstrap_failure_stops_the_run E a files :
  requests_importable E = false →
  venv_usable E files = false →
  let after := run E a files in
  fst after = 1
  ∧ Forall bootstrap_event (out (snd after))
  ∧ (∀ p, p ≠ script_dir E ++ ["venv"] → fs (snd after) !! p = files !! p)
  ∧ (Print MsgVenvSetupFailed ∈ out (snd after)
     ↔ venv_executable_missing E files = true).
Proof.
  intros Himp Husable after. subst after.
  unfold venv_usable, venv_executable_missing, venv_there in *.
  unfold run, main, run_with_venv, setup_venv, path_exists. rewrite Himp.
  unfold_monad. cbn [start fs].
  destruct (node_at files (script_dir E ++ ["venv"])) as [n|];
    cbn [negb orb andb] in *; unfold_monad;
    [| destruct (venv_created (procs E));
       [| destruct (venv_left_behind (procs E))]; unfold_monad];
    try (destruct (venv_import_requests (procs E)) as [[|]|]; [done | |];
         unfold_monad);
    try (destruct (pip_install_requests (procs E)) as [[|]|]; [done | |];
         unfold_monad);
    cbn [start out app fst snd exit_code fs andb];
    (split_and!;
     [ done
     | by repeat constructor
     | intros p Hp; by rewrite ?lookup_insert_ne by done
     | split; [intros H; try done; not_in_trace H | intros H; try done; in_trace] ]).
Qed.

Lemma bootstrap_failure_stops_the_run_witness :
  requests_importable sample_env_without_pip = false
  ∧ venv_usable sample_env_without_pip sample_files = false
  ∧ fst (run sample_env_without_pip sample_args sample_files) = 1
  ∧ Print MsgVenvSetupFailed
    ∈ out (snd (run sample_env_without_pip sample_args sample_files)).
Proof.
  destruct (bootstrap_failure_stops_the_run sample_env_without_pip sample_args
              sample_files eq_refl eq_refl) as (Hcode & _ & _ & Hmsg).
  split_and!; [reflexivity | reflexivity | exact Hcode |].
  apply Hmsg. reflexivity.
Defined.

(** X18. A creation of the virtual environment that fails.  The run
    ends with status 1 after three events, without the set-up-failed
    message, and the [venv] directory is there afterwards exactly when
    the failed creation left it behind.  The next run then finds the
    directory (line 18) and does not create the environment again: it
    goes straight to the import test. *)
Theorem failed_venv_creation_is_not_retried E a files :
  requests_importable E = false →
  venv_there E files = false →
  venv_created (procs E) = false →
  let first := run E a files in
  let second := run E a (fs (snd first)) in
  first
  = (1, {| fs := if venv_left_behind (procs E)
                 then <[script_dir E ++ ["venv"] := Dir]> files else files;
           out := [Print MsgRequestsNotFound; Print MsgCreatingVenv;
                   Subprocess CmdCreateVenv];
           installer_path := None |})
  ∧ (venv_left_behind (procs E) = true →
     ∃ rest,
       out (snd second)
       = Print MsgRequestsNotFound :: Subprocess CmdTryImportRequests :: rest).
Proof.
  intros Himp Hthere Hcreated first second. subst second first.
  assert (script_dir E ++ ["venv"] ≠ []) as Hroot by apply snoc_nonroot.
  assert (run E a files
          = (1, {| fs := if venv_left_behind (procs E)
                         then <[script_dir E ++ ["venv"] := Dir]> files
                         else files;
                   out := [Print MsgRequestsNotFound; Print MsgCreatingVenv;
                           Subprocess CmdCreateVenv];
                   installer_path := None |})) as ->.
  { unfold venv_there in Hthere.
    unfold run, main, run_with_venv, setup_venv, path_exists. rewrite Himp.
    unfold_monad. cbn [start fs].
    destruct (node_at files (script_dir E ++ ["venv"])); [done |].
    cbn [negb]. unfold_monad. rewrite Hcreated.
    by destruct (venv_left_behind (procs E)); unfold_monad. }
  split; [done |]. intros ->. cbn [snd fs].
  unfold run, main, run_with_venv, setup_venv, path_exists. rewrite Himp.
  unfold_monad. cbn [start fs].
  rewrite node_at_nonroot, lookup_insert_eq by done. cbn [negb].
  unfold_monad.
  destruct (venv_import_requests (procs E)) as [[|]|]; unfold_monad;
    try (destruct (pip_install_requests (procs E)) as [[|]|]; unfold_monad);
    cbn [start out app snd];
    try (by eexists);
    match goal with
    | |- context [main_with_requests E a ?s0] =>
        destruct (main_with_requests_outcome E a s0 eq_refl)
          as (_ & evs & Hout & _);
        destruct (main_with_requests E a s0) as [r s']
    end; cbn [fst snd out app] in *; rewrite Hout; by eexists.
Qed.

Lemma failed_venv_creation_is_not_retried_witness :
  requests_importable sample_env_venv_fails = false
  ∧ venv_there sample_env_venv_fails sample_files = false
  ∧ venv_created (procs sample_env_venv_fails) = false
  ∧ fst (run sample_env_venv_fails sample_args sample_files) = 1
  ∧ fs (snd (run sample_env_venv_fails sample_args sample_files))
      !! ["repo"; "helpers"; "venv"] = Some Dir.
Proof.
  destruct (failed_venv_creation_is_not_retried sample_env_venv_fails
              sample_args sample_files eq_refl eq_refl eq_refl) as [Hfirst _].
  split_and!; [reflexivity | reflexivity | reflexivity | |].
  - by rewrite Hfirst.
  - by rewrite Hfirst.
Defined.

(** ** The cleanup on any list of paths *)

(** X13. The cleanup on a list of paths none of which is a directory,
    whatever its length, with or without repeated and missing paths: it
    does not raise; afterwards no listed path is there and every other
    path is untouched; after its opening message it reports every listed
    path that was there and nothing else. *)
Theorem cleanup_temp_files_removes_listed (temp_files : list path) s :
  Forall (λ p, node_at (fs s) p ≠ Some Dir) temp_files →
  let after := cleanup_temp_files temp_files s in
  fst after = Ok tt
  ∧ (∀ p, p ∈ temp_files → fs (snd after) !! p = None)
  ∧ (∀ q, q ∉ temp_files → fs (snd after) !! q = fs s !! q)
  ∧ ∃ evs,
      out (snd after) = out s ++ Print MsgCleaning :: evs
      ∧ (∀ p, p ∈ temp_files → is_Some (fs s !! p) →
           Print (MsgRemoved (name p)) ∈ evs)
      ∧ (∀ e, e ∈ evs →
           ∃ p, p ∈ temp_files ∧ is_Some (fs s !! p)
                ∧ e = Print (MsgRemoved (name p))).
Proof.
  intros Hnodir after. subst after.
  destruct (cleanup_temp_files_spec temp_files s Hnodir)
    as (f' & evs & -> & Hgone & Hkept & Hsaid & Honly).
  cbn [fst snd fs out]. split_and!; [done.. |]. by exists evs.
Qed.

Lemma cleanup_temp_files_removes_listed_witness :
  Forall (λ p, node_at (fs (start sample_temp_files)) p ≠ Some Dir)
    sample_temp_list
  ∧ fst (cleanup_temp_files sample_temp_list (start sample_temp_files)) = Ok tt
  ∧ fs (snd (cleanup_temp_files sample_temp_list (start sample_temp_files)))
      !! ["t"; "a.exe"] = None.
Proof.
  assert (Forall (λ p, node_at (fs (start sample_temp_files)) p ≠ Some Dir)
            sample_temp_list) as Hnodir
    by (repeat constructor; discriminate).
  destruct (cleanup_temp_files_removes_listed sample_temp_list
              (start sample_temp_files) Hnodir) as (Hok & Hgone & _).
  split_and!; [exact Hnodir | exact Hok |].
  apply Hgone. apply list_elem_of_here.
Defined.

(** Paths that are not there are passed over. *)
Lemma remove_each_absent (temp_files : list path) s :
  Forall (λ p, node_at (fs s) p = None) temp_files →
  remove_each temp_files s = (Ok tt, s).
Proof.
  induction 1 as [|p rest Hp _ IH]; [done |].
  cbn [remove_each]. unfold path_exists. unfold_monad. rewrite Hp.
  unfold_monad. by rewrite IH.
Qed.

(** X14. The cleanup can be repeated: run again on the same list right
    after itself, it prints its opening message, removes nothing and
    reports nothing. *)
Theorem cleanup_temp_files_twice (temp_files : list path) s :
  Forall (λ p, node_at (fs s) p ≠ Some Dir) temp_files →
  let once := snd (cleanup_temp_files temp_files s) in
  cleanup_temp_files temp_files once = (Ok tt, say once [Print MsgCleaning]).
Proof.
  intros Hnodir once. subst once.
  destruct (cleanup_temp_files_spec temp_files s Hnodir)
    as (f' & evs & -> & Hgone & _).
  cbn [snd]. unfold cleanup_temp_files at 1. unfold_monad.
  rewrite remove_each_absent; [done |]. cbn [fs].
  apply Forall_forall. intros p Hp.
  eapply Forall_forall in Hnodir; [| exact Hp].
  destruct p as [|x p]; [done |]. cbn [node_at]. by apply Hgone.
Qed.

Lemma cleanup_temp_files_twice_witness :
  cleanup_temp_files sample_temp_list
    (snd (cleanup_temp_files sample_temp_list (start sample_temp_files)))
  = (Ok tt,
     say (snd (cleanup_temp_files sample_temp_list (start sample_temp_files)))
       [Print MsgCleaning]).
Proof.
  apply (cleanup_temp_files_twice sample_temp_list (start sample_temp_files)).
  repeat constructor; discriminate.
Defined.

(** ** The read loop and the version string once more *)

(** X15. The checksum does not depend on how the file is cut into
    chunks: the loop of line 85 run with any positive chunk size in the
    place of 8192 ends, and the hash object then gives the reference
    digest of the whole content. *)
Theorem checksum_independent_of_chunk_size (size : nat) (data : list byte) :
  (0 < size)%nat →
  SHA256.hexdigest <$> read_loop (S (length data)) size data SHA256.new
  = Some (SHA256.hex (SHA256.sha256 data)).
Proof.
  intros Hsize. rewrite read_loop_total by (done || lia).
  cbn [fmap option_fmap option_map]. unfold SHA256.hexdigest.
  by rewrite digest_update_new.
Qed.

Lemma checksum_independent_of_chunk_size_witness :
  (0 < 5)%nat
  ∧ SHA256.hexdigest <$>
      read_loop 4 5 sample_installer SHA256.new
    = Some (SHA256.hex (SHA256.sha256 sample_installer)).
Proof.
  split; [lia |].
  apply (checksum_independent_of_chunk_size 5 sample_installer). lia.
Defined.

Lemma replace_idempotent old new s :
  old ≠ new →
  Str.replace old new (Str.replace old new s) = Str.replace old new s.
Proof.
  intros Hne. induction s as [|c s IH]; simpl; [done |]. rewrite IH.
  destruct (Ascii.eqb_spec c old) as [->|Hc]; [| by rewrite (proj2 (Ascii.eqb_neq _ _) Hc)].
  by rewrite (proj2 (Ascii.eqb_neq new old)) by congruence.
Qed.

(** X16. The URL depends on the version only through its hyphenated
    form: a version given with "-" in the place of "." is fetched from
    the same URL, and where the updates for the two spellings return,
    they leave the same [url] field, while [version] holds the version
    as it was given. *)
Theorem url_of_hyphenated_version dotted_version :
  url_of (hyphenate dotted_version) = url_of dotted_version
  ∧ ∀ s manifest_path checksum m,
      node_at (fs s) manifest_path = Some (File (JsonText m)) →
      let dotted :=
        update_manifest manifest_path dotted_version
          (hyphenate dotted_version) checksum s in
      let hyphenated :=
        update_manifest manifest_path (hyphenate dotted_version)
          (hyphenate (hyphenate dotted_version)) checksum s in
      fst dotted = Ok tt →
      fst hyphenated = Ok tt →
      ∃ m1 m2,
        fs (snd dotted) !! manifest_path = Some (File (JsonText m1))
        ∧ fs (snd hyphenated) !! manifest_path = Some (File (JsonText m2))
        ∧ json_at ["architecture"; "64bit"; "url"] m1
          = json_at ["architecture"; "64bit"; "url"] m2
        ∧ json_at ["version"] m1 = Some (JStr dotted_version)
        ∧ json_at ["version"] m2 = Some (JStr (hyphenate dotted_version)).
Proof.
  assert (hyphenate (hyphenate dotted_version) = hyphenate dotted_version)
    as Hidem by (by apply replace_idempotent).
  split; [unfold url_of; by rewrite Hidem |].
  intros s manifest_path checksum m Hp dotted hyphenated Hok1 Hok2.
  subst dotted hyphenated.
  destruct (update_manifest_returned _ _ _ _ _ _ Hp Hok1)
    as (d & a & b & -> & Ha & Hb & _ & ->).
  destruct (update_manifest_returned _ _ _ _ _ _ Hp Hok2)
    as (d' & a' & b' & [= <-] & Ha' & Hb' & _ & ->).
  cbn [fs]. do 2 eexists.
  split_and!; [apply lookup_insert_eq | apply lookup_insert_eq | | |].
  - by rewrite !updated_url, Hidem.
  - apply updated_version.
  - apply updated_version.
Qed.

Lemma url_of_hyphenated_version_witness :
  url_of "7-2-0-2" = url_of "7.2.0.2"
  ∧ fst (update_manifest sample_manifest_path "7.2.0.2" "7-2-0-2" "AB"
           (start sample_files)) = Ok tt
  ∧ fst (update_manifest sample_manifest_path "7-2-0-2" "7-2-0-2" "AB"
           (start sample_files)) = Ok tt
  ∧ ∃ m1 m2,
      fs (snd (update_manifest sample_manifest_path "7.2.0.2" "7-2-0-2" "AB"
                 (start sample_files))) !! sample_manifest_path
      = Some (File (JsonText m1))
      ∧ fs (snd (update_manifest sample_manifest_path "7-2-0-2" "7-2-0-2" "AB"
                   (start sample_files))) !! sample_manifest_path
        = Some (File (JsonText m2))
      ∧ json_at ["architecture"; "64bit"; "url"] m1
        = json_at ["architecture"; "64bit"; "url"] m2.
Proof.
  assert (node_at (fs (start sample_files)) sample_manifest_path
          = Some (File (JsonText sample_doc))) as Hp by reflexivity.
  assert (fst (update_manifest sample_manifest_path "7.2.0.2" "7-2-0-2" "AB"
                 (start sample_files)) = Ok tt) as Hok1
    by (vm_compute; reflexivity).
  assert (fst (update_manifest sample_manifest_path "7-2-0-2" "7-2-0-2" "AB"
                 (start sample_files)) = Ok tt) as Hok2
    by (vm_compute; reflexivity).
  destruct (url_of_hyphenated_version "7.2.0.2") as [Hurl Hupdates].
  destruct (Hupdates (start sample_files) sample_manifest_path "AB"
              sample_doc Hp Hok1 Hok2)
    as (m1 & m2 & Hm1 & Hm2 & Hsame & _).
  split_and!; [exact Hurl | exact Hok1 | exact Hok2 |].
  exists m1, m2. split_and!; [exact Hm1 | exact Hm2 | exact Hsame].
Defined.
